(** * Fitness tracker server: workout store, subscription gateway, analysis relay

    A shallow embedding of the Express handlers of the server (the version
    that serves the billing routes, the workout routes and the analysis
    route) and of [sendToWebhook] of the client, with the properties the
    specification states about them.

    Layout: the JavaScript values the handlers touch ([JS]), the file-backed
    workout store ([Workouts]), the payment provider as the handlers see it
    ([Stripe]), the subscription gateway handlers ([Gateway]), the analysis
    relay ([Relay]); then the theorems. *)

From Stdlib Require Import ZArith Lia Bool Ascii String List DecimalString.
From stdpp Require Import base list strings gmap.

Local Open Scope string_scope.
Set Warnings "-register-all".

(** ** JavaScript values *)

Module JS.

(** A JavaScript number. The model covers the integer-valued numbers (ids,
    minutes, calories, epoch seconds), which doubles represent exactly up to
    2^53, and [NaN], which [Number(...)] produces on unparsable input. *)
Inductive number :=
| NaN
| Int (z : Z).

(** Values as they come out of [JSON.parse] or of a missing property. An
    object is its list of own properties in insertion order. *)
Inductive value :=
| JUndefined
| JNull
| JBool (b : bool)
| JNum (n : number)
| JStr (s : string)
| JArr (items : list value)
| JObj (fields : list (string * value)).

(** [!!v] *)
Definition truthy (v : value) : bool :=
  match v with
  | JUndefined | JNull => false
  | JBool b => b
  | JNum NaN => false
  | JNum (Int z) => negb (z =? 0)%Z
  | JStr s => negb (String.eqb s "")
  | JArr _ | JObj _ => true
  end.

(** [a === b] on numbers: [NaN] equals nothing. *)
Definition number_eq (a b : number) : bool :=
  match a, b with
  | Int x, Int y => (x =? y)%Z
  | _, _ => false
  end.

(** [a === b]. Arrays and objects compare by reference; in every comparison
    the handlers make, one side was parsed from the current request, so two
    of them are never the same reference. *)
Definition strict_eq (a b : value) : bool :=
  match a, b with
  | JUndefined, JUndefined => true
  | JNull, JNull => true
  | JBool x, JBool y => Bool.eqb x y
  | JNum x, JNum y => number_eq x y
  | JStr x, JStr y => String.eqb x y
  | _, _ => false
  end.

(** [v || w] *)
Definition or_else (v w : value) : value := if truthy v then v else w.

Fixpoint assoc (k : string) (fs : list (string * value)) : option value :=
  match fs with
  | [] => None
  | (k', v) :: fs' => if String.eqb k k' then Some v else assoc k fs'
  end.

(** [v[k]] on a [v] that is neither [null] nor [undefined], for a key that
    names no built-in property ([data], [output], [type], ...): a primitive
    or an array has no such property. *)
Definition prop (v : value) (k : string) : value :=
  match v with
  | JObj fs => default JUndefined (assoc k fs)
  | _ => JUndefined
  end.

(** [v[k]] on any [v]: [None] is the [TypeError] of reading a property of
    [null] or [undefined]. *)
Definition get (v : value) (k : string) : option value :=
  match v with
  | JUndefined | JNull => None
  | _ => Some (prop v k)
  end.

Definition string_of_Z (z : Z) : string := NilZero.string_of_int (Z.to_int z).

Definition join (sep : string) (l : list string) : string :=
  match l with
  | [] => ""
  | x :: l' => fold_left (fun acc s => acc ++ sep ++ s) l' x
  end.

(** [String(v)] *)
Fixpoint ToString (v : value) : string :=
  match v with
  | JUndefined => "undefined"
  | JNull => "null"
  | JBool true => "true"
  | JBool false => "false"
  | JNum NaN => "NaN"
  | JNum (Int z) => string_of_Z z
  | JStr s => s
  | JArr items =>
      join ","
        (map (fun e => match e with
                       | JUndefined | JNull => ""
                       | _ => ToString e
                       end) items)
  | JObj _ => "[object Object]"
  end.

Section ToNumber.

(** The runtime's StringToNumber (decimal, hexadecimal, exponents,
    surrounding white space, ...) is taken as given. *)
Variable StringToNumber : string -> number.

(** [Number(v)] *)
Definition Number (v : value) : number :=
  match v with
  | JUndefined => NaN
  | JNull => Int 0
  | JBool true => Int 1
  | JBool false => Int 0
  | JNum n => n
  | JStr s => StringToNumber s
  | JArr _ | JObj _ => StringToNumber (ToString v)
  end.

End ToNumber.

(** A [StringToNumber] to run the handlers with: exact on the empty string
    and on strings of decimal digits, [NaN] on every other string. *)
Definition digits (s : string) : number :=
  if String.eqb s "" then Int 0
  else match NilZero.uint_of_string s with
       | Some u => Int (Z.of_uint u)
       | None => NaN
       end.

(** *** JSON.stringify *)

Definition dquote : string := String (ascii_of_nat 34) "".
Definition backslash : string := String (ascii_of_nat 92) "".

Definition hex_digit (n : nat) : string :=
  String (nth n (list_ascii_of_string "0123456789abcdef") "0"%char) "".

(** One character of QuoteJSONString. *)
Definition quote_char (c : ascii) : string :=
  let n := nat_of_ascii c in
  if (n =? 34)%nat then backslash ++ dquote
  else if (n =? 92)%nat then backslash ++ backslash
  else if (n =? 8)%nat then backslash ++ "b"
  else if (n =? 12)%nat then backslash ++ "f"
  else if (n =? 10)%nat then backslash ++ "n"
  else if (n =? 13)%nat then backslash ++ "r"
  else if (n =? 9)%nat then backslash ++ "t"
  else if (n <? 32)%nat then
    backslash ++ "u00" ++ hex_digit (n / 16) ++ hex_digit (n mod 16)
  else String c "".

Definition quote (s : string) : string :=
  dquote ++ String.concat "" (map quote_char (list_ascii_of_string s)) ++ dquote.

(** [JSON.stringify(v)]; [None] is the [undefined] it returns for
    [undefined], which an array prints as [null] and an object leaves
    out together with its key. *)
Fixpoint stringify (v : value) : option string :=
  match v with
  | JUndefined => None
  | JNull => Some "null"
  | JBool true => Some "true"
  | JBool false => Some "false"
  | JNum NaN => Some "null"
  | JNum (Int z) => Some (string_of_Z z)
  | JStr s => Some (quote s)
  | JArr items =>
      Some ("[" ++ join "," (map (fun e => default "null" (stringify e)) items) ++ "]")
  | JObj fields =>
      let member :=
        fix member (fs : list (string * value)) : list string :=
          match fs with
          | [] => []
          | (k, e) :: fs' =>
              match stringify e with
              | Some s => (quote k ++ ":" ++ s) :: member fs'
              | None => member fs'
              end
          end in
      Some ("{" ++ join "," (member fields) ++ "}")
  end.

Definition newline : string := String (ascii_of_nat 10) "".

(** [JSON.stringify(v, null, gap)] for a non-empty [gap], at the
    indentation [indent]: every member and every element on a line of its
    own, [": "] after a key, and [{}] and [[]] for an object without
    members and an array without elements. *)
Fixpoint stringify_indented (gap indent : string) (v : value) : option string :=
  match v with
  | JUndefined => None
  | JNull => Some "null"
  | JBool true => Some "true"
  | JBool false => Some "false"
  | JNum NaN => Some "null"
  | JNum (Int z) => Some (string_of_Z z)
  | JStr s => Some (quote s)
  | JArr items =>
      let inner := indent ++ gap in
      match items with
      | [] => Some "[]"
      | _ :: _ =>
          Some ("[" ++ newline ++ inner
                ++ join ("," ++ newline ++ inner)
                     (map (fun e => default "null" (stringify_indented gap inner e))
                          items)
                ++ newline ++ indent ++ "]")
      end
  | JObj fields =>
      let inner := indent ++ gap in
      let member :=
        fix member (fs : list (string * value)) : list string :=
          match fs with
          | [] => []
          | (k, e) :: fs' =>
              match stringify_indented gap inner e with
              | Some s => (quote k ++ ": " ++ s) :: member fs'
              | None => member fs'
              end
          end in
      match member fields with
      | [] => Some "{}"
      | members =>
          Some ("{" ++ newline ++ inner
                ++ join ("," ++ newline ++ inner) members
                ++ newline ++ indent ++ "}")
      end
  end.

End JS.

(** ** The workout store (file-backed variant) *)

Module Workouts.
Import JS.

Record workout := {
  id : number;
  user_id : value;
  type : value;
  duration : number;
  calories : number;
  notes : value;
  ai_analysis : value;
  created_at : string;
  updated_at : option string
}.

(** The module-level [workouts] and [nextWorkoutId], and the text of
    [workouts.json] as last written by [saveWorkouts]. *)
Record store := {
  workouts : list workout;
  nextWorkoutId : Z;
  file : option string
}.

(** The store of a server started without a [workouts.json]. *)
Definition empty : store :=
  {| workouts := []; nextWorkoutId := 1; file := None |}.

(** A stored workout as the object it is: its properties in the order
    the handlers write them, [updated_at] being there once the workout was
    updated. *)
Definition toObject (w : workout) : value :=
  JObj ([("id", JNum (id w));
         ("user_id", user_id w);
         ("type", type w);
         ("duration", JNum (duration w));
         ("calories", JNum (calories w));
         ("notes", notes w);
         ("ai_analysis", ai_analysis w);
         ("created_at", JStr (created_at w))]
        ++ match updated_at w with
           | Some now => [("updated_at", JStr now)]
           | None => []
           end).

(** [JSON.stringify({ workouts, nextWorkoutId }, null, 2)], which is a
    text for every store: in it a [NaN] is written [null]. *)
Definition serialized (s : store) : string :=
  default ""
    (stringify_indented "  " ""
       (JObj [("workouts", JArr (map toObject (workouts s)));
              ("nextWorkoutId", JNum (Int (nextWorkoutId s)))])).
Arguments serialized : simpl never.

(** [saveWorkouts()], the write being taken to succeed. *)
Definition saveWorkouts (s : store) : store :=
  {| workouts := workouts s;
     nextWorkoutId := nextWorkoutId s;
     file := Some (serialized s) |}.

(** The fields a handler destructures from [req.body]; an absent field is
    [JUndefined]. *)
Module Body.
Record t := {
  user_id : value;
  type : value;
  duration : value;
  calories : value;
  notes : value;
  ai_analysis : value
}.
End Body.

Inductive payload :=
| Workout (w : workout)
| WorkoutList (ws : list workout)
| Error (error : string)
| Success (message : string).

(** [res.status(status).json(json)] *)
Record reply := { status : nat; json : payload }.

(** [Array.prototype.findIndex] *)
Fixpoint findIndex {A : Type} (p : A -> bool) (l : list A) : Z :=
  match l with
  | [] => -1
  | x :: l' =>
      if p x then 0
      else let i := findIndex p l' in
           if (i =? -1)%Z then (-1)%Z else (i + 1)%Z
  end.

Section Handlers.

Variable StringToNumber : string -> number.

Let Number := JS.Number StringToNumber.

(** The callback of both [findIndex] calls:
    [w => w.id === Number(id) && w.user_id === user_id]. *)
Definition matches (id' : string) (user_id' : value) (w : workout) : bool :=
  number_eq (id w) (Number (JStr id')) && strict_eq (user_id w) user_id'.

(** [GET /api/workouts/:userId] *)
Definition getWorkouts (userId : string) (s : store) : store * reply :=
  let userWorkouts :=
    List.filter (fun workout => strict_eq (user_id workout) (JStr userId))
                (workouts s) in
  (s, {| status := 200; json := WorkoutList userWorkouts |}).

(** [POST /api/workouts]; [now] is [new Date().toISOString()]. The
    increment of [nextWorkoutId++] is the exact one, as it is on a counter
    below 2^53. *)
Definition createWorkout (b : Body.t) (now : string) (s : store)
  : store * reply :=
  if negb (truthy (Body.user_id b)) || negb (truthy (Body.type b))
     || negb (truthy (Body.duration b))
     || strict_eq (Body.calories b) JUndefined
  then
    (s, {| status := 400;
           json := Error "Missing required fields: user_id, type, duration, calories" |})
  else
    let workout :=
      {| id := Int (nextWorkoutId s);
         user_id := Body.user_id b;
         type := Body.type b;
         duration := Number (Body.duration b);
         calories := Number (Body.calories b);
         notes := or_else (Body.notes b) JNull;
         ai_analysis := or_else (Body.ai_analysis b) JNull;
         created_at := now;
         updated_at := None |} in
    let s1 :=
      {| workouts := workouts s ++ [workout];
         nextWorkoutId := (nextWorkoutId s + 1)%Z;
         file := file s |} in
    (saveWorkouts s1, {| status := 201; json := Workout workout |}).

(** [PUT /api/workouts/:id] *)
Definition updateWorkout (id' : string) (b : Body.t) (now : string)
    (s : store) : store * reply :=
  let workoutIndex := findIndex (matches id' (Body.user_id b)) (workouts s) in
  if (workoutIndex =? -1)%Z then
    (s, {| status := 404; json := Error "Workout not found" |})
  else
    match workouts s !! Z.to_nat workoutIndex with
    | None =>
        (* reading a field of a missing element throws: the catch clause *)
        (s, {| status := 500; json := Error "Failed to update workout" |})
    | Some old =>
        let updated :=
          {| id := id old;
             user_id := user_id old;
             type := or_else (Body.type b) (type old);
             duration :=
               if negb (strict_eq (Body.duration b) JUndefined)
               then Number (Body.duration b) else duration old;
             calories :=
               if negb (strict_eq (Body.calories b) JUndefined)
               then Number (Body.calories b) else calories old;
             notes :=
               if negb (strict_eq (Body.notes b) JUndefined)
               then Body.notes b else notes old;
             ai_analysis :=
               if negb (strict_eq (Body.ai_analysis b) JUndefined)
               then Body.ai_analysis b else ai_analysis old;
             created_at := created_at old;
             updated_at := Some now |} in
        let s1 :=
          {| workouts := <[Z.to_nat workoutIndex := updated]> (workouts s);
             nextWorkoutId := nextWorkoutId s;
             file := file s |} in
        (saveWorkouts s1, {| status := 200; json := Workout updated |})
    end.

(** [DELETE /api/workouts/:id?user_id=...] *)
Definition deleteWorkout (id' : string) (user_id' : value) (s : store)
  : store * reply :=
  let workoutIndex := findIndex (matches id' user_id') (workouts s) in
  if (workoutIndex =? -1)%Z then
    (s, {| status := 404; json := Error "Workout not found" |})
  else
    let s1 :=
      {| workouts := delete (Z.to_nat workoutIndex) (workouts s);
         nextWorkoutId := nextWorkoutId s;
         file := file s |} in
    (saveWorkouts s1,
     {| status := 200; json := Success "Workout deleted successfully" |}).

(** A request to one of the four workout routes. *)
Inductive request :=
| GetWorkouts (userId : string)
| CreateWorkout (b : Body.t) (now : string)
| UpdateWorkout (id' : string) (b : Body.t) (now : string)
| DeleteWorkout (id' : string) (user_id' : value).

Definition handle (q : request) (s : store) : store * reply :=
  match q with
  | GetWorkouts userId => getWorkouts userId s
  | CreateWorkout b now => createWorkout b now s
  | UpdateWorkout id' b now => updateWorkout id' b now s
  | DeleteWorkout id' user_id' => deleteWorkout id' user_id' s
  end.

(** The requests of [qs] served one after the other: the store after the
    last one and the replies in order. *)
Fixpoint run (qs : list request) (s : store) : store * list reply :=
  match qs with
  | [] => (s, [])
  | q :: qs' =>
      let (s1, r) := handle q s in
      let (s2, rs) := run qs' s1 in
      (s2, r :: rs)
  end.

(** In the exchange [qs]/[rs], the workout with id [n] was created by a
    request of user [A]: some create request with [user_id] [A] was
    answered 201 with a record of that id. *)
Definition created_by (qs : list request) (rs : list reply)
    (n : number) (A : value) : Prop :=
  exists (k : nat) (b : Body.t) (now : string) (w : workout),
    qs !! k = Some (CreateWorkout b now)
    /\ rs !! k = Some {| status := 201; json := Workout w |}
    /\ id w = n
    /\ Body.user_id b = A.

End Handlers.

(** What holds of every store the handlers build from [empty]: ids were
    handed out below [nextWorkoutId], which starts at 1. *)
Definition store_ok (s : store) : Prop :=
  (1 <= nextWorkoutId s)%Z /\
  Forall (fun w => exists n, id w = Int n /\ (1 <= n < nextWorkoutId s)%Z)
         (workouts s).

End Workouts.

(** ** The payment provider, as the handlers see it *)

Module Stripe.

Module Customer.
(** [userId] is [customer.metadata.userId]; [created] is in seconds since
    the epoch. *)
Record t := {
  id : string;
  email : string;
  userId : option string;
  created : Z
}.
End Customer.

Module Subscription.
(** [price_id] and [interval] are [items.data[0]?.price?.id] and
    [items.data[0]?.price?.recurring?.interval]; [current_period_end] is in
    seconds since the epoch, [None] when the subscription object carries no
    such property. *)
Record t := {
  id : string;
  customer : string;
  status : string;
  current_period_end : option Z;
  price_id : option string;
  interval : option string
}.
End Subscription.

Module Session.
Record t := { id : string; customer : string; price : string }.
End Session.

(** The provider's records, each list in the order its list call returns
    them (most recent first), the counter behind the ids it issues and its
    clock, in seconds since the epoch. *)
Record state := {
  customers : list Customer.t;
  subscriptions : list Subscription.t;
  sessions : list Session.t;
  issued : Z;
  clock : Z
}.

(** A thrown exception: a provider error with its [code] and [message],
    the [TypeError] of a property read on [null] or [undefined], or the
    [RangeError] of [toISOString] on a date that holds no time. *)
Inductive error :=
| StripeError (code message : string)
| TypeError
| RangeError.

Definition code (e : error) : option string :=
  match e with
  | StripeError c _ => Some c
  | TypeError | RangeError => None
  end.

Inductive outcome (A : Type) :=
| Returned (a : A)
| Thrown (e : error).
Arguments Returned {A} a.
Arguments Thrown {A} e.

(** An [await]ed computation against the provider: what it returns or
    throws, and the provider's records afterwards (a [throw] undoes
    nothing). *)
Definition M (A : Type) : Type := state -> outcome A * state.

Definition ret {A : Type} (a : A) : M A := fun st => (Returned a, st).

Definition throw {A : Type} (e : error) : M A := fun st => (Thrown e, st).

Definition bind {A B : Type} (m : M A) (k : A -> M B) : M B :=
  fun st =>
    match m st with
    | (Returned a, st') => k a st'
    | (Thrown e, st') => (Thrown e, st')
    end.

(** [try { m } catch (error) { h error }] *)
Definition try_catch {A : Type} (m : M A) (h : error -> M A) : M A :=
  fun st =>
    match m st with
    | (Returned a, st') => (Returned a, st')
    | (Thrown e, st') => h e st'
    end.

(** A computation that leaves the provider's records as they are,
    whatever it returns or throws. *)
Definition read_only {A : Type} (m : M A) : Prop :=
  forall st, snd (m st) = st.

Declare Scope stripe_scope.
Delimit Scope stripe_scope with stripe.
Notation "x <- m ;; k" := (bind m (fun x => k))
  (at level 100, m at next level, right associativity) : stripe_scope.
Local Open Scope stripe_scope.

(** [for (const x of xs) { await f(x) }] *)
Fixpoint for_each {A : Type} (f : A -> M unit) (xs : list A) : M unit :=
  match xs with
  | [] => ret tt
  | x :: xs' => _ <- f x ;; for_each f xs'
  end.

Definition option_string_eqb (a b : option string) : bool :=
  match a, b with
  | Some x, Some y => String.eqb x y
  | None, None => true
  | _, _ => false
  end.

Definition no_such (kind id : string) : error :=
  StripeError "resource_missing" ("No such " ++ kind ++ ": '" ++ id ++ "'").

(** [stripe.customers.list({ email, limit })] *)
Definition customers_list (email : string) (limit : nat) : M (list Customer.t) :=
  fun st =>
    (Returned
       (firstn limit
          (List.filter (fun c => String.eqb (Customer.email c) email)
                       (customers st))),
     st).

(** [stripe.customers.retrieve(id)] *)
Definition customers_retrieve (id : string) : M Customer.t :=
  fun st =>
    match List.find (fun c => String.eqb (Customer.id c) id) (customers st) with
    | Some c => (Returned c, st)
    | None => (Thrown (no_such "customer" id), st)
    end.

Definition retag (id userId : string) (c : Customer.t) : Customer.t :=
  if String.eqb (Customer.id c) id
  then {| Customer.id := Customer.id c;
          Customer.email := Customer.email c;
          Customer.userId := Some userId;
          Customer.created := Customer.created c |}
  else c.

(** The provider's records once customer [id] carries the tag [userId]. *)
Definition retagged (id userId : string) (st : state) : state :=
  {| customers := map (retag id userId) (customers st);
     subscriptions := subscriptions st;
     sessions := sessions st;
     issued := issued st;
     clock := clock st |}.

(** [stripe.customers.update(id, { metadata: { userId } })] *)
Definition customers_update (id userId : string) : M Customer.t :=
  fun st =>
    match List.find (fun c => String.eqb (Customer.id c) id) (customers st) with
    | Some c => (Returned (retag id userId c), retagged id userId st)
    | None => (Thrown (no_such "customer" id), st)
    end.

(** [stripe.customers.create({ metadata: { userId }, email })] *)
Definition customers_create (userId email : string) : M Customer.t :=
  fun st =>
    let c := {| Customer.id := "cus_" ++ JS.string_of_Z (issued st);
                Customer.email := email;
                Customer.userId := Some userId;
                Customer.created := clock st |} in
    (Returned c,
     {| customers := c :: customers st;
        subscriptions := subscriptions st;
        sessions := sessions st;
        issued := (issued st + 1)%Z;
        clock := clock st |}).

(** The active subscriptions of a customer, all of them. *)
Definition active_of (customer : string) (st : state) : list Subscription.t :=
  List.filter
    (fun s => String.eqb (Subscription.customer s) customer
              && String.eqb (Subscription.status s) "active")
    (subscriptions st).

Definition has_active (st : state) (c : Customer.t) : bool :=
  (0 <? length (active_of (Customer.id c) st))%nat.

(** [stripe.subscriptions.list({ customer, status: 'active', limit })]; a
    list call without [limit] returns the provider's default page of 10. *)
Definition subscriptions_list_active (customer : string) (limit : option nat)
  : M (list Subscription.t) :=
  fun st => (Returned (firstn (default 10%nat limit) (active_of customer st)), st).

(** The subscriptions of a customer, whatever their status. *)
Definition all_of (customer : string) (st : state) : list Subscription.t :=
  List.filter (fun s => String.eqb (Subscription.customer s) customer)
              (subscriptions st).

(** [stripe.subscriptions.list({ customer })], the call the check routes
    make for "all subscriptions (including inactive ones)": the default
    page of 10. *)
Definition subscriptions_list (customer : string) : M (list Subscription.t) :=
  fun st => (Returned (firstn 10 (all_of customer st)), st).

Definition cancelled (id : string) (s : Subscription.t) : Subscription.t :=
  if String.eqb (Subscription.id s) id
  then {| Subscription.id := Subscription.id s;
          Subscription.customer := Subscription.customer s;
          Subscription.status := "canceled";
          Subscription.current_period_end := Subscription.current_period_end s;
          Subscription.price_id := Subscription.price_id s;
          Subscription.interval := Subscription.interval s |}
  else s.

(** [stripe.subscriptions.cancel(id)] *)
Definition subscriptions_cancel (id : string) : M unit :=
  fun st =>
    if existsb (fun s => String.eqb (Subscription.id s) id) (subscriptions st)
    then (Returned tt,
          {| customers := customers st;
             subscriptions := map (cancelled id) (subscriptions st);
             sessions := sessions st;
             issued := issued st;
             clock := clock st |})
    else (Thrown (no_such "subscription" id), st).

(** [stripe.checkout.sessions.create({ mode: 'subscription', customer,
    line_items: [{ price, quantity: 1 }], ... })] *)
Definition checkout_sessions_create (customer price : string) : M Session.t :=
  fun st =>
    let s := {| Session.id := "cs_" ++ JS.string_of_Z (issued st);
                Session.customer := customer;
                Session.price := price |} in
    (Returned s,
     {| customers := customers st;
        subscriptions := subscriptions st;
        sessions := s :: sessions st;
        issued := (issued st + 1)%Z;
        clock := clock st |}).

(** What the provider does once the customer has paid on the hosted page
    of session [id], a session of [mode: 'subscription']: it starts an
    active subscription to the price of the session for the customer of
    the session, with the period end and the interval of that price. *)
Definition checkout_completed (id : string) (period_end : Z)
    (interval : option string) : M Subscription.t :=
  fun st =>
    match List.find (fun s => String.eqb (Session.id s) id) (sessions st) with
    | Some session =>
        let s := {| Subscription.id := "sub_" ++ JS.string_of_Z (issued st);
                    Subscription.customer := Session.customer session;
                    Subscription.status := "active";
                    Subscription.current_period_end := Some period_end;
                    Subscription.price_id := Some (Session.price session);
                    Subscription.interval := interval |} in
        (Returned s,
         {| customers := customers st;
            subscriptions := s :: subscriptions st;
            sessions := sessions st;
            issued := (issued st + 1)%Z;
            clock := clock st |})
    | None => (Thrown (no_such "checkout.session" id), st)
    end.

End Stripe.

(** ** The subscription gateway *)

Module Gateway.
Import Stripe.
Local Open Scope stripe_scope.

(** [subscriptionDetails] of a status reply. *)
Record details := {
  priceId : option string;
  interval : option string;
  currentPeriodEnd : string
}.

(** The body of a [check-subscription] reply; an absent key is [None], and
    [subscriptionDetails: null] is [Some None]. *)
Module Status.
Record t := {
  isSubscribed : bool;
  subscriptionDetails : option (option details);
  error : option string;
  clearData : option bool
}.
End Status.

(** The body of a [cancel-subscription] reply. *)
Module Cancel.
Record t := {
  success : bool;
  message : option string;
  error : option string;
  clearData : option bool
}.
End Cancel.

Inductive body :=
| CheckoutSession (id customerId : string)
| SubscriptionStatus (s : Status.t)
| CancelResult (c : Cancel.t)
| CustomerId (customerId : option string)
| Error (error : option string)
| Received
| WebhookError (e : Stripe.error).

Record reply := { status : nat; json : body }.

(** [error.message] *)
Definition message (e : Stripe.error) : option string :=
  match e with
  | StripeError _ m => Some m
  | TypeError => None
  | RangeError => Some "Invalid time value"
  end.

(** [s.includes(sub)] *)
Definition includes (s sub : string) : bool :=
  match String.index 0 sub s with
  | Some _ => true
  | None => false
  end.

(** "Check if customerId looks like a userId (UUID format) instead of a
    Stripe customer ID":
    [customerId === userId || (customerId.length === 36 && customerId.includes('-'))];
    lengths agree with the runtime's on ASCII ids. *)
Definition looks_like_userId (customerId userId : string) : bool :=
  String.eqb customerId userId
  || ((String.length customerId =? 36)%nat && includes customerId "-").

(** The outer [try { ... } catch (error) { res.status(500).json(...) }]. *)
Definition or_500 (m : M reply) (b : Stripe.error -> body) : M reply :=
  try_catch m (fun e => ret {| status := 500; json := b e |}).

(** The inner [try { customer = await stripe.customers.retrieve(...) }]:
    the customer, or the reply the [catch] clause returns with. *)
Definition retrieve_or (customerId : string) (missing : reply)
  : M (Customer.t + reply) :=
  try_catch
    (customer <- customers_retrieve customerId ;; ret (inl customer))
    (fun e =>
       if option_string_eqb (code e) (Some "resource_missing")
       then ret (inr missing)
       else throw e).

(** [POST /create-checkout-session] *)
Definition createCheckoutSession (priceId userId email : string) : M reply :=
  or_500
    (existingCustomers <- customers_list email 1 ;;
     customer <-
       match existingCustomers with
       | customer :: _ =>
           if negb (option_string_eqb (Customer.userId customer) (Some userId))
           then customers_update (Customer.id customer) userId
           else ret customer
       | [] => customers_create userId email
       end ;;
     existingSubscriptions <-
       subscriptions_list_active (Customer.id customer) (Some 1%nat) ;;
     if (0 <? length existingSubscriptions)%nat then
       ret {| status := 400;
              json := Error (Some "You already have an active subscription. Please cancel your current subscription before creating a new one.") |}
     else
       session <- checkout_sessions_create (Customer.id customer) priceId ;;
       ret {| status := 200;
              json := CheckoutSession (Session.id session) (Customer.id customer) |})
    (fun e => Error (message e)).

(** [new Date(seconds * 1000)] holds a time when the milliseconds are
    within 8.64e15 of the epoch; it holds none when they are not, or when
    there are no [seconds] ([undefined * 1000] is [NaN]). *)
Definition has_time (seconds : option Z) : bool :=
  match seconds with
  | Some z => (Z.abs (z * 1000) <=? 8640000000000000)%Z
  | None => false
  end.

(** [new Date(seconds * 1000).toISOString()] where the text goes to the
    console only: it is evaluated all the same, and throws on a date that
    holds no time. *)
Definition log_date (seconds : option Z) : M unit :=
  if has_time seconds then ret tt else throw RangeError.

(** [subscriptions.data.map(sub => ({ ..., current_period_end:
    new Date(sub.current_period_end * 1000).toISOString(), ... }))] as an
    argument of [console.log]. *)
Definition log_subscriptions (subscriptions : list Subscription.t) : M unit :=
  for_each (fun sub => log_date (Subscription.current_period_end sub))
           subscriptions.

(** Every subscription of [customer], whatever its status, carries a
    period end that gives a date. *)
Definition period_ends_dated (customer : string) (st : state) : Prop :=
  forall s,
    In s (subscriptions st) -> Subscription.customer s = customer ->
    has_time (Subscription.current_period_end s) = true.

Section Status.

(** [seconds => new Date(seconds * 1000).toISOString()] on [seconds] for
    which the date holds a time. *)
Variable toISOString : Z -> string.

(** [new Date(seconds * 1000).toISOString()] *)
Definition date_text (seconds : option Z) : M string :=
  match seconds with
  | Some z => if has_time seconds then ret (toISOString z) else throw RangeError
  | None => throw RangeError
  end.

(** [GET /check-subscription/:customerId/:userId] *)
Definition checkSubscription (customerId userId : string) : M reply :=
  or_500
    (if looks_like_userId customerId userId then
       ret {| status := 200;
              json := SubscriptionStatus
                {| Status.isSubscribed := false;
                   Status.subscriptionDetails := None;
                   Status.error := Some "Invalid customer ID format";
                   Status.clearData := Some true |} |}
     else
       found <- retrieve_or customerId
         {| status := 200;
            json := SubscriptionStatus
              {| Status.isSubscribed := false;
                 Status.subscriptionDetails := None;
                 Status.error := Some "Customer not found";
                 Status.clearData := Some true |} |} ;;
       match found with
       | inr early => ret early
       | inl customer =>
           if negb (option_string_eqb (Customer.userId customer) (Some userId))
           then
             ret {| status := 200;
                    json := SubscriptionStatus
                      {| Status.isSubscribed := false;
                         Status.subscriptionDetails := None;
                         Status.error := None;
                         Status.clearData := None |} |}
           else
             subscriptions <- subscriptions_list_active customerId None ;;
             _ <- (if (0 <? length subscriptions)%nat then
                     log_subscriptions subscriptions
                   else
                     allSubscriptions <- subscriptions_list customerId ;;
                     if (0 <? length allSubscriptions)%nat
                     then log_subscriptions allSubscriptions
                     else ret tt) ;;
             let isSubscribed := (0 <? length subscriptions)%nat in
             subscriptionDetails <-
               match subscriptions with
               | activeSubscription :: _ =>
                   currentPeriodEnd <-
                     date_text (Subscription.current_period_end activeSubscription) ;;
                   ret (Some {| priceId := Subscription.price_id activeSubscription;
                                interval := Subscription.interval activeSubscription;
                                currentPeriodEnd := currentPeriodEnd |})
               | [] => ret None
               end ;;
             ret {| status := 200;
                    json := SubscriptionStatus
                      {| Status.isSubscribed := isSubscribed;
                         Status.subscriptionDetails := Some subscriptionDetails;
                         Status.error := None;
                         Status.clearData := None |} |}
       end)
    (fun e => Error (message e)).

End Status.

(** [POST /cancel-subscription/:customerId/:userId] *)
Definition cancelSubscription (customerId userId : string) : M reply :=
  or_500
    (found <- retrieve_or customerId
       {| status := 404;
          json := CancelResult
            {| Cancel.success := false;
               Cancel.message := None;
               Cancel.error := Some "Customer not found. Your stored subscription data is invalid and needs to be cleared.";
               Cancel.clearData := Some true |} |} ;;
     match found with
     | inr early => ret early
     | inl customer =>
         if negb (option_string_eqb (Customer.userId customer) (Some userId))
         then
           ret {| status := 403;
                  json := CancelResult
                    {| Cancel.success := false;
                       Cancel.message := None;
                       Cancel.error := Some "Unauthorized: Customer does not belong to user";
                       Cancel.clearData := None |} |}
         else
           subscriptions <- subscriptions_list_active customerId (Some 1%nat) ;;
           if (length subscriptions =? 0)%nat then
             ret {| status := 200;
                    json := CancelResult
                      {| Cancel.success := true;
                         Cancel.message := Some "No active subscription found";
                         Cancel.error := None;
                         Cancel.clearData := None |} |}
           else
             _ <- for_each
                    (fun subscription =>
                       subscriptions_cancel (Subscription.id subscription))
                    subscriptions ;;
             ret {| status := 200;
                    json := CancelResult
                      {| Cancel.success := true;
                         Cancel.message := Some "Subscription cancelled successfully";
                         Cancel.error := None;
                         Cancel.clearData := None |} |}
     end)
    (fun _ =>
       CancelResult
         {| Cancel.success := false;
            Cancel.message := None;
            Cancel.error := Some "Failed to cancel subscription. Please try again or contact support.";
            Cancel.clearData := None |}).

(** The [for (const customer of customers.data)] loop of
    [find-customer-by-email], with the reply after it; the line it logs
    for each customer carries
    [new Date(customer.created * 1000).toISOString()]. *)
Fixpoint scan_customers (userId : string) (customers : list Customer.t)
  : M reply :=
  match customers with
  | [] => ret {| status := 200; json := CustomerId None |}
  | customer :: rest =>
      _ <- log_date (Some (Customer.created customer)) ;;
      if option_string_eqb (Customer.userId customer) (Some userId) then
        ret {| status := 200; json := CustomerId (Some (Customer.id customer)) |}
      else
        subscriptions <-
          subscriptions_list_active (Customer.id customer) (Some 1%nat) ;;
        if (0 <? length subscriptions)%nat then
          _ <- customers_update (Customer.id customer) userId ;;
          ret {| status := 200; json := CustomerId (Some (Customer.id customer)) |}
        else scan_customers userId rest
  end.

(** [!s] for a body field that is a string when present. *)
Definition falsy (s : option string) : bool :=
  match s with
  | None => true
  | Some s => String.eqb s ""
  end.

(** [POST /find-customer-by-email] *)
Definition findCustomerByEmail (email userId : option string) : M reply :=
  or_500
    (if falsy email || falsy userId then
       ret {| status := 400; json := Error (Some "Email and userId are required") |}
     else
       customers <- customers_list (default "" email) 10 ;;
       scan_customers (default "" userId) customers)
    (fun _ => Error (Some "Failed to find customer")).

(** The specification's reading of the search, for comparison with
    [scan_customers]: first a customer tagged with [userId]; only failing
    that, the first one with an active subscription, retagged. *)
Definition scan_customers_spec (userId : string) (customers : list Customer.t)
  : M reply :=
  match List.find (fun c => option_string_eqb (Customer.userId c) (Some userId))
                  customers with
  | Some customer =>
      ret {| status := 200; json := CustomerId (Some (Customer.id customer)) |}
  | None =>
      fun st =>
        match List.find (has_active st) customers with
        | Some customer =>
            (_ <- customers_update (Customer.id customer) userId ;;
             ret {| status := 200;
                    json := CustomerId (Some (Customer.id customer)) |}) st
        | None => ret {| status := 200; json := CustomerId None |} st
        end
  end.

Definition findCustomerByEmail_spec (email userId : option string) : M reply :=
  or_500
    (if falsy email || falsy userId then
       ret {| status := 400; json := Error (Some "Email and userId are required") |}
     else
       customers <- customers_list (default "" email) 10 ;;
       scan_customers_spec (default "" userId) customers)
    (fun _ => Error (Some "Failed to find customer")).

Section Webhook.

(** What [express] hands over as [req.body]: behind [express.json()],
    which is mounted in front of the route's [express.raw], the parsed
    body of a JSON request. *)
Variable raw : Type.

(** [stripe.webhooks.constructEvent(body, signature, secret)]: the parsed
    event when the signature verifies against the secret, a thrown
    signature error otherwise. *)
Variable constructEvent :
  raw -> option string -> option string -> outcome JS.value.

(** A line on the console. *)
Inductive line :=
| LogSubscription (type : string) (subscription : JS.value)
| LogUnhandled (type : string)
| LogWebhookError (e : Stripe.error).

Definition is_subscription_event (type : JS.value) : bool :=
  JS.strict_eq type (JS.JStr "customer.subscription.created")
  || JS.strict_eq type (JS.JStr "customer.subscription.updated")
  || JS.strict_eq type (JS.JStr "customer.subscription.deleted").

(** The [switch (event.type)]: the lines it prints, or the [TypeError]
    of a read it makes. *)
Definition process (event : JS.value) : option (list line) :=
  match JS.get event "type" with
  | None => None
  | Some type =>
      if is_subscription_event type then
        match JS.get event "data" with
        | None => None
        | Some data =>
            match JS.get data "object" with
            | None => None
            | Some subscription =>
                Some [LogSubscription (JS.ToString type) subscription]
            end
        end
      else Some [LogUnhandled (JS.ToString type)]
  end.

(** [POST /webhook]; [sig] is the [stripe-signature] header and [secret]
    is [process.env.STRIPE_WEBHOOK_SECRET]. *)
Definition webhook (body : raw) (sig secret : option string)
  : M (reply * list line) :=
  match constructEvent body sig secret with
  | Thrown e =>
      ret ({| status := 400; json := WebhookError e |}, [LogWebhookError e])
  | Returned event =>
      match process event with
      | None =>
          ret ({| status := 400; json := WebhookError TypeError |},
               [LogWebhookError TypeError])
      | Some lines => ret ({| status := 200; json := Received |}, lines)
      end
  end.

End Webhook.

End Gateway.

(** ** The analysis relay *)

Module Relay.
Import JS.

Definition possibleFields : list string :=
  ["output"; "result"; "response"; "message"; "analysis"].

(** [for (const field of fields) { if (data[field]) return data[field] }]
    on a [data] whose properties can be read; [None] when the loop falls
    through. *)
Fixpoint first_truthy (data : value) (fields : list string) : option value :=
  match fields with
  | [] => None
  | field :: fields' =>
      if truthy (prop data field) then Some (prop data field)
      else first_truthy data fields'
  end.

(** [sendToWebhook] of the client from [const data = await response.json()]
    on: the [analysis] it returns, or [None] for the [TypeError] its
    [catch] turns into the connection error. *)
Definition sendToWebhook (data : value) : option value :=
  match data with
  | JStr _ => Some data
  | _ =>
      match get data "data" with
      | None => None
      | Some d =>
          if truthy d then Some d
          else
            match first_truthy data possibleFields with
            | Some v => Some v
            | None =>
                Some (match stringify data with
                      | Some s => JStr s
                      | None => JUndefined
                      end)
            end
      end
  end.

(** The [for ... { if (data[field]) { analysis = data[field]; break } }]
    of the server, [analysis] being [undefined] before it. *)
Fixpoint assign_first (data : value) (fields : list string) (analysis : value)
  : value :=
  match fields with
  | [] => analysis
  | field :: fields' =>
      if truthy (prop data field) then prop data field
      else assign_first data fields' analysis
  end.

(** "Extract analysis from N8N response" of [POST /api/ai-analysis]: the
    [analysis] of the reply, or [None] for the [TypeError] its [catch]
    answers with status 500. *)
Definition extractAnalysis (data : value) : option value :=
  match data with
  | JStr _ => Some data
  | _ =>
      match get data "data" with
      | None => None
      | Some d =>
          if truthy d then Some d
          else
            let analysis := assign_first data possibleFields JUndefined in
            if negb (truthy analysis) then
              Some (match stringify data with
                    | Some s => JStr s
                    | None => JUndefined
                    end)
            else Some analysis
      end
  end.

(** The specification's reading of the fallback chain, with "present" as
    "the response has the field": for comparison with the two above. *)
Definition normalize_spec (data : value) : value :=
  match data with
  | JStr _ => data
  | JObj fields =>
      match assoc "data" fields with
      | Some d => d
      | None =>
          match List.find (fun f => bool_decide (is_Some (assoc f fields)))
                          possibleFields with
          | Some f => default JUndefined (assoc f fields)
          | None => JStr (default "" (stringify data))
          end
      end
  | _ => JStr (default "" (stringify data))
  end.

End Relay.

(** ** Invariants of the workout store *)

Module Invariants.
Import JS Workouts.

(** Ids grow along the store: a workout stored before another has the
    smaller id. *)
Definition ids_increasing (s : store) : Prop :=
  forall (i j : nat) (wi wj : workout),
    workouts s !! i = Some wi -> workouts s !! j = Some wj -> (i < j)%nat ->
    exists a b, id wi = Int a /\ id wj = Int b /\ (a < b)%Z.


(** The user id a request carries, if it is one that changes the store. *)
Definition acts_for (q : request) (A : value) : Prop :=
  match q with
  | GetWorkouts _ => True
  | CreateWorkout b _ => Body.user_id b = A
  | UpdateWorkout _ b _ => Body.user_id b = A
  | DeleteWorkout _ user_id' => user_id' = A
  end.

(** [w] with [updated_at] set to [now]. *)
Definition stamped (now : string) (w : workout) : workout :=
  {| id := id w;
     user_id := user_id w;
     type := type w;
     duration := duration w;
     calories := calories w;
     notes := notes w;
     ai_analysis := ai_analysis w;
     created_at := created_at w;
     updated_at := Some now |}.

Section Replacement.

Variable StringToNumber : string -> number.

(** The object literal [updateWorkout] stores in place of [old]. *)
Definition replacement (b : Body.t) (now : string) (old : workout) : workout :=
  {| id := id old;
     user_id := user_id old;
     type := or_else (Body.type b) (type old);
     duration :=
       if negb (strict_eq (Body.duration b) JUndefined)
       then Number StringToNumber (Body.duration b) else duration old;
     calories :=
       if negb (strict_eq (Body.calories b) JUndefined)
       then Number StringToNumber (Body.calories b) else calories old;
     notes :=
       if negb (strict_eq (Body.notes b) JUndefined)
       then Body.notes b else notes old;
     ai_analysis :=
       if negb (strict_eq (Body.ai_analysis b) JUndefined)
       then Body.ai_analysis b else ai_analysis old;
     created_at := created_at old;
     updated_at := Some now |}.

End Replacement.

End Invariants.

(** ** The legacy billing routes *)

Module Legacy.
Import Stripe Gateway.
Local Open Scope stripe_scope.

Section Status.

Variable toISOString : Z -> string.

(** [{ isSubscribed, subscriptionDetails }] as both check routes build it
    from the subscriptions they listed, where the period end of the first
    one has a text. *)
Definition reported (subscriptions : list Subscription.t) : Status.t :=
  {| Status.isSubscribed := (0 <? length subscriptions)%nat;
     Status.subscriptionDetails :=
       Some match subscriptions with
            | activeSubscription :: _ =>
                Some {| priceId := Subscription.price_id activeSubscription;
                        interval := Subscription.interval activeSubscription;
                        currentPeriodEnd :=
                          toISOString
                            (default 0%Z
                               (Subscription.current_period_end activeSubscription)) |}
            | [] => None
            end;
     Status.error := None;
     Status.clearData := None |}.

(** The provider's records once subscription [id] is cancelled. *)
Definition cancelled_in (id : string) (st : state) : state :=
  {| customers := customers st;
     subscriptions := map (cancelled id) (subscriptions st);
     sessions := sessions st;
     issued := issued st;
     clock := clock st |}.

(** [GET /check-subscription/:customerId]: no owner is asked for; the
    customer id has to start with [cus_]. *)
Definition checkSubscription (customerId : string) : M reply :=
  or_500
    (if negb (String.prefix "cus_" customerId) then
       ret {| status := 200;
              json := SubscriptionStatus
                {| Status.isSubscribed := false;
                   Status.subscriptionDetails := None;
                   Status.error := Some "Invalid customer ID format";
                   Status.clearData := Some true |} |}
     else
       found <- retrieve_or customerId
         {| status := 200;
            json := SubscriptionStatus
              {| Status.isSubscribed := false;
                 Status.subscriptionDetails := None;
                 Status.error := None;
                 Status.clearData := Some true |} |} ;;
       match found with
       | inr early => ret early
       | inl customer =>
           subscriptions <- subscriptions_list_active customerId None ;;
           _ <- (if (0 <? length subscriptions)%nat then
                   log_subscriptions subscriptions
                 else
                   allSubscriptions <- subscriptions_list customerId ;;
                   if (0 <? length allSubscriptions)%nat
                   then log_subscriptions allSubscriptions
                   else ret tt) ;;
           let isSubscribed := (0 <? length subscriptions)%nat in
           subscriptionDetails <-
             match subscriptions with
             | activeSubscription :: _ =>
                 currentPeriodEnd <-
                   date_text toISOString
                     (Subscription.current_period_end activeSubscription) ;;
                 ret (Some {| priceId := Subscription.price_id activeSubscription;
                              interval := Subscription.interval activeSubscription;
                              currentPeriodEnd := currentPeriodEnd |})
             | [] => ret None
             end ;;
           ret {| status := 200;
                  json := SubscriptionStatus
                    {| Status.isSubscribed := isSubscribed;
                       Status.subscriptionDetails := Some subscriptionDetails;
                       Status.error := None;
                       Status.clearData := None |} |}
       end)
    (fun e => Error (message e)).

End Status.

(** [POST /cancel-subscription/:customerId] *)
Definition cancelSubscription (customerId : string) : M reply :=
  or_500
    (found <- retrieve_or customerId
       {| status := 404;
          json := CancelResult
            {| Cancel.success := false;
               Cancel.message := None;
               Cancel.error := Some "Customer not found. Please try logging out and back in.";
               Cancel.clearData := None |} |} ;;
     match found with
     | inr early => ret early
     | inl customer =>
         subscriptions <- subscriptions_list_active customerId (Some 1%nat) ;;
         if (length subscriptions =? 0)%nat then
           ret {| status := 200;
                  json := CancelResult
                    {| Cancel.success := true;
                       Cancel.message := Some "No active subscription found";
                       Cancel.error := None;
                       Cancel.clearData := None |} |}
         else
           _ <- for_each
                  (fun subscription =>
                     subscriptions_cancel (Subscription.id subscription))
                  subscriptions ;;
           ret {| status := 200;
                  json := CancelResult
                    {| Cancel.success := true;
                       Cancel.message := Some "Subscription cancelled successfully";
                       Cancel.error := None;
                       Cancel.clearData := None |} |}
     end)
    (fun _ =>
       CancelResult
         {| Cancel.success := false;
            Cancel.message := None;
            Cancel.error := Some "Failed to cancel subscription. Please try again or contact support.";
            Cancel.clearData := None |}).

End Legacy.

(** ** The analysis route *)

Module AnalysisRoute.
Import JS.

(** What [await fetch(...)] followed by [await webhookResponse.json()]
    gives: a rejected fetch, or a response with its [ok], its [status] and
    its body parsed as JSON ([None] when the body is no JSON). *)
Inductive fetched :=
| Rejected
| Responded (ok : bool) (status : nat) (json : option value).

(** [200 { analysis }], [400 { error: 'Notes and userId are required' }],
    or [500 { error: 'Failed to generate AI analysis: ' + error.message }]
    with the message when the handler itself worded it. *)
Inductive reply :=
| Analysis (analysis : value)
| Required
| Failed (message : option string).

Definition status (r : reply) : nat :=
  match r with
  | Analysis _ => 200
  | Required => 400
  | Failed _ => 500
  end.

(** [POST /api/ai-analysis]; [webhook notes] is the external workflow
    called with [{ notes }]. *)
Definition aiAnalysis (webhook : value -> fetched) (notes userId : value)
  : reply :=
  if negb (truthy notes) || negb (truthy userId) then Required
  else
    match webhook notes with
    | Rejected => Failed None
    | Responded ok status json =>
        if negb ok then
          Failed (Some ("N8N webhook failed: " ++ string_of_Z (Z.of_nat status)))
        else
          match json with
          | None => Failed None
          | Some data =>
              match Relay.extractAnalysis data with
              | Some analysis => Analysis analysis
              | None => Failed None
              end
          end
    end.

End AnalysisRoute.

(** ** Cross-origin requests *)

Module Cors.

Definition staticOrigins : list string :=
  ["http://localhost:3000";
   "https://localhost:3000";
   "https://fitness-tracker-frontend.vercel.app";
   "https://fitness-tracker-frontend-git-main.vercel.app";
   "https://fitness-tracker-frontend-git-develop.vercel.app"].

(** [allowedOrigins] once [process.env.CLIENT_URL] was pushed, if set. *)
Definition allowedOrigins (CLIENT_URL : option string) : list string :=
  staticOrigins
  ++ (if Gateway.falsy CLIENT_URL then [] else [default "" CLIENT_URL]).

(** The [origin] callback of the [cors] options: [true] for
    [callback(null, true)], [false] for
    [callback(new Error('Not allowed by CORS'))]. *)
Definition origin (CLIENT_URL : option string) (origin : option string) : bool :=
  if Gateway.falsy origin then true
  else
    let o := default "" origin in
    if Gateway.includes o "localhost" then true
    else if Gateway.includes o "vercel.app" then true
    else if existsb (String.eqb o) (allowedOrigins CLIENT_URL) then true
    else false.

End Cors.

(** ** The client's map from user to billing customer *)

Module IdentityMap.

Definition STRIPE_CUSTOMER_ID_KEY : string := "stripe_customer_id".

Definition getUserCustomerIdKey (userId : string) : string :=
  "stripe_customer_id_" ++ userId.

(** [localStorage] is a map from keys to strings; [getItem] of an absent
    key is [null]. *)
Definition getCustomerIdForUser (userId : string)
    (localStorage : gmap string string) : option string :=
  if String.eqb userId "" then None
  else localStorage !! getUserCustomerIdKey userId.

Definition setCustomerIdForUser (userId customerId : string)
    (localStorage : gmap string string) : gmap string string :=
  if String.eqb userId "" then localStorage
  else delete STRIPE_CUSTOMER_ID_KEY
         (<[getUserCustomerIdKey userId := customerId]> localStorage).

Definition clearCustomerIdForUser (userId : string)
    (localStorage : gmap string string) : gmap string string :=
  if String.eqb userId "" then localStorage
  else delete (getUserCustomerIdKey userId) localStorage.

Definition clearInvalidCustomerId (userId : string)
    (localStorage : gmap string string) : gmap string string :=
  if String.eqb userId "" then localStorage
  else clearCustomerIdForUser userId localStorage.

(** [clearAllStripeData]: the keys are collected first, in whatever order
    [localStorage.key(i)] enumerates them, and removed afterwards. *)
Definition clearAllStripeData (localStorage : gmap string string)
  : gmap string string :=
  let cleared := delete STRIPE_CUSTOMER_ID_KEY localStorage in
  let keysToRemove :=
    List.filter
      (fun key => negb (String.eqb key "")
                  && String.prefix "stripe_customer_id_" key)
      (map fst (map_to_list cleared)) in
  foldl (fun storage key => delete key storage) cleared keysToRemove.

End IdentityMap.

(** ** The client's workout list *)

Module WorkoutList.

Record Workout := {
  id : string;
  type : string;
  duration : JS.number;
  date : string;
  calories : JS.number;
  notes : option string;
  ai_analysis : option string
}.

(** [combinedWorkouts]: the local workouts, then the stored ones whose id
    no local workout has. *)
Definition combinedWorkouts (workouts storedWorkouts : list Workout)
  : list Workout :=
  let localWorkoutIds : gset string := list_to_set (map id workouts) in
  workouts
  ++ List.filter (fun sw => negb (bool_decide (id sw ∈ localWorkoutIds)))
                 storedWorkouts.

End WorkoutList.

(** ** Concrete requests and records to run the handlers on *)

Module Fixtures.
Import JS.


(** The same body sent for user [user_id]. *)
Definition run_body_of (user_id : string) : Workouts.Body.t :=
  {| Workouts.Body.user_id := JStr user_id;
     Workouts.Body.type := JStr "run";
     Workouts.Body.duration := JNum (Int 30);
     Workouts.Body.calories := JNum (Int 300);
     Workouts.Body.notes := JUndefined;
     Workouts.Body.ai_analysis := JUndefined |}.

(** The body [{ user_id, notes: "easy pace" }] of an update. *)
Definition notes_body_of (user_id : string) : Workouts.Body.t :=
  {| Workouts.Body.user_id := JStr user_id;
     Workouts.Body.type := JUndefined;
     Workouts.Body.duration := JUndefined;
     Workouts.Body.calories := JUndefined;
     Workouts.Body.notes := JStr "easy pace";
     Workouts.Body.ai_analysis := JUndefined |}.

(** The store after user-a created one workout on a fresh server. *)
Definition one_workout : Workouts.store :=
  fst (Workouts.createWorkout digits (run_body_of "user-a")
         "2025-07-01T08:00:00.000Z" Workouts.empty).

Definition active_subscription (id customer : string) : Stripe.Subscription.t :=
  {| Stripe.Subscription.id := id;
     Stripe.Subscription.customer := customer;
     Stripe.Subscription.status := "active";
     Stripe.Subscription.current_period_end := Some 1767225600%Z;
     Stripe.Subscription.price_id := Some "price_monthly";
     Stripe.Subscription.interval := Some "month" |}.

(** One customer, owned by user-a, with one active subscription. *)
Definition subscribed : Stripe.state :=
  {| Stripe.customers :=
       [{| Stripe.Customer.id := "cus_1";
           Stripe.Customer.email := "a@example.com";
           Stripe.Customer.userId := Some "user-a";
           Stripe.Customer.created := 1735689600 |}];
     Stripe.subscriptions := [active_subscription "sub_1" "cus_1"];
     Stripe.sessions := [];
     Stripe.issued := 2;
     Stripe.clock := 1751356800 |}.

(** The same customer holding two active subscriptions. *)
Definition two_active : Stripe.state :=
  {| Stripe.customers :=
       [{| Stripe.Customer.id := "cus_1";
           Stripe.Customer.email := "a@example.com";
           Stripe.Customer.userId := Some "user-a";
           Stripe.Customer.created := 1735689600 |}];
     Stripe.subscriptions :=
       [active_subscription "sub_2" "cus_1"; active_subscription "sub_1" "cus_1"];
     Stripe.sessions := [];
     Stripe.issued := 3;
     Stripe.clock := 1751356800 |}.

(** Two customers under one email: the first listed belongs to user-a and
    has an active subscription, the second is tagged with user-b. *)
Definition shared_email : Stripe.state :=
  {| Stripe.customers :=
       [{| Stripe.Customer.id := "cus_1";
           Stripe.Customer.email := "a@example.com";
           Stripe.Customer.userId := Some "user-a";
           Stripe.Customer.created := 1735689600 |};
        {| Stripe.Customer.id := "cus_2";
           Stripe.Customer.email := "a@example.com";
           Stripe.Customer.userId := Some "user-b";
           Stripe.Customer.created := 1735689600 |}];
     Stripe.subscriptions := [active_subscription "sub_1" "cus_1"];
     Stripe.sessions := [];
     Stripe.issued := 3;
     Stripe.clock := 1751356800 |}.

(** A customer of user-a without a subscription. *)
Definition unsubscribed : Stripe.state :=
  {| Stripe.customers :=
       [{| Stripe.Customer.id := "cus_1";
           Stripe.Customer.email := "a@example.com";
           Stripe.Customer.userId := Some "user-a";
           Stripe.Customer.created := 1735689600 |}];
     Stripe.subscriptions := [];
     Stripe.sessions := [];
     Stripe.issued := 2;
     Stripe.clock := 1751356800 |}.

(** [new Date(seconds * 1000).toISOString()] for the one period end the
    records above carry. *)
Definition toISOString (seconds : Z) : string := "2026-01-01T00:00:00.000Z".

(** A [constructEvent] that accepts exactly the signature ["t=1,v1=good"]
    and then parses every payload to the same event. *)
Definition constructEvent (body : string) (sig secret : option string)
  : Stripe.outcome value :=
  if Stripe.option_string_eqb sig (Some "t=1,v1=good") then
    Stripe.Returned
      (JObj [("type", JStr "customer.subscription.deleted");
             ("data", JObj [("object", JObj [("id", JStr "sub_1")])])])
  else
    Stripe.Thrown
      (Stripe.StripeError "signature_verification"
         "No signatures found matching the expected signature for payload.").

End Fixtures.

(** ** More records to run the handlers on *)

Module Samples.
Import JS Fixtures.

(** The workout user-a creates first on a fresh server. *)
Definition first_workout : Workouts.workout :=
  {| Workouts.id := Int 1;
     Workouts.user_id := JStr "user-a";
     Workouts.type := JStr "run";
     Workouts.duration := Int 30;
     Workouts.calories := Int 300;
     Workouts.notes := JNull;
     Workouts.ai_analysis := JNull;
     Workouts.created_at := "2025-07-01T08:00:00.000Z";
     Workouts.updated_at := None |}.

(** user-a, then user-b, create a workout. *)
Definition two_creates : list Workouts.request :=
  [Workouts.CreateWorkout (run_body_of "user-a") "2025-07-01T08:00:00.000Z";
   Workouts.CreateWorkout (run_body_of "user-b") "2025-07-01T08:05:00.000Z"].

Definition two_users : Workouts.store :=
  fst (Workouts.run digits two_creates Workouts.empty).

(** A workflow that answers [{ output: "y" }]. *)
Definition workflow (notes : value) : AnalysisRoute.fetched :=
  AnalysisRoute.Responded true 200 (Some (JObj [("output", JStr "y")])).

(** Two customers under one email, the first listed belonging to user-a
    and holding a subscription that has ended. *)
Definition shared_email_lapsed : Stripe.state :=
  {| Stripe.customers := Stripe.customers shared_email;
     Stripe.subscriptions :=
       [{| Stripe.Subscription.id := "sub_1";
           Stripe.Subscription.customer := "cus_1";
           Stripe.Subscription.status := "canceled";
           Stripe.Subscription.current_period_end := Some 1751328000%Z;
           Stripe.Subscription.price_id := Some "price_monthly";
           Stripe.Subscription.interval := Some "month" |}];
     Stripe.sessions := [];
     Stripe.issued := 3;
     Stripe.clock := 1751356800 |}.

(** Two customers, each with an active subscription of its own. *)
Definition two_subscribers : Stripe.state :=
  {| Stripe.customers :=
       [{| Stripe.Customer.id := "cus_2";
           Stripe.Customer.email := "b@example.com";
           Stripe.Customer.userId := Some "user-b";
           Stripe.Customer.created := 1735689600 |};
        {| Stripe.Customer.id := "cus_1";
           Stripe.Customer.email := "a@example.com";
           Stripe.Customer.userId := Some "user-a";
           Stripe.Customer.created := 1735689600 |}];
     Stripe.subscriptions :=
       [active_subscription "sub_2" "cus_2"; active_subscription "sub_1" "cus_1"];
     Stripe.sessions := [];
     Stripe.issued := 5;
     Stripe.clock := 1751356800 |}.

(** The customer of [subscribed], its subscription carrying no
    [current_period_end]. *)
Definition undated : Stripe.state :=
  {| Stripe.customers := Stripe.customers subscribed;
     Stripe.subscriptions :=
       [{| Stripe.Subscription.id := "sub_1";
           Stripe.Subscription.customer := "cus_1";
           Stripe.Subscription.status := "active";
           Stripe.Subscription.current_period_end := None;
           Stripe.Subscription.price_id := Some "price_monthly";
           Stripe.Subscription.interval := Some "month" |}];
     Stripe.sessions := [];
     Stripe.issued := 2;
     Stripe.clock := 1751356800 |}.

(** The body of a create request whose [duration] is no number. *)
Definition vague_body : Workouts.Body.t :=
  {| Workouts.Body.user_id := JStr "user-a";
     Workouts.Body.type := JStr "run";
     Workouts.Body.duration := JStr "a while";
     Workouts.Body.calories := JNum (Int 300);
     Workouts.Body.notes := JUndefined;
     Workouts.Body.ai_analysis := JUndefined |}.

(** [s] between double quotes. *)
Definition quoted (s : string) : string := dquote ++ s ++ dquote.

(** The text of [workouts.json] once user-a has created the first
    workout. *)
Definition first_file : string :=
  join newline
    ["{";
     "  " ++ quoted "workouts" ++ ": [";
     "    {";
     "      " ++ quoted "id" ++ ": 1,";
     "      " ++ quoted "user_id" ++ ": " ++ quoted "user-a" ++ ",";
     "      " ++ quoted "type" ++ ": " ++ quoted "run" ++ ",";
     "      " ++ quoted "duration" ++ ": 30,";
     "      " ++ quoted "calories" ++ ": 300,";
     "      " ++ quoted "notes" ++ ": null,";
     "      " ++ quoted "ai_analysis" ++ ": null,";
     "      " ++ quoted "created_at" ++ ": " ++ quoted "2025-07-01T08:00:00.000Z";
     "    }";
     "  ],";
     "  " ++ quoted "nextWorkoutId" ++ ": 2";
     "}"].

Definition shown (id : string) : WorkoutList.Workout :=
  {| WorkoutList.id := id;
     WorkoutList.type := "run";
     WorkoutList.duration := Int 30;
     WorkoutList.date := "2025-07-01T08:00:00.000Z";
     WorkoutList.calories := Int 300;
     WorkoutList.notes := None;
     WorkoutList.ai_analysis := None |}.

End Samples.

(** * Properties *)

Local Open Scope list_scope.

(** ** Workout store *)

Section WorkoutStore.
Import JS Workouts.

Variable StringToNumber : string -> number.

(** Case analysis on the condition of the [if] the goal is stuck on. *)
Ltac case_cond :=
  match goal with
  | |- context [if ?c then _ else _] => destruct c eqn:?
  end.

Lemma findIndex_range {A : Type} (p : A -> bool) (l : list A) :
  (-1 <= findIndex p l < Z.of_nat (length l))%Z.
Proof.
  induction l as [|x l IH]; simpl; [lia|].
  destruct (p x); [lia|].
  destruct (Z.eqb_spec (findIndex p l) (-1)); lia.
Qed.

Lemma findIndex_none {A : Type} (p : A -> bool) (l : list A) :
  findIndex p l = (-1)%Z <-> Forall (fun x => p x = false) l.
Proof.
  induction l as [|x l IH]; simpl.
  - split; [constructor | reflexivity].
  - destruct (p x) eqn:Hx.
    + split; [lia | intros H; inversion H; congruence].
    + pose proof (findIndex_range p l) as Hr.
      destruct (Z.eqb_spec (findIndex p l) (-1)) as [He|He].
      * split; [intros _; constructor; [assumption | now apply IH] | reflexivity].
      * split; [lia | intros H; inversion H; subst; tauto].
Qed.

Lemma findIndex_found {A : Type} (p : A -> bool) (l : list A) :
  findIndex p l <> (-1)%Z ->
  exists x, l !! Z.to_nat (findIndex p l) = Some x /\ p x = true.
Proof.
  induction l as [|x l IH]; simpl; [congruence|].
  destruct (p x) eqn:Hx.
  - intros _. exists x. split; [reflexivity | assumption].
  - pose proof (findIndex_range p l) as Hr.
    destruct (Z.eqb_spec (findIndex p l) (-1)) as [He|He]; [congruence|].
    intros _. destruct (IH He) as (y & Hy & Hpy).
    exists y. split; [|assumption].
    replace (Z.to_nat (findIndex p l + 1)) with (S (Z.to_nat (findIndex p l))) by lia.
    exact Hy.
Qed.

Lemma strict_eq_str (v : value) (u : string) :
  strict_eq v (JStr u) = true <-> v = JStr u.
Proof.
  destruct v; simpl; try (split; [discriminate | congruence]).
  rewrite String.eqb_eq. split; congruence.
Qed.


(** The three ways out of [updateWorkout]. *)
Lemma updateWorkout_cases (id' : string) (b : Body.t) (now : string) (s : store) :
  let r := updateWorkout StringToNumber id' b now s in
  (fst r = s /\ status (snd r) <> 200%nat)
  \/ exists (i : nat) (old new : workout),
       workouts s !! i = Some old
       /\ matches StringToNumber id' (Body.user_id b) old = true
       /\ snd r = {| status := 200; json := Workout new |}
       /\ workouts (fst r) = <[i := new]> (workouts s)
       /\ nextWorkoutId (fst r) = nextWorkoutId s
       /\ id new = id old
       /\ user_id new = user_id old
       /\ created_at new = created_at old.
Proof.
  unfold updateWorkout.
  destruct (Z.eqb_spec
              (findIndex (matches StringToNumber id' (Body.user_id b)) (workouts s))
              (-1)) as [He|He].
  - left. simpl. split; [reflexivity | discriminate].
  - destruct (findIndex_found _ _ He) as (old & Hold & Hm).
    rewrite Hold. right. eexists _, old, _. simpl.
    repeat split; try reflexivity; assumption.
Qed.

(** C2: an update or a delete for which no stored workout matches both the
    id and the user id answers 404 "Workout not found" and hands back the
    store as it was, the file included. *)
Theorem update_delete_not_found :
  forall (id' : string) (user_id' : value) (b : Body.t) (now : string)
         (s : store),
    Body.user_id b = user_id' ->
    Forall (fun w => matches StringToNumber id' user_id' w = false) (workouts s) ->
    updateWorkout StringToNumber id' b now s
    = (s, {| status := 404; json := Error "Workout not found" |})
    /\ deleteWorkout StringToNumber id' user_id' s
       = (s, {| status := 404; json := Error "Workout not found" |}).
Proof.
  intros id' user_id' b now s Hb Hnone.
  apply findIndex_none in Hnone.
  unfold updateWorkout, deleteWorkout.
  rewrite Hb, Hnone. simpl. split; reflexivity.
Qed.

(** C10: a successful update replaces one stored workout by a record with
    the same [id], [user_id] and [created_at], and leaves every other
    position of the store, its length and [nextWorkoutId] as they were. *)
Theorem update_frame :
  forall (id' : string) (b : Body.t) (now : string) (s s' : store) (r : reply),
    updateWorkout StringToNumber id' b now s = (s', r) ->
    status r = 200%nat ->
    exists (i : nat) (old new : workout),
      workouts s !! i = Some old
      /\ json r = Workout new
      /\ workouts s' = <[i := new]> (workouts s)
      /\ workouts s' !! i = Some new
      /\ id new = id old
      /\ user_id new = user_id old
      /\ created_at new = created_at old
      /\ (forall j, j <> i -> workouts s' !! j = workouts s !! j)
      /\ length (workouts s') = length (workouts s)
      /\ nextWorkoutId s' = nextWorkoutId s.
Proof.
  intros id' b now s s' r Hrun Hok.
  destruct (updateWorkout_cases id' b now s)
    as [[_ Hno] | (i & old & new & Hold & _ & Hr & Hws & Hnext & Hid & Hu & Hc)];
    rewrite Hrun in *; simpl in *.
  - contradiction.
  - exists i, old, new. subst r. rewrite Hws.
    repeat split; try assumption; try reflexivity.
    + apply list_lookup_insert_eq. eapply lookup_lt_Some. exact Hold.
    + intros j Hj. apply list_lookup_insert_ne. congruence.
    + apply length_insert.
Qed.

Lemma createWorkout_store_ok (b : Body.t) (now : string) (s : store) :
  store_ok s -> store_ok (fst (createWorkout StringToNumber b now s)).
Proof.
  intros [Hnext Hids]. unfold createWorkout.
  case_cond; [split; assumption|].
  split; simpl; [lia|].
  apply Forall_app. split.
  - eapply Forall_impl; [exact Hids|]. simpl.
    intros v (m & Hm & Hr). exists m. split; [assumption | lia].
  - constructor; [|constructor]. simpl.
    exists (nextWorkoutId s). split; [reflexivity | lia].
Qed.


Lemma run_snoc (qs : list request) (q : request) (s0 : store) :
  run StringToNumber (qs ++ [q]) s0
  = let (s, rs) := run StringToNumber qs s0 in
    let (s', r) := handle StringToNumber q s in
    (s', (rs ++ [r])%list).
Proof.
  revert s0. induction qs as [|q0 qs IH]; intros s0; simpl.
  - destruct (handle StringToNumber q s0). reflexivity.
  - destruct (handle StringToNumber q0 s0) as [s1 r0]. rewrite IH.
    destruct (run StringToNumber qs s1) as [s rs].
    destruct (handle StringToNumber q s). reflexivity.
Qed.

(** What one request does to the ids and owners in the store. *)
Lemma handle_step (q : request) (s s' : store) (r : reply) :
  handle StringToNumber q s = (s', r) ->
  (nextWorkoutId s <= nextWorkoutId s')%Z
  /\ (forall b now w,
        q = CreateWorkout b now -> r = {| status := 201; json := Workout w |} ->
        id w = Int (nextWorkoutId s)
        /\ nextWorkoutId s' = (nextWorkoutId s + 1)%Z)
  /\ (forall w, In w (workouts s') ->
        (exists w0, In w0 (workouts s) /\ id w = id w0 /\ user_id w = user_id w0)
        \/ (exists b now,
              q = CreateWorkout b now
              /\ r = {| status := 201; json := Workout w |})).
Proof.
  destruct q as [userId | b now | id' b now | id' u]; simpl.
  - unfold getWorkouts. intros [= <- <-].
    split; [lia|]. split; [discriminate|]. intros w Hw. left. eauto.
  - unfold createWorkout. case_cond.
    + intros [= <- <-].
      split; [lia|]. split; [intros ? ? ? _ [=]|]. intros w Hw. left. eauto.
    + intros [= <- <-]. simpl.
      split; [lia|]. split.
      * intros b' now' w [= <- <-] [= <-]. simpl. split; reflexivity.
      * intros w Hw. apply in_app_iff in Hw as [Hw | [<- | []]].
        -- left. eauto.
        -- right. eauto.
  - intros Hrun.
    destruct (updateWorkout_cases id' b now s)
      as [[Hs _] | (i & old & new & Hold & _ & _ & Hws & Hnext & Hid & Hu & _)];
      rewrite Hrun in *; simpl in *.
    + subst s'. split; [lia|]. split; [discriminate|].
      intros w Hw. left. eauto.
    + split; [lia|]. split; [discriminate|].
      intros w Hw. left. rewrite Hws in Hw.
      apply list_elem_of_In, list_elem_of_lookup in Hw as [j Hj].
      apply list_lookup_insert_Some in Hj as [(_ & <- & _) | (_ & Hj)].
      * exists old. split; [|split; assumption].
        apply list_elem_of_In. eapply list_elem_of_lookup_2. exact Hold.
      * exists w. split; [|split; reflexivity].
        apply list_elem_of_In. eapply list_elem_of_lookup_2. exact Hj.
  - unfold deleteWorkout. case_cond.
    + intros [= <- <-].
      split; [lia|]. split; [discriminate|]. intros w Hw. left. eauto.
    + intros [= <- <-]. simpl.
      split; [lia|]. split; [discriminate|].
      intros w Hw. left. exists w. split; [|split; reflexivity].
      apply list_elem_of_In. eapply list_elem_of_delete_inv.
      apply list_elem_of_In. exact Hw.
Qed.

Lemma handle_store_ok (q : request) (s : store) :
  store_ok s -> store_ok (fst (handle StringToNumber q s)).
Proof.
  intros Hok. destruct q as [userId | b now | id' b now | id' u]; simpl.
  - exact Hok.
  - apply createWorkout_store_ok. exact Hok.
  - destruct (updateWorkout_cases id' b now s)
      as [[-> _] | (i & old & new & Hold & _ & _ & Hws & Hnext & Hid & _)];
      [exact Hok|].
    destruct Hok as [Hn Hids]. unfold store_ok. rewrite Hws, Hnext.
    split; [exact Hn|].
    apply Forall_insert; [exact Hids|].
    rewrite Hid. exact (Forall_lookup_1 _ _ _ _ Hids Hold).
  - unfold deleteWorkout. case_cond; [exact Hok|].
    destruct Hok as [Hn Hids]. split; simpl; [exact Hn|].
    apply Forall_delete. exact Hids.
Qed.

(** Every store the server reaches from the empty one is [store_ok]. *)
Lemma run_store_ok (qs : list request) :
  store_ok (fst (run StringToNumber qs empty)).
Proof.
  induction qs as [|q qs IH] using rev_ind.
  - split; simpl; [lia | constructor].
  - rewrite run_snoc.
    destruct (run StringToNumber qs empty) as [s rs].
    pose proof (handle_store_ok q s IH) as Hq.
    destruct (handle StringToNumber q s). exact Hq.
Qed.

Lemma filter_sublist {A : Type} (p : A -> bool) (l : list A) :
  sublist (List.filter p l) l.
Proof.
  induction l as [|x l IH]; simpl; [constructor|].
  destruct (p x); [apply sublist_skip | apply sublist_cons]; exact IH.
Qed.

(** Along an exchange that starts from the empty store: every create that
    was answered 201 got an id of its own below [nextWorkoutId], and every
    stored workout carries the id and the user id of the create request it
    comes from. *)
Lemma run_provenance (qs : list request) :
  forall (s : store) (rs : list reply),
    run StringToNumber qs empty = (s, rs) ->
    length rs = length qs
    /\ (forall k b now w,
          qs !! k = Some (CreateWorkout b now) ->
          rs !! k = Some {| status := 201; json := Workout w |} ->
          exists n, id w = Int n /\ (n < nextWorkoutId s)%Z)
    /\ (forall k1 k2 b1 now1 w1 b2 now2 w2,
          qs !! k1 = Some (CreateWorkout b1 now1) ->
          rs !! k1 = Some {| status := 201; json := Workout w1 |} ->
          qs !! k2 = Some (CreateWorkout b2 now2) ->
          rs !! k2 = Some {| status := 201; json := Workout w2 |} ->
          id w1 = id w2 -> k1 = k2)
    /\ (forall w, In w (workouts s) -> created_by qs rs (id w) (user_id w)).
Proof.
  induction qs as [|q qs IH] using rev_ind; intros s rs.
  - simpl. intros [= <- <-]. simpl.
    split; [reflexivity|]. split; [intros ? ? ? ? [=]|].
    split; [intros ? ? ? ? ? ? ? ? [=]|]. intros w [].
  - rewrite run_snoc.
    destruct (run StringToNumber qs empty) as [s1 rs1].
    destruct (IH s1 rs1 eq_refl) as (Hlen & Hbelow & Huniq & Hprov).
    destruct (handle StringToNumber q s1) as [s2 r] eqn:Hq.
    intros [= <- <-].
    destruct (handle_step _ _ _ _ Hq) as (Hmono & Hnew & Hstore).
    assert (Hold : forall k b now w,
               (qs ++ [q]) !! k = Some (CreateWorkout b now) ->
               (rs1 ++ [r]) !! k = Some {| status := 201; json := Workout w |} ->
               (qs !! k = Some (CreateWorkout b now)
                /\ rs1 !! k = Some {| status := 201; json := Workout w |})
               \/ (k = length qs /\ q = CreateWorkout b now
                   /\ r = {| status := 201; json := Workout w |})).
    { intros k b now w Hk Hr.
      apply lookup_snoc_Some in Hk as [[Hlt Hk] | [-> <-]];
        apply lookup_snoc_Some in Hr as [[Hlt' Hr] | [Hk' <-]]; try lia.
      - left. split; assumption.
      - right. repeat split; reflexivity. }
    split; [rewrite !length_app; simpl; lia|].
    split; [|split].
    + intros k b now w Hk Hr.
      destruct (Hold _ _ _ _ Hk Hr) as [[Hk' Hr'] | (_ & -> & ->)].
      * destruct (Hbelow _ _ _ _ Hk' Hr') as (n & Hn & Hlt).
        exists n. split; [assumption | lia].
      * destruct (Hnew _ _ _ eq_refl eq_refl) as [Hid Hnext].
        exists (nextWorkoutId s1). split; [assumption | lia].
    + intros k1 k2 b1 now1 w1 b2 now2 w2 Hk1 Hr1 Hk2 Hr2 Heq.
      destruct (Hold _ _ _ _ Hk1 Hr1) as [[Hk1' Hr1'] | (-> & Hq1 & Hrr1)];
        destruct (Hold _ _ _ _ Hk2 Hr2) as [[Hk2' Hr2'] | (-> & Hq2 & Hrr2)].
      * eapply Huniq; eassumption.
      * destruct (Hbelow _ _ _ _ Hk1' Hr1') as (n & Hn & Hlt).
        destruct (Hnew _ _ _ Hq2 Hrr2) as [Hid _].
        rewrite Hn, Hid in Heq. injection Heq as Heq. lia.
      * destruct (Hbelow _ _ _ _ Hk2' Hr2') as (n & Hn & Hlt).
        destruct (Hnew _ _ _ Hq1 Hrr1) as [Hid _].
        rewrite Hn, Hid in Heq. injection Heq as Heq. lia.
      * reflexivity.
    + intros w Hw.
      destruct (Hstore w Hw) as [(w0 & Hw0 & Hid & Hu) | (b & now & -> & ->)].
      * destruct (Hprov w0 Hw0) as (k & b & now & w1 & Hk & Hr & Hid1 & Hb).
        exists k, b, now, w1. rewrite Hid, Hu.
        pose proof (lookup_lt_Some _ _ _ Hk) as Hlt.
        repeat split; try assumption.
        -- rewrite lookup_app_l by assumption. exact Hk.
        -- rewrite lookup_app_l by lia. exact Hr.
      * exists (length qs), b, now, w.
        repeat split.
        -- rewrite lookup_app_r, Nat.sub_diag by lia. reflexivity.
        -- rewrite lookup_app_r, Hlen, Nat.sub_diag by lia. reflexivity.
        -- revert Hq. unfold handle, createWorkout. case_cond; intros Hq;
             [discriminate Hq | injection Hq as _ <-].
           reflexivity.
Qed.

(** C3: the list route answers with exactly the stored workouts whose
    [user_id] is the requested one, in the store's order; and in every exchange with the server,
    started from the empty store, each workout it lists for [B] was created
    by a request of [B], so that a workout created by any [A] other than
    [B] is never listed for [B]. *)
Theorem list_owned_only :
  (forall (B : string) (s : store),
     exists ws,
       getWorkouts B s = (s, {| status := 200; json := WorkoutList ws |})
       /\ sublist ws (workouts s)
       /\ (forall w, In w ws <-> In w (workouts s) /\ user_id w = JStr B))
  /\ (forall (qs : list request) (s : store) (rs : list reply) (B : string),
        run StringToNumber qs empty = (s, rs) ->
        exists ws,
          getWorkouts B s = (s, {| status := 200; json := WorkoutList ws |})
          /\ (forall w, In w ws -> created_by qs rs (id w) (JStr B))
          /\ (forall w A,
                In w (workouts s) -> created_by qs rs (id w) A ->
                A <> JStr B -> ~ In w ws)).
Proof.
  assert (Hlist : forall (B : string) (s : store) w,
             In w (List.filter (fun w => strict_eq (user_id w) (JStr B)) (workouts s))
             <-> In w (workouts s) /\ user_id w = JStr B).
  { intros B s w. rewrite filter_In, strict_eq_str. reflexivity. }
  split.
  - intros B s. eexists. split; [reflexivity|].
    split; [apply filter_sublist | apply Hlist].
  - intros qs s rs B Hrun.
    destruct (run_provenance qs s rs Hrun) as (_ & _ & Huniq & Hprov).
    eexists. split; [reflexivity|]. split.
    + intros w Hw. apply Hlist in Hw as [Hw Hu].
      rewrite <- Hu. apply Hprov. exact Hw.
    + intros w A Hw (k & b & now & w1 & Hk & Hr & Hid & Hb) Hne Hin.
      apply Hlist in Hin as [_ Hu].
      destruct (Hprov w Hw) as (k' & b' & now' & w1' & Hk' & Hr' & Hid' & Hb').
      assert (k = k') by (eapply Huniq; eauto; congruence). subst k'.
      rewrite Hk in Hk'. injection Hk' as <- <-. congruence.
Qed.

End WorkoutStore.

(** ** Subscription gateway *)

Section Billing.
Import Stripe Gateway.
Local Open Scope stripe_scope.

Lemma option_string_eqb_eq (a b : option string) :
  option_string_eqb a b = true <-> a = b.
Proof.
  destruct a, b; simpl; rewrite ?String.eqb_eq; split; congruence.
Qed.

Lemma option_string_eqb_neq (a b : option string) :
  a <> b -> option_string_eqb a b = false.
Proof.
  intros H. destruct (option_string_eqb a b) eqn:E; [|reflexivity].
  apply option_string_eqb_eq in E. contradiction.
Qed.

Lemma find_of_In {A : Type} (p : A -> bool) (l : list A) (x : A) :
  In x l -> p x = true -> exists y, List.find p l = Some y /\ p y = true.
Proof.
  induction l as [|a l IH]; simpl; [intros []|].
  intros [-> | Hin] Hp.
  - rewrite Hp. eauto.
  - destruct (p a) eqn:Ha; [eauto | auto].
Qed.

Lemma retrieve_or_found (customerId : string) (missing : reply) (st : state)
    (c : Customer.t) :
  List.find (fun c => String.eqb (Customer.id c) customerId) (customers st) = Some c ->
  retrieve_or customerId missing st = (Returned (inl c), st).
Proof.
  intros H. unfold retrieve_or, try_catch, bind, customers_retrieve.
  rewrite H. reflexivity.
Qed.

Lemma retrieve_or_missing (customerId : string) (missing : reply) (st : state) :
  List.find (fun c => String.eqb (Customer.id c) customerId) (customers st) = None ->
  retrieve_or customerId missing st = (Returned (inr missing), st).
Proof.
  intros H. unfold retrieve_or, try_catch, bind, customers_retrieve.
  rewrite H. reflexivity.
Qed.

(** C1 (amended): for an existing customer whose owner tag is not the
    requesting [userId], the check answers [isSubscribed: false] without
    [subscriptionDetails], the same answer whatever subscriptions the
    provider holds, and with [clearData] exactly when the customer id
    itself looks like a user id; for a customer that does not exist it
    answers [isSubscribed: false] with [clearData: true]. Neither answer
    touches the provider's records. *)
Theorem check_subscription_boundary :
  forall (toISOString : Z -> string) (customerId userId : string) (st : state),
    (forall c,
       List.find (fun c => String.eqb (Customer.id c) customerId) (customers st)
       = Some c ->
       Customer.userId c <> Some userId ->
       exists body,
         checkSubscription toISOString customerId userId st
         = (Returned {| status := 200; json := SubscriptionStatus body |}, st)
         /\ Status.isSubscribed body = false
         /\ Status.subscriptionDetails body = None
         /\ Status.clearData body
            = (if looks_like_userId customerId userId then Some true else None)
         /\ forall st2,
              customers st2 = customers st ->
              fst (checkSubscription toISOString customerId userId st2)
              = Returned {| status := 200; json := SubscriptionStatus body |})
    /\ (List.find (fun c => String.eqb (Customer.id c) customerId) (customers st)
        = None ->
        exists body,
          checkSubscription toISOString customerId userId st
          = (Returned {| status := 200; json := SubscriptionStatus body |}, st)
          /\ Status.isSubscribed body = false
          /\ Status.subscriptionDetails body = None
          /\ Status.clearData body = Some true).
Proof.
  intros toISOString customerId userId st. split.
  - intros c Hfind Hown.
    apply option_string_eqb_neq in Hown.
    unfold checkSubscription, or_500, try_catch.
    destruct (looks_like_userId customerId userId).
    + eexists. split; [reflexivity|]. simpl. repeat split; reflexivity.
    + unfold bind. rewrite (retrieve_or_found _ _ _ _ Hfind), Hown. simpl.
      eexists. split; [reflexivity|]. simpl.
      repeat split; try reflexivity.
      intros st2 Hsame. rewrite <- Hsame in Hfind.
      rewrite (retrieve_or_found _ _ _ _ Hfind), Hown. reflexivity.
  - intros Hfind.
    unfold checkSubscription, or_500, try_catch.
    destruct (looks_like_userId customerId userId).
    + eexists. split; [reflexivity|]. simpl. repeat split; reflexivity.
    + unfold bind. rewrite (retrieve_or_missing _ _ _ Hfind). simpl.
      eexists. split; [reflexivity|]. simpl. repeat split; reflexivity.
Qed.

Lemma retag_id (id userId : string) (c : Customer.t) :
  Customer.id (retag id userId c) = Customer.id c.
Proof. unfold retag. destruct (String.eqb (Customer.id c) id); reflexivity. Qed.

Lemma customers_update_known (userId : string) (st : state) (c : Customer.t) :
  In c (customers st) ->
  exists c',
    customers_update (Customer.id c) userId st
    = (Returned c', retagged (Customer.id c) userId st)
    /\ Customer.id c' = Customer.id c.
Proof.
  intros Hin. unfold customers_update.
  destruct (find_of_In (fun x => String.eqb (Customer.id x) (Customer.id c))
              (customers st) c Hin (String.eqb_refl _)) as (y & -> & Hy).
  eexists. split; [reflexivity|].
  rewrite retag_id. apply String.eqb_eq. exact Hy.
Qed.

(** C8 (amended): when the customer the request resolves to (the first the
    provider lists for the email) has an active subscription, the reply is
    the 400 "You already have an active subscription", no checkout session
    is started and no subscription is touched; at most the customer's owner
    tag is refreshed. *)
Theorem checkout_rejects_active_customer :
  forall (priceId userId email : string) (st : state) (c : Customer.t)
         (rest : list Customer.t),
    List.filter (fun c => String.eqb (Customer.email c) email) (customers st)
    = c :: rest ->
    active_of (Customer.id c) st <> [] ->
    exists st',
      createCheckoutSession priceId userId email st
      = (Returned
           {| status := 400;
              json := Error (Some "You already have an active subscription. Please cancel your current subscription before creating a new one.") |},
         st')
      /\ sessions st' = sessions st
      /\ subscriptions st' = subscriptions st
      /\ (st' = st \/ st' = retagged (Customer.id c) userId st).
Proof.
  intros priceId userId email st c rest Hlist Hactive.
  assert (Hin : In c (customers st)).
  { eapply (proj1 (filter_In _ _ _)). rewrite Hlist. left. reflexivity. }
  assert (Hlen : forall st0,
             subscriptions st0 = subscriptions st ->
             (0 <? length (firstn 1 (active_of (Customer.id c) st0)))%nat = true).
  { intros st0 Hs. unfold active_of in *. rewrite Hs.
    destruct (List.filter _ (subscriptions st)); [contradiction | reflexivity]. }
  unfold createCheckoutSession, or_500, try_catch, bind, customers_list,
    subscriptions_list_active.
  rewrite Hlist. change (firstn 1 (c :: rest)) with [c].
  change (default 10%nat (Some 1%nat)) with 1%nat. cbv beta iota.
  destruct (option_string_eqb (Customer.userId c) (Some userId)); cbn [negb].
  - unfold ret. cbv beta iota. rewrite (Hlen st eq_refl).
    exists st. repeat split; try reflexivity. left. reflexivity.
  - destruct (customers_update_known userId st c Hin) as (c' & -> & Hid).
    unfold ret. cbv beta iota.
    rewrite Hid, (Hlen (retagged (Customer.id c) userId st) eq_refl).
    eexists. split; [reflexivity|].
    repeat split; try reflexivity. right. reflexivity.
Qed.

Lemma take1_nonempty {A : Type} (l : list A) :
  (0 <? length (firstn 1 l))%nat = (0 <? length l)%nat.
Proof. destruct l; reflexivity. Qed.

(** The loop stops at the first customer whose [created] gives no date,
    where it throws, or that is tagged with [userId] or has an active
    subscription. *)
Lemma scan_customers_first (userId : string) (cs : list Customer.t) (st : state) :
  (forall c, In c cs -> In c (customers st)) ->
  scan_customers userId cs st
  = match List.find
            (fun c => negb (has_time (Some (Customer.created c)))
                      || option_string_eqb (Customer.userId c) (Some userId)
                      || has_active st c) cs with
    | Some c =>
        if has_time (Some (Customer.created c)) then
          (Returned {| status := 200; json := CustomerId (Some (Customer.id c)) |},
           if option_string_eqb (Customer.userId c) (Some userId) then st
           else retagged (Customer.id c) userId st)
        else (Thrown RangeError, st)
    | None => (Returned {| status := 200; json := CustomerId None |}, st)
    end.
Proof.
  induction cs as [|c cs IH]; intros Hsub; [reflexivity|].
  cbn [scan_customers List.find]. unfold bind at 1, log_date.
  destruct (has_time (Some (Customer.created c))) eqn:Ht; cbn [negb orb];
    [|rewrite Ht; reflexivity].
  unfold ret at 1. cbv beta iota.
  destruct (option_string_eqb (Customer.userId c) (Some userId)) eqn:Htag;
    cbn [orb].
  - rewrite Ht, Htag. reflexivity.
  - unfold bind at 1, subscriptions_list_active.
    change (default 10%nat (Some 1%nat)) with 1%nat.
    rewrite take1_nonempty. fold (has_active st c).
    destruct (has_active st c).
    + rewrite Ht, Htag.
      destruct (customers_update_known userId st c (Hsub c (or_introl eq_refl)))
        as (c' & Hupd & _).
      unfold bind. rewrite Hupd. reflexivity.
    + apply IH. intros c0 Hc0. apply Hsub. right. exact Hc0.
Qed.

(** The search, for a non-empty email and user id, as one [find] over the
    customers listed for the email. *)
Lemma findCustomerByEmail_first (email userId : string) (st : state) :
  email <> "" -> userId <> "" ->
  findCustomerByEmail (Some email) (Some userId) st
  = match List.find
            (fun c => negb (has_time (Some (Customer.created c)))
                      || option_string_eqb (Customer.userId c) (Some userId)
                      || has_active st c)
            (firstn 10
               (List.filter (fun c => String.eqb (Customer.email c) email)
                            (customers st))) with
    | Some c =>
        if has_time (Some (Customer.created c)) then
          (Returned {| status := 200; json := CustomerId (Some (Customer.id c)) |},
           if option_string_eqb (Customer.userId c) (Some userId) then st
           else retagged (Customer.id c) userId st)
        else
          (Returned {| status := 500;
                       json := Error (Some "Failed to find customer") |},
           st)
    | None => (Returned {| status := 200; json := CustomerId None |}, st)
    end.
Proof.
  intros He Hu.
  unfold findCustomerByEmail, or_500, try_catch, falsy.
  apply String.eqb_neq in He, Hu. rewrite He, Hu.
  change (default "" (Some email)) with email.
  change (default "" (Some userId)) with userId.
  unfold bind, customers_list. cbn [orb]. cbv beta iota.
  rewrite scan_customers_first.
  - destruct (List.find _ _) as [c|]; [|reflexivity].
    destruct (has_time (Some (Customer.created c))); reflexivity.
  - intros c Hc.
    apply list_elem_of_In, (subseteq_take 10), list_elem_of_In in Hc.
    apply filter_In in Hc. tauto.
Qed.

(** A cancel that passes the ownership check answers success, whether or
    not there was a subscription to cancel, and leaves the customers as
    they are: a second cancel answers success as well. *)
Lemma cancel_owner_validated (customerId userId : string) (st : state)
    (c : Customer.t) :
  List.find (fun c => String.eqb (Customer.id c) customerId) (customers st) = Some c ->
  Customer.userId c = Some userId ->
  exists st' m,
    cancelSubscription customerId userId st
    = (Returned
         {| status := 200;
            json := CancelResult
              {| Cancel.success := true;
                 Cancel.message := Some m;
                 Cancel.error := None;
                 Cancel.clearData := None |} |},
       st')
    /\ customers st' = customers st.
Proof.
  intros Hfind Hown.
  unfold cancelSubscription, or_500, try_catch, bind at 1.
  rewrite (retrieve_or_found _ _ _ _ Hfind).
  apply option_string_eqb_eq in Hown. rewrite Hown. cbn [negb].
  unfold bind at 1, subscriptions_list_active.
  change (default 10%nat (Some 1%nat)) with 1%nat.
  destruct (active_of customerId st) as [|s l] eqn:Hact.
  - exists st. eexists. split; reflexivity.
  - change (firstn 1 (s :: l)) with [s]. cbn [length Nat.eqb].
    assert (Hs : existsb
                   (fun s0 => String.eqb (Subscription.id s0) (Subscription.id s))
                   (subscriptions st) = true).
    { apply existsb_exists. exists s. split; [|apply String.eqb_refl].
      eapply (proj1 (filter_In _ _ _)). unfold active_of in Hact.
      rewrite Hact. left. reflexivity. }
    unfold bind, for_each, subscriptions_cancel, bind, ret. rewrite Hs.
    eexists. eexists. split; reflexivity.
Qed.

Lemma cancel_twice_succeeds (customerId userId : string) (st : state)
    (c : Customer.t) :
  List.find (fun c => String.eqb (Customer.id c) customerId) (customers st) = Some c ->
  Customer.userId c = Some userId ->
  exists r1 st1 r2 st2,
    cancelSubscription customerId userId st = (Returned r1, st1)
    /\ cancelSubscription customerId userId st1 = (Returned r2, st2)
    /\ status r1 = 200%nat /\ status r2 = 200%nat.
Proof.
  intros Hfind Hown.
  destruct (cancel_owner_validated _ _ _ _ Hfind Hown) as (st1 & m1 & H1 & Hc1).
  rewrite <- Hc1 in Hfind.
  destruct (cancel_owner_validated _ _ _ _ Hfind Hown) as (st2 & m2 & H2 & _).
  do 4 eexists. split; [exact H1|]. split; [exact H2|]. split; reflexivity.
Qed.

(** C4, at the failing input: a cancel for a customer with the two active
    subscriptions sub_2 and sub_1 answers "Subscription cancelled
    successfully" and has cancelled sub_2 only; sub_1 is still active. *)
Theorem cancel_leaves_second_subscription_active :
  exists st',
    cancelSubscription "cus_1" "user-a" Fixtures.two_active
    = (Returned
         {| status := 200;
            json := CancelResult
              {| Cancel.success := true;
                 Cancel.message := Some "Subscription cancelled successfully";
                 Cancel.error := None;
                 Cancel.clearData := None |} |},
       st')
    /\ active_of "cus_1" Fixtures.two_active
       = [Fixtures.active_subscription "sub_2" "cus_1";
          Fixtures.active_subscription "sub_1" "cus_1"]
    /\ active_of "cus_1" st' = [Fixtures.active_subscription "sub_1" "cus_1"].
Proof. eexists. split; [|split]; vm_compute; reflexivity. Qed.

(** C9: a payload whose signature does not verify is answered 400 with the
    verification error, the console shows that error and no event line,
    and the provider's records are as before; a request that is answered
    [received: true] carried a payload that verified, and its lines are
    those of that event. No request to the webhook changes any record. *)
Theorem webhook_rejects_unverified :
  forall (raw : Type)
         (constructEvent : raw -> option string -> option string -> outcome JS.value)
         (body : raw) (sig secret : option string) (st : state),
    (forall e,
       constructEvent body sig secret = Thrown e ->
       webhook raw constructEvent body sig secret st
       = (Returned ({| status := 400; json := WebhookError e |}, [LogWebhookError e]),
          st))
    /\ (forall out st',
          webhook raw constructEvent body sig secret st = (out, st') ->
          st' = st
          /\ forall r lines,
               out = Returned (r, lines) -> json r = Received ->
               status r = 200%nat
               /\ exists event,
                    constructEvent body sig secret = Returned event
                    /\ process event = Some lines).
Proof.
  intros raw constructEvent body sig secret st. unfold webhook. split.
  - intros e ->. reflexivity.
  - intros out st'.
    destruct (constructEvent body sig secret) as [event|e].
    + destruct (process event) as [lines|] eqn:Hp; unfold ret; intros [= <- <-];
        (split; [reflexivity|]); intros r lines' [= <- <-]; simpl;
        [|discriminate].
      intros _. split; [reflexivity|]. exists event. split; [reflexivity | exact Hp].
    + unfold ret. intros [= <- <-]. split; [reflexivity|].
      intros r lines [= <- <-]. simpl. discriminate.
Qed.

End Billing.

(** ** Analysis relay *)

Section AnalysisRelay.
Import JS Relay.

Lemma first_truthy_truthy (data : value) (fields : list string) (v : value) :
  first_truthy data fields = Some v -> truthy v = true.
Proof.
  induction fields as [|f fields IH]; simpl; [discriminate|].
  destruct (truthy (prop data f)) eqn:Hf; [|exact IH].
  intros [= <-]. exact Hf.
Qed.

Lemma assign_first_first_truthy (data : value) (fields : list string)
    (analysis : value) :
  assign_first data fields analysis
  = default analysis (first_truthy data fields).
Proof.
  induction fields as [|f fields IH]; simpl; [reflexivity|].
  destruct (truthy (prop data f)); [reflexivity | exact IH].
Qed.

(** The server and the client normalise a response the same way. *)
Lemma sendToWebhook_extractAnalysis (data : value) :
  sendToWebhook data = extractAnalysis data.
Proof.
  unfold sendToWebhook, extractAnalysis.
  destruct data; try reflexivity; cbv beta iota delta [get];
    rewrite assign_first_first_truthy;
    (destruct (truthy _); [reflexivity|]);
    (destruct (first_truthy _ possibleFields) as [v|] eqn:Hv; simpl;
     [rewrite (first_truthy_truthy _ _ _ Hv) |]; reflexivity).
Qed.

Lemma first_truthy_at (data : value) (pre post : list string) (field : string) :
  Forall (fun f => truthy (prop data f) = false) pre ->
  truthy (prop data field) = true ->
  first_truthy data (pre ++ field :: post) = Some (prop data field).
Proof.
  induction 1 as [|f pre Hf _ IH]; simpl; intros Hfield.
  - rewrite Hfield. reflexivity.
  - rewrite Hf. apply IH. exact Hfield.
Qed.

Lemma first_truthy_none (data : value) (fields : list string) :
  Forall (fun f => truthy (prop data f) = false) fields ->
  first_truthy data fields = None.
Proof.
  induction 1 as [|f fields Hf _ IH]; simpl; [reflexivity|].
  rewrite Hf. exact IH.
Qed.

(** C7 (amended): the normalisation, the same in the server and in the
    client, answers a bare string with the string itself; any other
    response that is not [null], with the value of its [data] field when
    that value is truthy; failing that, with the value of the first field
    among [output], [result], [response], [message], [analysis], in that
    order, whose value is truthy; failing that, with the JSON text of the
    whole response. In particular [{data: "x"}] gives ["x"], [{output: "y"}]
    gives ["y"], ["z"] gives ["z"] and [{unrelated: 1}] gives its JSON
    text. *)
Theorem analysis_fallback_chain :
  (forall data, sendToWebhook data = extractAnalysis data)
  /\ (forall s, extractAnalysis (JStr s) = Some (JStr s))
  /\ (forall data d,
        (forall s, data <> JStr s) ->
        get data "data" = Some d -> truthy d = true ->
        extractAnalysis data = Some d)
  /\ (forall data d pre field post,
        (forall s, data <> JStr s) ->
        get data "data" = Some d -> truthy d = false ->
        possibleFields = pre ++ field :: post ->
        Forall (fun f => truthy (prop data f) = false) pre ->
        truthy (prop data field) = true ->
        extractAnalysis data = Some (prop data field))
  /\ (forall data d,
        (forall s, data <> JStr s) ->
        get data "data" = Some d -> truthy d = false ->
        Forall (fun f => truthy (prop data f) = false) possibleFields ->
        exists text,
          stringify data = Some text
          /\ extractAnalysis data = Some (JStr text))
  /\ extractAnalysis (JObj [("data", JStr "x")]) = Some (JStr "x")
  /\ extractAnalysis (JObj [("output", JStr "y")]) = Some (JStr "y")
  /\ extractAnalysis (JStr "z") = Some (JStr "z")
  /\ extractAnalysis (JObj [("unrelated", JNum (Int 1))])
     = Some (JStr ("{" ++ dquote ++ "unrelated" ++ dquote ++ ":1}")%string).
Proof.
  split; [exact sendToWebhook_extractAnalysis|].
  split; [reflexivity|].
  split; [|split; [|split]].
  - intros data d Hns Hget Hd. unfold extractAnalysis.
    destruct data; try (exfalso; eapply Hns; reflexivity);
      rewrite Hget, Hd; reflexivity.
  - intros data d pre field post Hns Hget Hd Hfields Hpre Hfield.
    unfold extractAnalysis.
    destruct data; try (exfalso; eapply Hns; reflexivity);
      try discriminate Hget;
      rewrite Hget, Hd, assign_first_first_truthy, Hfields,
        (first_truthy_at _ _ _ _ Hpre Hfield);
      cbv zeta beta iota delta [from_option id];
      rewrite Hfield; reflexivity.
  - intros data d Hns Hget Hd Hnone. unfold extractAnalysis.
    destruct data; try (exfalso; eapply Hns; reflexivity);
      try discriminate Hget;
      rewrite Hget, Hd, assign_first_first_truthy,
        (first_truthy_none _ _ Hnone); simpl;
      try (destruct b); try (destruct n); eexists; split; reflexivity.
  - repeat split; reflexivity.
Qed.

End AnalysisRelay.

(** ** The theorems at concrete requests *)

Section Concrete.
Import JS Fixtures.

Lemma update_delete_not_found_witness :
  Workouts.Body.user_id (notes_body_of "user-b") = JStr "user-b"
  /\ Forall (fun w => Workouts.matches digits "1" (JStr "user-b") w = false)
            (Workouts.workouts one_workout)
  /\ Workouts.updateWorkout digits "1" (notes_body_of "user-b")
       "2025-07-02T09:00:00.000Z" one_workout
     = (one_workout,
        {| Workouts.status := 404;
           Workouts.json := Workouts.Error "Workout not found" |})
  /\ Workouts.deleteWorkout digits "1" (JStr "user-b") one_workout
     = (one_workout,
        {| Workouts.status := 404;
           Workouts.json := Workouts.Error "Workout not found" |}).
Proof.
  assert (H1 : Workouts.Body.user_id (notes_body_of "user-b") = JStr "user-b")
    by reflexivity.
  assert (H2 : Forall (fun w => Workouts.matches digits "1" (JStr "user-b") w = false)
                      (Workouts.workouts one_workout))
    by (vm_compute; repeat constructor).
  split; [exact H1|]. split; [exact H2|].
  exact (update_delete_not_found digits "1" (JStr "user-b")
           (notes_body_of "user-b") "2025-07-02T09:00:00.000Z" one_workout H1 H2).
Defined.

Lemma update_frame_witness :
  Workouts.status
    (snd (Workouts.updateWorkout digits "1" (notes_body_of "user-a")
            "2025-07-02T09:00:00.000Z" one_workout)) = 200%nat
  /\ exists (i : nat) (old new : Workouts.workout),
       Workouts.workouts one_workout !! i = Some old
       /\ Workouts.json
            (snd (Workouts.updateWorkout digits "1" (notes_body_of "user-a")
                    "2025-07-02T09:00:00.000Z" one_workout))
          = Workouts.Workout new
       /\ Workouts.id new = Workouts.id old
       /\ Workouts.user_id new = Workouts.user_id old
       /\ Workouts.created_at new = Workouts.created_at old.
Proof.
  split; [reflexivity|].
  destruct (update_frame digits "1" (notes_body_of "user-a")
              "2025-07-02T09:00:00.000Z" one_workout _ _ eq_refl eq_refl)
    as (i & old & new & Hold & Hr & _ & _ & Hid & Hu & Hc & _).
  exists i, old, new. repeat split; assumption.
Defined.

Lemma list_owned_only_witness :
  let qs := [Workouts.CreateWorkout (run_body_of "user-a") "2025-07-01T08:00:00.000Z";
             Workouts.CreateWorkout (run_body_of "user-b") "2025-07-01T08:05:00.000Z"] in
  let out := Workouts.run digits qs Workouts.empty in
  Workouts.run digits qs Workouts.empty = (fst out, snd out)
  /\ exists ws,
       Workouts.getWorkouts "user-b" (fst out)
       = (fst out, {| Workouts.status := 200; Workouts.json := Workouts.WorkoutList ws |})
       /\ (forall w, In w ws ->
             Workouts.created_by qs (snd out) (Workouts.id w) (JStr "user-b"))
       /\ (forall w A,
             In w (Workouts.workouts (fst out)) ->
             Workouts.created_by qs (snd out) (Workouts.id w) A ->
             A <> JStr "user-b" -> ~ In w ws).
Proof.
  intros qs out. split; [reflexivity|].
  exact (proj2 (list_owned_only digits) qs (fst out) (snd out) "user-b" eq_refl).
Defined.


(** The scenario of the specification, with the user id the route needs:
    the first workout of a fresh server. *)
Example create_run_30_300 :
  snd (Workouts.createWorkout digits (run_body_of "user-a")
         "2025-07-01T08:00:00.000Z" Workouts.empty)
  = {| Workouts.status := 201;
       Workouts.json :=
         Workouts.Workout
           {| Workouts.id := Int 1;
              Workouts.user_id := JStr "user-a";
              Workouts.type := JStr "run";
              Workouts.duration := Int 30;
              Workouts.calories := Int 300;
              Workouts.notes := JNull;
              Workouts.ai_analysis := JNull;
              Workouts.created_at := "2025-07-01T08:00:00.000Z";
              Workouts.updated_at := None |} |}.
Proof. reflexivity. Qed.


(** A [duration] of 0 is present and falsy: rejected as well, while
    [calories] of 0 is accepted. *)
Example create_zero_duration_rejected :
  Workouts.status
    (snd (Workouts.createWorkout digits
            {| Workouts.Body.user_id := JStr "user-a";
               Workouts.Body.type := JStr "rest";
               Workouts.Body.duration := JNum (Int 0);
               Workouts.Body.calories := JNum (Int 0);
               Workouts.Body.notes := JUndefined;
               Workouts.Body.ai_analysis := JUndefined |}
            "2025-07-01T08:00:00.000Z" Workouts.empty)) = 400%nat
  /\ Workouts.status
       (snd (Workouts.createWorkout digits
               {| Workouts.Body.user_id := JStr "user-a";
                  Workouts.Body.type := JStr "stretch";
                  Workouts.Body.duration := JNum (Int 10);
                  Workouts.Body.calories := JNum (Int 0);
                  Workouts.Body.notes := JUndefined;
                  Workouts.Body.ai_analysis := JUndefined |}
               "2025-07-01T08:00:00.000Z" Workouts.empty)) = 201%nat.
Proof. split; reflexivity. Qed.

Lemma check_subscription_boundary_witness :
  List.find (fun c => String.eqb (Stripe.Customer.id c) "cus_1")
            (Stripe.customers subscribed)
  = Some {| Stripe.Customer.id := "cus_1";
            Stripe.Customer.email := "a@example.com";
            Stripe.Customer.userId := Some "user-a";
           Stripe.Customer.created := 1735689600 |}
  /\ Some "user-a" <> Some "user-b"
  /\ exists body,
       Gateway.checkSubscription toISOString "cus_1" "user-b" subscribed
       = (Stripe.Returned
            {| Gateway.status := 200; Gateway.json := Gateway.SubscriptionStatus body |},
          subscribed)
       /\ Gateway.Status.isSubscribed body = false
       /\ Gateway.Status.subscriptionDetails body = None.
Proof.
  split; [reflexivity|]. split; [discriminate|].
  destruct (proj1 (check_subscription_boundary toISOString "cus_1" "user-b" subscribed)
              _ eq_refl ltac:(discriminate))
    as (body & Hrun & Hsub & Hdet & _).
  exists body. repeat split; assumption.
Defined.

(** C1, as stated, fails for an existing customer of user-a checked by
    user-b: the reply is [{ isSubscribed: false }] and nothing else, so it
    carries no [clearData]. *)
Lemma check_owner_mismatch_without_clearData :
  List.find (fun c => String.eqb (Stripe.Customer.id c) "cus_1")
            (Stripe.customers subscribed)
  = Some {| Stripe.Customer.id := "cus_1";
            Stripe.Customer.email := "a@example.com";
            Stripe.Customer.userId := Some "user-a";
           Stripe.Customer.created := 1735689600 |}
  /\ Gateway.checkSubscription toISOString "cus_1" "user-b" subscribed
     = (Stripe.Returned
          {| Gateway.status := 200;
             Gateway.json :=
               Gateway.SubscriptionStatus
                 {| Gateway.Status.isSubscribed := false;
                    Gateway.Status.subscriptionDetails := None;
                    Gateway.Status.error := None;
                    Gateway.Status.clearData := None |} |},
        subscribed).
Proof. split; reflexivity. Qed.

(** The owner's own check of the same customer, for comparison. *)
Example check_by_owner :
  fst (Gateway.checkSubscription toISOString "cus_1" "user-a" subscribed)
  = Stripe.Returned
      {| Gateway.status := 200;
         Gateway.json :=
           Gateway.SubscriptionStatus
             {| Gateway.Status.isSubscribed := true;
                Gateway.Status.subscriptionDetails :=
                  Some (Some {| Gateway.priceId := Some "price_monthly";
                                Gateway.interval := Some "month";
                                Gateway.currentPeriodEnd := "2026-01-01T00:00:00.000Z" |});
                Gateway.Status.error := None;
                Gateway.Status.clearData := None |} |}.
Proof. reflexivity. Qed.

(** C6, at the failing input: of the two customers listed for the email,
    the first is tagged with user-a and has an active subscription, the
    second is tagged with user-b. The search for user-b does not answer
    with the customer tagged with user-b: under the comment "If no userId
    metadata, check if they have active subscriptions" it tests the
    subscriptions of the customer of user-a, answers with that customer
    and retags it with user-b. The specification's reading answers with
    the customer of user-b and changes nothing. *)
Theorem find_customer_takes_over_tagged_customer :
  map (fun c => (Stripe.Customer.id c, Stripe.Customer.userId c))
      (firstn 10
         (List.filter (fun c => String.eqb (Stripe.Customer.email c) "a@example.com")
                      (Stripe.customers shared_email)))
  = [("cus_1", Some "user-a"); ("cus_2", Some "user-b")]
  /\ Gateway.findCustomerByEmail (Some "a@example.com") (Some "user-b") shared_email
     = (Stripe.Returned
          {| Gateway.status := 200; Gateway.json := Gateway.CustomerId (Some "cus_1") |},
        Stripe.retagged "cus_1" "user-b" shared_email)
  /\ map (fun c => (Stripe.Customer.id c, Stripe.Customer.userId c))
         (Stripe.customers (Stripe.retagged "cus_1" "user-b" shared_email))
     = [("cus_1", Some "user-b"); ("cus_2", Some "user-b")]
  /\ Gateway.findCustomerByEmail_spec (Some "a@example.com") (Some "user-b") shared_email
     = (Stripe.Returned
          {| Gateway.status := 200; Gateway.json := Gateway.CustomerId (Some "cus_2") |},
        shared_email).
Proof. repeat split; reflexivity. Qed.

(** C8, as stated, fails where it concludes that no second active
    subscription is ever stacked on one customer: the check is made when a
    session is created, so the same request is accepted twice for a
    customer without an active subscription, and once both sessions are
    paid the customer holds two active subscriptions. *)
Lemma checkout_accepted_twice_stacks_subscriptions :
  exists st1 st2 sub1 st3 sub2 st4,
    Stripe.active_of "cus_1" unsubscribed = []
    /\ Gateway.createCheckoutSession "price_monthly" "user-a" "a@example.com"
         unsubscribed
       = (Stripe.Returned
            {| Gateway.status := 200;
               Gateway.json := Gateway.CheckoutSession "cs_2" "cus_1" |},
          st1)
    /\ Gateway.createCheckoutSession "price_monthly" "user-a" "a@example.com" st1
       = (Stripe.Returned
            {| Gateway.status := 200;
               Gateway.json := Gateway.CheckoutSession "cs_3" "cus_1" |},
          st2)
    /\ Stripe.checkout_completed "cs_2" 1767225600 (Some "month") st2
       = (Stripe.Returned sub1, st3)
    /\ Stripe.checkout_completed "cs_3" 1767225600 (Some "month") st3
       = (Stripe.Returned sub2, st4)
    /\ Stripe.active_of "cus_1" st4 = [sub2; sub1]
    /\ Stripe.Subscription.id sub1 = "sub_4"
    /\ Stripe.Subscription.id sub2 = "sub_5".
Proof. do 6 eexists. repeat split; reflexivity. Qed.

Lemma checkout_rejects_active_customer_witness :
  List.filter (fun c => String.eqb (Stripe.Customer.email c) "a@example.com")
              (Stripe.customers subscribed)
  = [{| Stripe.Customer.id := "cus_1";
        Stripe.Customer.email := "a@example.com";
        Stripe.Customer.userId := Some "user-a";
           Stripe.Customer.created := 1735689600 |}]
  /\ Stripe.active_of "cus_1" subscribed <> []
  /\ exists st',
       Gateway.createCheckoutSession "price_monthly" "user-a" "a@example.com" subscribed
       = (Stripe.Returned
            {| Gateway.status := 400;
               Gateway.json :=
                 Gateway.Error (Some "You already have an active subscription. Please cancel your current subscription before creating a new one.") |},
          st')
       /\ Stripe.sessions st' = Stripe.sessions subscribed
       /\ Stripe.subscriptions st' = Stripe.subscriptions subscribed.
Proof.
  assert (H2 : Stripe.active_of "cus_1" subscribed <> []) by discriminate.
  split; [reflexivity|]. split; [exact H2|].
  destruct (checkout_rejects_active_customer "price_monthly" "user-a"
              "a@example.com" subscribed _ _ eq_refl H2)
    as (st' & Hrun & Hses & Hsubs & _).
  exists st'. repeat split; assumption.
Defined.

Lemma webhook_rejects_unverified_witness :
  constructEvent "{}" (Some "t=1,v1=forged") (Some "whsec_1")
  = Stripe.Thrown
      (Stripe.StripeError "signature_verification"
         "No signatures found matching the expected signature for payload.")
  /\ Gateway.webhook string constructEvent "{}" (Some "t=1,v1=forged")
       (Some "whsec_1") subscribed
     = (Stripe.Returned
          ({| Gateway.status := 400;
              Gateway.json :=
                Gateway.WebhookError
                  (Stripe.StripeError "signature_verification"
                     "No signatures found matching the expected signature for payload.") |},
           [Gateway.LogWebhookError
              (Stripe.StripeError "signature_verification"
                 "No signatures found matching the expected signature for payload.")]),
        subscribed).
Proof.
  split; [reflexivity|].
  exact (proj1 (webhook_rejects_unverified string constructEvent "{}"
                  (Some "t=1,v1=forged") (Some "whsec_1") subscribed)
           _ eq_refl).
Defined.

(** Where [constructEvent] returns an event, it is processed and
    acknowledged. *)
Example webhook_verified :
  Gateway.webhook string constructEvent "{}" (Some "t=1,v1=good")
    (Some "whsec_1") subscribed
  = (Stripe.Returned
       ({| Gateway.status := 200; Gateway.json := Gateway.Received |},
        [Gateway.LogSubscription "customer.subscription.deleted"
           (JObj [("id", JStr "sub_1")])]),
     subscribed).
Proof. reflexivity. Qed.

Lemma analysis_fallback_chain_witness :
  get (JObj [("result", JNum (Int 0)); ("message", JStr "m")]) "data" = Some JUndefined
  /\ Relay.extractAnalysis (JObj [("result", JNum (Int 0)); ("message", JStr "m")])
     = Some (JStr "m").
Proof.
  split; [reflexivity|].
  exact (proj1 (proj2 (proj2 (proj2 analysis_fallback_chain)))
           (JObj [("result", JNum (Int 0)); ("message", JStr "m")]) JUndefined
           ["output"; "result"; "response"] "message" ["analysis"]
           ltac:(discriminate) eq_refl eq_refl eq_refl
           ltac:(repeat constructor) eq_refl).
Defined.

(** C7, as stated, fails on [{ data: "", output: "y" }]: the field [data]
    is present, with the value [""], and both normalisations answer ["y"],
    where the specification's reading answers [""]. *)
Lemma present_empty_data_skipped :
  assoc "data" [("data", JStr ""); ("output", JStr "y")] = Some (JStr "")
  /\ Relay.extractAnalysis (JObj [("data", JStr ""); ("output", JStr "y")])
     = Some (JStr "y")
  /\ Relay.sendToWebhook (JObj [("data", JStr ""); ("output", JStr "y")])
     = Some (JStr "y")
  /\ Relay.normalize_spec (JObj [("data", JStr ""); ("output", JStr "y")])
     = JStr "".
Proof. repeat split; reflexivity. Qed.

End Concrete.

(** * Further properties *)

(** ** Workout store: isolation of changes, round trips, the file *)

Section WorkoutStoreMore.
Import JS Workouts Invariants.

Variable StringToNumber : string -> number.

Ltac case_if :=
  match goal with
  | |- context [if ?c then _ else _] => destruct c eqn:?
  end.

Lemma filter_insert_false {A : Type} (p : A -> bool) (l : list A) (i : nat)
    (x y : A) :
  l !! i = Some x -> p x = false -> p y = false ->
  List.filter p (<[i := y]> l) = List.filter p l.
Proof.
  revert i. induction l as [|a l IH]; intros [|i]; simpl; try discriminate.
  - intros [= ->] Hx Hy. rewrite Hx, Hy. reflexivity.
  - intros Hi Hx Hy. rewrite (IH i Hi Hx Hy). reflexivity.
Qed.

Lemma filter_delete_false {A : Type} (p : A -> bool) (l : list A) (i : nat)
    (x : A) :
  l !! i = Some x -> p x = false ->
  List.filter p (delete i l) = List.filter p l.
Proof.
  revert i. induction l as [|a l IH]; intros [|i]; simpl; try discriminate.
  - intros [= ->] Hx. rewrite Hx. reflexivity.
  - intros Hi Hx. rewrite (IH i Hi Hx). reflexivity.
Qed.

Lemma strict_eq_other (v A : value) (B : string) :
  strict_eq v A = true -> A <> JStr B -> strict_eq v (JStr B) = false.
Proof.
  intros Hv Hne. destruct (strict_eq v (JStr B)) eqn:E; [|reflexivity].
  apply strict_eq_str in E. subst v.
  destruct A; simpl in Hv; try discriminate.
  apply String.eqb_eq in Hv. subst. contradiction.
Qed.

(** [findIndex], when it finds something, finds a matching element at an
    index of the list. *)
Lemma findIndex_hit {A : Type} (p : A -> bool) (l : list A) :
  findIndex p l <> (-1)%Z ->
  exists (i : nat) (x : A),
    findIndex p l = Z.of_nat i /\ l !! i = Some x /\ p x = true.
Proof.
  intros Hne. destruct (findIndex_found p l Hne) as (x & Hx & Hp).
  pose proof (findIndex_range p l) as Hr.
  exists (Z.to_nat (findIndex p l)), x. repeat split; try assumption. lia.
Qed.

Lemma findIndex_insert_hit {A : Type} (p : A -> bool) (l : list A) (i : nat)
    (y : A) :
  findIndex p l = Z.of_nat i -> p y = true ->
  findIndex p (<[i := y]> l) = Z.of_nat i.
Proof.
  revert i. induction l as [|a l IH]; intros i; simpl; [lia|].
  pose proof (findIndex_range p l) as Hr.
  destruct (p a) eqn:Ha.
  - intros Hi Hy. destruct i; [|lia]. simpl. rewrite Hy. reflexivity.
  - destruct (Z.eqb_spec (findIndex p l) (-1)) as [He|He]; [lia|].
    intros Hi Hy. destruct i as [|i]; [lia|]. simpl. rewrite Ha.
    rewrite (IH i) by (assumption || lia).
    destruct (Z.eqb_spec (Z.of_nat i) (-1)); lia.
Qed.

(** [updateWorkout] and [deleteWorkout] when [findIndex] finds a workout. *)
Lemma updateWorkout_hit (id' : string) (b : Body.t) (now : string) (s : store)
    (i : nat) (old : workout) :
  findIndex (matches StringToNumber id' (Body.user_id b)) (workouts s)
  = Z.of_nat i ->
  workouts s !! i = Some old ->
  updateWorkout StringToNumber id' b now s
  = (saveWorkouts
       {| workouts := <[i := replacement StringToNumber b now old]> (workouts s);
          nextWorkoutId := nextWorkoutId s;
          file := file s |},
     {| status := 200;
        json := Workout (replacement StringToNumber b now old) |}).
Proof.
  intros Hi Hold. unfold updateWorkout. rewrite Hi.
  destruct (Z.eqb_spec (Z.of_nat i) (-1)); [lia|].
  rewrite Nat2Z.id, Hold. reflexivity.
Qed.

Lemma deleteWorkout_hit (id' : string) (u : value) (s : store) (i : nat) :
  findIndex (matches StringToNumber id' u) (workouts s) = Z.of_nat i ->
  deleteWorkout StringToNumber id' u s
  = (saveWorkouts
       {| workouts := delete i (workouts s);
          nextWorkoutId := nextWorkoutId s;
          file := file s |},
     {| status := 200; json := Success "Workout deleted successfully" |}).
Proof.
  intros Hi. unfold deleteWorkout. rewrite Hi.
  destruct (Z.eqb_spec (Z.of_nat i) (-1)); [lia|].
  rewrite Nat2Z.id. reflexivity.
Qed.

Lemma updateWorkout_miss (id' : string) (b : Body.t) (now : string) (s : store) :
  findIndex (matches StringToNumber id' (Body.user_id b)) (workouts s) = (-1)%Z ->
  updateWorkout StringToNumber id' b now s
  = (s, {| status := 404; json := Error "Workout not found" |}).
Proof. intros H. unfold updateWorkout. rewrite H. reflexivity. Qed.

Lemma deleteWorkout_miss (id' : string) (u : value) (s : store) :
  findIndex (matches StringToNumber id' u) (workouts s) = (-1)%Z ->
  deleteWorkout StringToNumber id' u s
  = (s, {| status := 404; json := Error "Workout not found" |}).
Proof. intros H. unfold deleteWorkout. rewrite H. reflexivity. Qed.

(** X1: a create, update or delete that carries the user id [A] leaves
    what the list route answers for any other user [B] as it was. *)
Theorem mutation_leaves_other_lists :
  forall (q : request) (s : store) (A : value) (B : string),
    acts_for q A -> A <> JStr B ->
    snd (getWorkouts B (fst (handle StringToNumber q s)))
    = snd (getWorkouts B s).
Proof.
  intros q s A B Hq Hne.
  destruct q as [userId | b now | id' b now | id' u]; simpl in *.
  - reflexivity.
  - unfold createWorkout. case_if; [reflexivity|].
    unfold getWorkouts. simpl. rewrite List.filter_app. simpl.
    rewrite Hq.
    destruct (strict_eq A (JStr B)) eqn:E;
      [apply strict_eq_str in E; contradiction|].
    rewrite app_nil_r. reflexivity.
  - destruct (Z.eq_dec
                (findIndex (matches StringToNumber id' (Body.user_id b)) (workouts s))
                (-1)%Z) as [He|He].
    + rewrite (updateWorkout_miss _ _ _ _ He). reflexivity.
    + destruct (findIndex_hit _ _ He) as (i & old & Hi & Hold & Hm).
      rewrite (updateWorkout_hit _ _ _ _ _ _ Hi Hold).
      unfold getWorkouts. simpl.
      apply andb_prop in Hm as [_ Hm]. rewrite Hq in Hm.
      pose proof (strict_eq_other _ _ B Hm Hne) as Hno.
      rewrite (filter_insert_false _ _ _ old); [reflexivity | assumption ..].
  - subst u.
    destruct (Z.eq_dec (findIndex (matches StringToNumber id' A) (workouts s)) (-1)%Z)
      as [He|He].
    + rewrite (deleteWorkout_miss _ _ _ He). reflexivity.
    + destruct (findIndex_hit _ _ He) as (i & old & Hi & Hold & Hm).
      rewrite (deleteWorkout_hit _ _ _ _ Hi).
      unfold getWorkouts. simpl.
      apply andb_prop in Hm as [_ Hm].
      pose proof (strict_eq_other _ _ B Hm Hne) as Hno.
      rewrite (filter_delete_false _ _ _ old); [reflexivity | assumption ..].
Qed.

(** X2: a workout that a create request of user [u] was answered with is,
    right after, the last entry of what the list route answers for [u],
    behind the entries it answered before. *)
Theorem created_workout_is_listed :
  forall (b : Body.t) (now : string) (s s' : store) (w : workout) (u : string),
    createWorkout StringToNumber b now s
    = (s', {| status := 201; json := Workout w |}) ->
    Body.user_id b = JStr u ->
    exists ws,
      getWorkouts u s = (s, {| status := 200; json := WorkoutList ws |})
      /\ getWorkouts u s'
         = (s', {| status := 200; json := WorkoutList (ws ++ [w]) |}).
Proof.
  intros b now s s' w u Hrun Hu. revert Hrun. unfold createWorkout.
  case_if; intros [= <- <-].
  eexists. split; [reflexivity|].
  unfold getWorkouts. simpl. rewrite List.filter_app. simpl.
  rewrite Hu. simpl. rewrite String.eqb_refl. reflexivity.
Qed.

Lemma number_eq_NaN (n : number) : number_eq n NaN = false.
Proof. destruct n; reflexivity. Qed.

(** X3: an id that [Number] turns into [NaN] matches no workout: update
    and delete answer 404 on every store and leave it as it is. *)
Theorem unparsable_id_not_found :
  forall (id' : string) (b : Body.t) (now : string) (u : value) (s : store),
    StringToNumber id' = NaN ->
    updateWorkout StringToNumber id' b now s
    = (s, {| status := 404; json := Error "Workout not found" |})
    /\ deleteWorkout StringToNumber id' u s
       = (s, {| status := 404; json := Error "Workout not found" |}).
Proof.
  intros id' b now u s Hnan.
  assert (Hnone : forall v,
             findIndex (matches StringToNumber id' v) (workouts s) = (-1)%Z).
  { intros v. apply findIndex_none, Forall_forall. intros w _.
    unfold matches. simpl. rewrite Hnan, number_eq_NaN. reflexivity. }
  split; [apply updateWorkout_miss | apply deleteWorkout_miss]; apply Hnone.
Qed.



Lemma lookup_delete_original {A : Type} (l : list A) (i k : nat) (x : A) :
  delete i l !! k = Some x ->
  l !! (if (k <? i)%nat then k else S k) = Some x.
Proof.
  intros H. destruct (Nat.ltb_spec k i).
  - rewrite list_lookup_delete_lt in H by assumption. exact H.
  - rewrite list_lookup_delete_ge in H by assumption. exact H.
Qed.

Lemma handle_ids_increasing (q : request) (s : store) :
  store_ok s -> ids_increasing s ->
  ids_increasing (fst (handle StringToNumber q s)).
Proof.
  intros [Hnext Hids] Hinc.
  destruct q as [userId | b now | id' b now | id' u]; simpl.
  - exact Hinc.
  - unfold createWorkout. case_if; [exact Hinc|].
    intros i j wi wj. simpl. intros Hi Hj Hlt.
    apply lookup_snoc_Some in Hi as [[Hil Hi] | [-> <-]];
      apply lookup_snoc_Some in Hj as [[Hjl Hj] | [-> <-]]; try lia.
    + eapply Hinc; eassumption.
    + destruct (Forall_lookup_1 _ _ _ _ Hids Hi) as (a & Ha & Hr).
      exists a, (nextWorkoutId s). simpl. repeat split; [assumption | lia].
  - destruct (Z.eq_dec
                (findIndex (matches StringToNumber id' (Body.user_id b)) (workouts s))
                (-1)%Z) as [He|He].
    + rewrite (updateWorkout_miss _ _ _ _ He). exact Hinc.
    + destruct (findIndex_hit _ _ He) as (i0 & old & Hi0 & Hold & _).
      rewrite (updateWorkout_hit _ _ _ _ _ _ Hi0 Hold).
      assert (Hsame : forall k w,
                 <[i0 := replacement StringToNumber b now old]> (workouts s) !! k
                 = Some w ->
                 exists o, workouts s !! k = Some o /\ id o = id w).
      { intros k w Hk.
        apply list_lookup_insert_Some in Hk as [(<- & <- & _) | (_ & Hk)].
        - exists old. split; [assumption | reflexivity].
        - exists w. split; [assumption | reflexivity]. }
      intros i j wi wj. simpl. intros Hi Hj Hlt.
      destruct (Hsame _ _ Hi) as (oi & Hoi & <-).
      destruct (Hsame _ _ Hj) as (oj & Hoj & <-).
      eapply Hinc; eassumption.
  - destruct (Z.eq_dec (findIndex (matches StringToNumber id' u) (workouts s)) (-1)%Z)
      as [He|He].
    + rewrite (deleteWorkout_miss _ _ _ He). exact Hinc.
    + destruct (findIndex_hit _ _ He) as (i0 & old & Hi0 & _).
      rewrite (deleteWorkout_hit _ _ _ _ Hi0).
      intros i j wi wj. simpl. intros Hi Hj Hlt.
      apply lookup_delete_original in Hi, Hj.
      eapply Hinc; [exact Hi | exact Hj|].
      destruct (Nat.ltb_spec i i0), (Nat.ltb_spec j i0); lia.
Qed.

(** Every store the server reaches from the empty one has growing ids. *)
Lemma run_ids_increasing (qs : list request) :
  ids_increasing (fst (run StringToNumber qs empty)).
Proof.
  induction qs as [|q qs IH] using rev_ind.
  - intros i j wi wj Hi. discriminate Hi.
  - pose proof (run_store_ok StringToNumber qs) as Hok.
    rewrite run_snoc.
    destruct (run StringToNumber qs empty) as [s rs].
    pose proof (handle_ids_increasing q s Hok IH) as Hq.
    destruct (handle StringToNumber q s). exact Hq.
Qed.

(** X5: on a store with growing ids, as every store reached from the empty
    one is, a delete answered 200 has removed one workout that matched the
    id and the user id, and no workout that is left matches them: the same
    delete sent again is answered 404. *)
Theorem delete_removes_the_match :
  forall (id' : string) (u : value) (s s' : store) (r : reply),
    ids_increasing s ->
    deleteWorkout StringToNumber id' u s = (s', r) ->
    status r = 200%nat ->
    (exists (i : nat) (w : workout),
        workouts s !! i = Some w
        /\ matches StringToNumber id' u w = true
        /\ workouts s' = delete i (workouts s))
    /\ Forall (fun w => matches StringToNumber id' u w = false) (workouts s')
    /\ deleteWorkout StringToNumber id' u s'
       = (s', {| status := 404; json := Error "Workout not found" |}).
Proof.
  intros id' u s s' r Hinc Hrun Hok.
  destruct (Z.eq_dec (findIndex (matches StringToNumber id' u) (workouts s)) (-1)%Z)
    as [He|He].
  { rewrite (deleteWorkout_miss _ _ _ He) in Hrun.
    injection Hrun as _ <-. discriminate Hok. }
  destruct (findIndex_hit _ _ He) as (i & w & Hi & Hw & Hm).
  rewrite (deleteWorkout_hit _ _ _ _ Hi) in Hrun. injection Hrun as <- _.
  assert (Hnone : Forall (fun w0 => matches StringToNumber id' u w0 = false)
                         (delete i (workouts s))).
  { apply Forall_lookup. intros k x Hk.
    apply lookup_delete_original in Hk.
    destruct (matches StringToNumber id' u x) eqn:Hx; [exfalso | reflexivity].
    apply andb_prop in Hm as [Hm _]. apply andb_prop in Hx as [Hx _].
    assert (Hids : id x = id w).
    { destruct (id x), (id w), (Number StringToNumber (JStr id'));
        simpl in Hm, Hx; try discriminate.
      apply Z.eqb_eq in Hm, Hx. congruence. }
    destruct (Nat.ltb_spec k i) as [Hlt|Hge].
    - destruct (Hinc _ _ _ _ Hk Hw Hlt) as (a & c & Ha & Hc & Hac).
      rewrite Ha, Hc in Hids. injection Hids as Hids. lia.
    - destruct (Hinc i (S k) _ _ Hw Hk ltac:(lia)) as (a & c & Ha & Hc & Hac).
      rewrite Ha, Hc in Hids. injection Hids as Hids. lia. }
  split; [|split].
  - exists i, w. repeat split; assumption.
  - exact Hnone.
  - apply deleteWorkout_miss, findIndex_none. exact Hnone.
Qed.

Lemma or_else_twice (v x : value) : or_else v (or_else v x) = or_else v x.
Proof. unfold or_else. destruct (truthy v); reflexivity. Qed.

Lemma replacement_twice (b : Body.t) (now1 now2 : string) (old : workout) :
  replacement StringToNumber b now2 (replacement StringToNumber b now1 old)
  = stamped now2 (replacement StringToNumber b now1 old).
Proof.
  unfold replacement, stamped. simpl. rewrite or_else_twice.
  destruct (strict_eq (Body.duration b) JUndefined),
    (strict_eq (Body.calories b) JUndefined),
    (strict_eq (Body.notes b) JUndefined),
    (strict_eq (Body.ai_analysis b) JUndefined); reflexivity.
Qed.

(** X6: an update that was answered 200, sent again, is answered 200 with
    the same record, only [updated_at] being the time of the second
    request, and rewrites the same position of the store with it. *)
Theorem update_twice :
  forall (id' : string) (b : Body.t) (now1 now2 : string) (s s1 : store)
         (r1 : reply),
    updateWorkout StringToNumber id' b now1 s = (s1, r1) ->
    status r1 = 200%nat ->
    exists (i : nat) (w1 : workout) (s2 : store),
      json r1 = Workout w1
      /\ workouts s1 !! i = Some w1
      /\ updateWorkout StringToNumber id' b now2 s1
         = (s2, {| status := 200; json := Workout (stamped now2 w1) |})
      /\ workouts s2 = <[i := stamped now2 w1]> (workouts s1)
      /\ nextWorkoutId s2 = nextWorkoutId s.
Proof.
  intros id' b now1 now2 s s1 r1 Hrun Hok.
  destruct (Z.eq_dec
              (findIndex (matches StringToNumber id' (Body.user_id b)) (workouts s))
              (-1)%Z) as [He|He].
  { rewrite (updateWorkout_miss _ _ _ _ He) in Hrun.
    injection Hrun as _ <-. discriminate Hok. }
  destruct (findIndex_hit _ _ He) as (i & old & Hi & Hold & Hm).
  rewrite (updateWorkout_hit _ _ _ _ _ _ Hi Hold) in Hrun.
  injection Hrun as <- <-.
  set (w1 := replacement StringToNumber b now1 old).
  assert (Hm1 : matches StringToNumber id' (Body.user_id b) w1 = true) by exact Hm.
  assert (Hw1 : <[i := w1]> (workouts s) !! i = Some w1).
  { apply list_lookup_insert_eq. eapply lookup_lt_Some. exact Hold. }
  pose proof (findIndex_insert_hit _ _ _ w1 Hi Hm1) as Hi1.
  eexists i, w1, _. split; [reflexivity|]. split; [exact Hw1|].
  split.
  { rewrite (updateWorkout_hit id' b now2 _ i w1); [| exact Hi1 | exact Hw1].
    unfold w1. rewrite replacement_twice. reflexivity. }
  split; reflexivity.
Qed.

End WorkoutStoreMore.

(** ** Subscription gateway: what the routes do to each other *)

Section BillingMore.
Import Stripe Gateway.
Local Open Scope stripe_scope.

Variable toISOString : Z -> string.

Ltac case_on_if :=
  match goal with
  | |- context [if ?c then _ else _] => destruct c eqn:?
  end.

Lemma reported_take (n : nat) (l : list Subscription.t) :
  Legacy.reported toISOString (firstn (S n) l) = Legacy.reported toISOString l.
Proof. destruct l; reflexivity. Qed.

Lemma bind_returned {A B : Type} (m : M A) (k : A -> M B) (st st' : state)
    (a : A) :
  m st = (Returned a, st') -> bind m k st = k a st'.
Proof. intros H. unfold bind. rewrite H. reflexivity. Qed.

Lemma bind_thrown {A B : Type} (m : M A) (k : A -> M B) (st st' : state)
    (e : error) :
  m st = (Thrown e, st') -> bind m k st = (Thrown e, st').
Proof. intros H. unfold bind. rewrite H. reflexivity. Qed.

(** *** Computations that only read *)

Lemma read_only_ret {A : Type} (a : A) : read_only (ret a).
Proof. intros st. reflexivity. Qed.

Lemma read_only_throw {A : Type} (e : error) : read_only (@throw A e).
Proof. intros st. reflexivity. Qed.

Lemma read_only_bind {A B : Type} (m : M A) (k : A -> M B) :
  read_only m -> (forall a, read_only (k a)) -> read_only (bind m k).
Proof.
  intros Hm Hk st. unfold bind. specialize (Hm st).
  destruct (m st) as [[a|e] st']; simpl in Hm; subst st';
    [apply Hk | reflexivity].
Qed.

Lemma read_only_try_catch {A : Type} (m : M A) (h : error -> M A) :
  read_only m -> (forall e, read_only (h e)) -> read_only (try_catch m h).
Proof.
  intros Hm Hh st. unfold try_catch. specialize (Hm st).
  destruct (m st) as [[a|e] st']; simpl in Hm; subst st';
    [reflexivity | apply Hh].
Qed.

Lemma read_only_for_each {A : Type} (f : A -> M unit) (l : list A) :
  (forall a, read_only (f a)) -> read_only (for_each f l).
Proof.
  intros Hf. induction l as [|a l IH]; simpl;
    [apply read_only_ret | apply read_only_bind; [apply Hf | intros _; exact IH]].
Qed.

Lemma read_only_log_date (seconds : option Z) : read_only (log_date seconds).
Proof.
  unfold log_date. destruct (has_time seconds);
    [apply read_only_ret | apply read_only_throw].
Qed.

Lemma read_only_log_subscriptions (l : list Subscription.t) :
  read_only (log_subscriptions l).
Proof. apply read_only_for_each. intros s. apply read_only_log_date. Qed.

Lemma read_only_date_text (seconds : option Z) :
  read_only (date_text toISOString seconds).
Proof.
  unfold date_text. destruct seconds as [z|]; [|apply read_only_throw].
  destruct (has_time (Some z)); [apply read_only_ret | apply read_only_throw].
Qed.

Lemma read_only_retrieve_or (customerId : string) (missing : reply) :
  read_only (retrieve_or customerId missing).
Proof.
  unfold retrieve_or. apply read_only_try_catch.
  - apply read_only_bind; [|intros c; apply read_only_ret].
    intros st. unfold customers_retrieve. destruct (List.find _ _); reflexivity.
  - intros e. destruct (option_string_eqb _ _);
      [apply read_only_ret | apply read_only_throw].
Qed.

(** One step of a proof that a handler only reads. *)
Ltac read_only_step :=
  match goal with
  | |- read_only (or_500 _ _) => unfold or_500
  | |- read_only (try_catch _ _) => apply read_only_try_catch; [|intros ?]
  | |- read_only (bind _ _) => apply read_only_bind; [|intros ?]
  | |- read_only (ret _) => apply read_only_ret
  | |- read_only (throw _) => apply read_only_throw
  | |- read_only (retrieve_or _ _) => apply read_only_retrieve_or
  | |- read_only (log_subscriptions _) => apply read_only_log_subscriptions
  | |- read_only (date_text _ _) => apply read_only_date_text
  | |- read_only (subscriptions_list_active _ _) => intros ?; reflexivity
  | |- read_only (subscriptions_list _) => intros ?; reflexivity
  | |- read_only (if ?c then _ else _) => destruct c
  | |- read_only (match ?x with _ => _ end) => destruct x
  end.

(** *** The check routes where every period end gives a date *)

Lemma log_subscriptions_dated (l : list Subscription.t) (st : state) :
  Forall (fun s => has_time (Subscription.current_period_end s) = true) l ->
  log_subscriptions l st = (Returned tt, st).
Proof.
  induction 1 as [|s l Hs _ IH]; [reflexivity|].
  unfold log_subscriptions in *. cbn [for_each].
  rewrite (bind_returned _ _ st st tt); [exact IH|].
  unfold log_date. rewrite Hs. reflexivity.
Qed.

Lemma log_subscriptions_undated (l : list Subscription.t) (st : state)
    (s : Subscription.t) :
  In s l -> has_time (Subscription.current_period_end s) = false ->
  log_subscriptions l st = (Thrown RangeError, st).
Proof.
  intros Hin Hs. induction l as [|a l IH]; [destruct Hin|].
  unfold log_subscriptions in *. cbn [for_each].
  destruct (has_time (Subscription.current_period_end a)) eqn:Ha.
  - rewrite (bind_returned _ _ st st tt);
      [|unfold log_date; rewrite Ha; reflexivity].
    apply IH. destruct Hin as [-> | Hin]; [congruence | exact Hin].
  - apply bind_thrown. unfold log_date. rewrite Ha. reflexivity.
Qed.

Lemma dated_listed (customerId : string) (st : state) (n : nat) :
  period_ends_dated customerId st ->
  Forall (fun s => has_time (Subscription.current_period_end s) = true)
         (firstn n (active_of customerId st))
  /\ Forall (fun s => has_time (Subscription.current_period_end s) = true)
            (firstn n (all_of customerId st)).
Proof.
  intros Hd. split; apply Forall_forall; intros s Hs;
    apply (subseteq_take n), list_elem_of_In, filter_In in Hs as [Hin Hp].
  - apply andb_prop in Hp as [Hp _]. apply String.eqb_eq in Hp.
    exact (Hd s Hin Hp).
  - apply String.eqb_eq in Hp. exact (Hd s Hin Hp).
Qed.

(** What both check routes print between listing the active subscriptions
    and building the reply. *)
Lemma check_log_dated (customerId : string) (st : state) :
  period_ends_dated customerId st ->
  (if (0 <? length (firstn 10 (active_of customerId st)))%nat then
     log_subscriptions (firstn 10 (active_of customerId st))
   else
     allSubscriptions <- subscriptions_list customerId ;;
     if (0 <? length allSubscriptions)%nat
     then log_subscriptions allSubscriptions
     else ret tt) st
  = (Returned tt, st).
Proof.
  intros Hd. destruct (dated_listed customerId st 10 Hd) as [Hact Hall].
  destruct (0 <? length (firstn 10 (active_of customerId st)))%nat.
  - apply log_subscriptions_dated. exact Hact.
  - rewrite (bind_returned (subscriptions_list customerId) _ st st
               (firstn 10 (all_of customerId st)) eq_refl).
    destruct (0 <? length (firstn 10 (all_of customerId st)))%nat;
      [apply log_subscriptions_dated; exact Hall | reflexivity].
Qed.

Lemma date_text_dated (seconds : option Z) (st : state) :
  has_time seconds = true ->
  date_text toISOString seconds st
  = (Returned (toISOString (default 0%Z seconds)), st).
Proof.
  intros H. unfold date_text. destruct seconds as [z|]; [|discriminate H].
  rewrite H. reflexivity.
Qed.

(** The owner-validated check for the owner of an existing customer. *)
Lemma checkSubscription_owner (customerId userId : string) (st : state)
    (c : Customer.t) :
  looks_like_userId customerId userId = false ->
  List.find (fun c => String.eqb (Customer.id c) customerId) (customers st) = Some c ->
  Customer.userId c = Some userId ->
  period_ends_dated customerId st ->
  checkSubscription toISOString customerId userId st
  = (Returned
       {| status := 200;
          json := SubscriptionStatus
                    (Legacy.reported toISOString (active_of customerId st)) |},
     st).
Proof.
  intros Hfmt Hfind Hown Hd.
  apply option_string_eqb_eq in Hown.
  unfold checkSubscription, or_500, try_catch. rewrite Hfmt.
  rewrite (bind_returned _ _ st st (inl c) (retrieve_or_found _ _ _ _ Hfind)).
  rewrite Hown. cbn [negb].
  rewrite (bind_returned (subscriptions_list_active customerId None) _ st st
             (firstn 10 (active_of customerId st)) eq_refl).
  rewrite (bind_returned _ _ st st tt (check_log_dated _ _ Hd)).
  rewrite <- (reported_take 9).
  destruct (dated_listed customerId st 10 Hd) as [Hact _].
  destruct (firstn 10 (active_of customerId st)) as [|s l]; [reflexivity|].
  apply Forall_cons in Hact as [Hs _].
  rewrite (bind_returned _ _ st st _
             (bind_returned _ _ st st _ (date_text_dated _ st Hs))).
  reflexivity.
Qed.

Lemma checkSubscriptionLegacy_found (customerId : string) (st : state)
    (c : Customer.t) :
  String.prefix "cus_" customerId = true ->
  List.find (fun c => String.eqb (Customer.id c) customerId) (customers st) = Some c ->
  period_ends_dated customerId st ->
  Legacy.checkSubscription toISOString customerId st
  = (Returned
       {| status := 200;
          json := SubscriptionStatus
                    (Legacy.reported toISOString (active_of customerId st)) |},
     st).
Proof.
  intros Hfmt Hfind Hd.
  unfold Legacy.checkSubscription, or_500, try_catch. rewrite Hfmt. cbn [negb].
  rewrite (bind_returned _ _ st st (inl c) (retrieve_or_found _ _ _ _ Hfind)).
  rewrite (bind_returned (subscriptions_list_active customerId None) _ st st
             (firstn 10 (active_of customerId st)) eq_refl).
  rewrite (bind_returned _ _ st st tt (check_log_dated _ _ Hd)).
  rewrite <- (reported_take 9).
  destruct (dated_listed customerId st 10 Hd) as [Hact _].
  destruct (firstn 10 (active_of customerId st)) as [|s l]; [reflexivity|].
  apply Forall_cons in Hact as [Hs _].
  rewrite (bind_returned _ _ st st _
             (bind_returned _ _ st st _ (date_text_dated _ st Hs))).
  reflexivity.
Qed.

(** X7: neither check route ever changes a record of the provider,
    whatever it is asked and whatever it answers. *)
Theorem checks_are_read_only :
  forall (customerId userId : string) (st : state),
    snd (checkSubscription toISOString customerId userId st) = st
    /\ snd (Legacy.checkSubscription toISOString customerId st) = st.
Proof.
  intros customerId userId st.
  assert (H1 : read_only (checkSubscription toISOString customerId userId)).
  { unfold checkSubscription. repeat read_only_step. }
  assert (H2 : read_only (Legacy.checkSubscription toISOString customerId)).
  { unfold Legacy.checkSubscription. repeat read_only_step. }
  split; [apply H1 | apply H2].
Qed.

(** X8: to the owner of an existing customer, whose id does not look like
    a user id, the check reports the truth where every subscription of the
    customer carries a period end that gives a date: subscribed exactly
    when the customer has an active subscription, with the price, interval
    and period end of the first one listed, [subscriptionDetails: null]
    when there is none, and neither [error] nor [clearData]. Where one of
    the active subscriptions it lists carries no such period end, it
    answers 500 "Invalid time value" instead. *)
Theorem check_reports_owner_status :
  forall (customerId userId : string) (st : state) (c : Customer.t),
    looks_like_userId customerId userId = false ->
    List.find (fun c => String.eqb (Customer.id c) customerId) (customers st)
    = Some c ->
    Customer.userId c = Some userId ->
    (period_ends_dated customerId st ->
     exists body,
       checkSubscription toISOString customerId userId st
       = (Returned {| status := 200; json := SubscriptionStatus body |}, st)
       /\ (Status.isSubscribed body = true <-> active_of customerId st <> [])
       /\ (forall s rest seconds,
             active_of customerId st = s :: rest ->
             Subscription.current_period_end s = Some seconds ->
             Status.subscriptionDetails body
             = Some (Some {| priceId := Subscription.price_id s;
                             interval := Subscription.interval s;
                             currentPeriodEnd := toISOString seconds |}))
       /\ (active_of customerId st = [] ->
           Status.subscriptionDetails body = Some None)
       /\ Status.error body = None
       /\ Status.clearData body = None)
    /\ (forall s,
          In s (firstn 10 (active_of customerId st)) ->
          has_time (Subscription.current_period_end s) = false ->
          checkSubscription toISOString customerId userId st
          = (Returned {| status := 500;
                         json := Error (Some "Invalid time value") |},
             st)).
Proof.
  intros customerId userId st c Hfmt Hfind Hown. split.
  - intros Hd.
    eexists. split; [apply (checkSubscription_owner _ _ _ _ Hfmt Hfind Hown Hd)|].
    unfold Legacy.reported. simpl.
    destruct (active_of customerId st) as [|s rest]; simpl.
    + repeat split; try reflexivity; try discriminate; try congruence.
    + repeat split; try reflexivity; try discriminate.
      intros s0 rest0 seconds [= <- <-] ->. reflexivity.
  - intros s Hin Hs.
    apply option_string_eqb_eq in Hown.
    unfold checkSubscription, or_500, try_catch. rewrite Hfmt.
    rewrite (bind_returned _ _ st st (inl c) (retrieve_or_found _ _ _ _ Hfind)).
    rewrite Hown. cbn [negb].
    rewrite (bind_returned (subscriptions_list_active customerId None) _ st st
               (firstn 10 (active_of customerId st)) eq_refl).
    assert (Hlen : (0 <? length (firstn 10 (active_of customerId st)))%nat = true).
    { destruct (firstn 10 (active_of customerId st)); [destruct Hin | reflexivity]. }
    rewrite Hlen.
    rewrite (bind_thrown _ _ st st RangeError
               (log_subscriptions_undated _ st s Hin Hs)).
    reflexivity.
Qed.

(** X9: for a customer id that starts with [cus_] and does not look like a
    user id, the legacy check answers the owner-validated check of the
    customer's owner word for word: it tells anyone what the owner is
    told. *)
Theorem legacy_check_agrees_for_owner :
  forall (customerId userId : string) (st : state) (c : Customer.t),
    String.prefix "cus_" customerId = true ->
    looks_like_userId customerId userId = false ->
    List.find (fun c => String.eqb (Customer.id c) customerId) (customers st)
    = Some c ->
    Customer.userId c = Some userId ->
    Legacy.checkSubscription toISOString customerId st
    = checkSubscription toISOString customerId userId st.
Proof.
  intros customerId userId st c Hpre Hfmt Hfind Hown.
  apply option_string_eqb_eq in Hown.
  unfold Legacy.checkSubscription, checkSubscription, or_500, try_catch.
  rewrite Hpre, Hfmt. cbn [negb].
  rewrite !(bind_returned _ _ st st (inl c) (retrieve_or_found _ _ _ _ Hfind)).
  rewrite Hown. reflexivity.
Qed.

(** The two cancel routes once the customer is found (and, for the
    owner-validated one, owned): the first active subscription listed is
    cancelled, if there is one. *)
Lemma cancel_first_listed (customerId : string) (st : state) :
  (subscriptions <- subscriptions_list_active customerId (Some 1%nat) ;;
   if (length subscriptions =? 0)%nat then
     ret {| status := 200;
            json := CancelResult
              {| Cancel.success := true;
                 Cancel.message := Some "No active subscription found";
                 Cancel.error := None;
                 Cancel.clearData := None |} |}
   else
     _ <- for_each
            (fun subscription =>
               subscriptions_cancel (Subscription.id subscription))
            subscriptions ;;
     ret {| status := 200;
            json := CancelResult
              {| Cancel.success := true;
                 Cancel.message := Some "Subscription cancelled successfully";
                 Cancel.error := None;
                 Cancel.clearData := None |} |}) st
  = match active_of customerId st with
    | [] =>
        (Returned
           {| status := 200;
              json := CancelResult
                {| Cancel.success := true;
                   Cancel.message := Some "No active subscription found";
                   Cancel.error := None;
                   Cancel.clearData := None |} |},
         st)
    | s :: _ =>
        (Returned
           {| status := 200;
              json := CancelResult
                {| Cancel.success := true;
                   Cancel.message := Some "Subscription cancelled successfully";
                   Cancel.error := None;
                   Cancel.clearData := None |} |},
         Legacy.cancelled_in (Subscription.id s) st)
    end.
Proof.
  unfold bind at 1, subscriptions_list_active.
  change (default 10%nat (Some 1%nat)) with 1%nat.
  destruct (active_of customerId st) as [|s l] eqn:Hact; [reflexivity|].
  change (firstn 1 (s :: l)) with [s]. cbn [length Nat.eqb].
  assert (Hs : existsb
                 (fun s0 => String.eqb (Subscription.id s0) (Subscription.id s))
                 (subscriptions st) = true).
  { apply existsb_exists. exists s. split; [|apply String.eqb_refl].
    eapply (proj1 (filter_In _ _ _)). unfold active_of in Hact.
    rewrite Hact. left. reflexivity. }
  unfold bind, for_each, subscriptions_cancel, bind, ret. rewrite Hs.
  reflexivity.
Qed.

Lemma cancelSubscription_owner (customerId userId : string) (st : state)
    (c : Customer.t) :
  List.find (fun c => String.eqb (Customer.id c) customerId) (customers st) = Some c ->
  Customer.userId c = Some userId ->
  cancelSubscription customerId userId st
  = match active_of customerId st with
    | [] =>
        (Returned
           {| status := 200;
              json := CancelResult
                {| Cancel.success := true;
                   Cancel.message := Some "No active subscription found";
                   Cancel.error := None;
                   Cancel.clearData := None |} |},
         st)
    | s :: _ =>
        (Returned
           {| status := 200;
              json := CancelResult
                {| Cancel.success := true;
                   Cancel.message := Some "Subscription cancelled successfully";
                   Cancel.error := None;
                   Cancel.clearData := None |} |},
         Legacy.cancelled_in (Subscription.id s) st)
    end.
Proof.
  intros Hfind Hown. apply option_string_eqb_eq in Hown.
  unfold cancelSubscription, or_500, try_catch, bind at 1.
  rewrite (retrieve_or_found _ _ _ _ Hfind), Hown. cbn [negb]. cbv beta iota.
  rewrite cancel_first_listed.
  destruct (active_of customerId st); reflexivity.
Qed.

Lemma cancel_refused_changes_nothing_aux (customerId userId : string) (st : state) :
  (List.find (fun c => String.eqb (Customer.id c) customerId) (customers st) = None ->
   snd (cancelSubscription customerId userId st) = st)
  /\ (forall c,
        List.find (fun c => String.eqb (Customer.id c) customerId) (customers st)
        = Some c ->
        Customer.userId c <> Some userId ->
        snd (cancelSubscription customerId userId st) = st).
Proof.
  split.
  - intros Hfind. unfold cancelSubscription, or_500, try_catch, bind at 1.
    rewrite (retrieve_or_missing _ _ _ Hfind). reflexivity.
  - intros c Hfind Hown. apply option_string_eqb_neq in Hown.
    unfold cancelSubscription, or_500, try_catch, bind at 1.
    rewrite (retrieve_or_found _ _ _ _ Hfind), Hown. reflexivity.
Qed.

(** X10: a cancel for a customer that does not exist is answered 404 with
    [clearData: true], a cancel by anyone but the owner 403; neither
    changes a record of the provider. *)
Theorem cancel_refused_changes_nothing :
  forall (customerId userId : string) (st : state),
    (List.find (fun c => String.eqb (Customer.id c) customerId) (customers st)
     = None ->
     exists body,
       cancelSubscription customerId userId st
       = (Returned {| status := 404; json := CancelResult body |}, st)
       /\ Cancel.success body = false
       /\ Cancel.clearData body = Some true)
    /\ (forall c,
          List.find (fun c => String.eqb (Customer.id c) customerId) (customers st)
          = Some c ->
          Customer.userId c <> Some userId ->
          exists body,
            cancelSubscription customerId userId st
            = (Returned {| status := 403; json := CancelResult body |}, st)
            /\ Cancel.success body = false
            /\ Cancel.clearData body = None).
Proof.
  intros customerId userId st. split.
  - intros Hfind. unfold cancelSubscription, or_500, try_catch, bind at 1.
    rewrite (retrieve_or_missing _ _ _ Hfind).
    eexists. split; [reflexivity|]. split; reflexivity.
  - intros c Hfind Hown. apply option_string_eqb_neq in Hown.
    unfold cancelSubscription, or_500, try_catch, bind at 1.
    rewrite (retrieve_or_found _ _ _ _ Hfind), Hown.
    eexists. split; [reflexivity|]. split; reflexivity.
Qed.

(** X11: the legacy cancel does for anyone what the owner-validated
    cancel does for the owner of an existing customer: same answer, same
    records afterwards. *)
Theorem legacy_cancel_agrees_for_owner :
  forall (customerId userId : string) (st : state) (c : Customer.t),
    List.find (fun c => String.eqb (Customer.id c) customerId) (customers st)
    = Some c ->
    Customer.userId c = Some userId ->
    Legacy.cancelSubscription customerId st
    = cancelSubscription customerId userId st.
Proof.
  intros customerId userId st c Hfind Hown.
  rewrite (cancelSubscription_owner _ _ _ _ Hfind Hown).
  unfold Legacy.cancelSubscription, or_500, try_catch, bind at 1.
  rewrite (retrieve_or_found _ _ _ _ Hfind). cbv beta iota.
  rewrite cancel_first_listed.
  destruct (active_of customerId st); reflexivity.
Qed.

Lemma NoDup_ids_eq {A : Type} (f : A -> string) (l : list A) (x y : A) :
  NoDup (map f l) -> In x l -> In y l -> f x = f y -> x = y.
Proof.
  induction l as [|a l IH]; simpl; [intros _ []|].
  intros Hnd Hx Hy Hf. apply NoDup_cons in Hnd as [Hna Hnd].
  destruct Hx as [-> | Hx], Hy as [-> | Hy].
  - reflexivity.
  - exfalso. apply Hna. rewrite Hf. apply list_elem_of_In, in_map, Hy.
  - exfalso. apply Hna. rewrite <- Hf. apply list_elem_of_In, in_map, Hx.
  - apply IH; assumption.
Qed.

Lemma cancelled_customer (id : string) (s : Subscription.t) :
  Subscription.customer (cancelled id s) = Subscription.customer s.
Proof. unfold cancelled. destruct (String.eqb _ _); reflexivity. Qed.

(** Cancelling subscription [s] of customer [customerId] leaves the active
    subscriptions of every other customer alone, ids being unique. *)
Lemma active_of_other_cancelled (customerId other : string) (st : state)
    (s : Subscription.t) :
  NoDup (map Subscription.id (subscriptions st)) ->
  In s (subscriptions st) -> Subscription.customer s = customerId ->
  other <> customerId ->
  active_of other (Legacy.cancelled_in (Subscription.id s) st) = active_of other st.
Proof.
  intros Hnd Hs Hc Hne. unfold active_of, Legacy.cancelled_in. simpl.
  assert (Hkeep : forall x, In x (subscriptions st) ->
                    Subscription.customer x = other ->
                    cancelled (Subscription.id s) x = x).
  { intros x Hx Hxo. unfold cancelled.
    destruct (String.eqb_spec (Subscription.id x) (Subscription.id s)) as [E|E];
      [|reflexivity].
    rewrite (NoDup_ids_eq _ _ _ _ Hnd Hx Hs E) in Hxo. congruence. }
  revert Hkeep. generalize (subscriptions st). clear.
  induction l as [|x l IH]; intros Hkeep; simpl; [reflexivity|].
  rewrite cancelled_customer.
  destruct (String.eqb_spec (Subscription.customer x) other) as [E|E]; simpl.
  - rewrite (Hkeep x (or_introl eq_refl) E).
    rewrite IH by (intros; apply Hkeep; [right|]; assumption). reflexivity.
  - apply IH. intros; apply Hkeep; [right|]; assumption.
Qed.

(** X12: subscription ids being unique, a cancel for one customer, however
    it is answered, leaves the customers, the checkout sessions and the
    active subscriptions of every other customer as they were. *)
Theorem cancel_touches_only_its_customer :
  forall (customerId userId other : string) (st : state),
    NoDup (map Subscription.id (subscriptions st)) ->
    other <> customerId ->
    customers (snd (cancelSubscription customerId userId st)) = customers st
    /\ sessions (snd (cancelSubscription customerId userId st)) = sessions st
    /\ active_of other (snd (cancelSubscription customerId userId st))
       = active_of other st.
Proof.
  intros customerId userId other st Hnd Hne.
  destruct (List.find (fun c => String.eqb (Customer.id c) customerId)
                      (customers st)) as [c|] eqn:Hfind.
  - destruct (option_string_eqb (Customer.userId c) (Some userId)) eqn:Hown.
    + apply option_string_eqb_eq in Hown.
      rewrite (cancelSubscription_owner _ _ _ _ Hfind Hown).
      destruct (active_of customerId st) as [|s l] eqn:Hact; simpl;
        [repeat split; reflexivity|].
      assert (Hin : In s (List.filter
                            (fun s => String.eqb (Subscription.customer s) customerId
                                      && String.eqb (Subscription.status s) "active")
                            (subscriptions st))).
      { unfold active_of in Hact. rewrite Hact. left. reflexivity. }
      apply filter_In in Hin as [Hin Hp].
      apply andb_prop in Hp as [Hp _]. apply String.eqb_eq in Hp.
      repeat split; try reflexivity.
      apply (active_of_other_cancelled customerId); assumption.
    + assert (Hown' : Customer.userId c <> Some userId).
      { intros E. apply option_string_eqb_eq in E. congruence. }
      rewrite (proj2 (cancel_refused_changes_nothing_aux customerId userId st)
                 c Hfind Hown').
      repeat split; reflexivity.
  - rewrite (proj1 (cancel_refused_changes_nothing_aux customerId userId st) Hfind).
    repeat split; reflexivity.
Qed.

Lemma filter_none {A : Type} (p : A -> bool) (l : list A) :
  (forall x, In x l -> p x = false) -> List.filter p l = [].
Proof.
  induction l as [|a l IH]; intros H; simpl; [reflexivity|].
  rewrite (H a (or_introl eq_refl)). apply IH. intros x Hx. apply H. right. exact Hx.
Qed.

(** Cancelling the only active subscription of a customer leaves it none. *)
Lemma active_of_cancelled_single (customerId : string) (st : state)
    (s : Subscription.t) :
  active_of customerId st = [s] ->
  active_of customerId (Legacy.cancelled_in (Subscription.id s) st) = [].
Proof.
  intros Hact. unfold active_of, Legacy.cancelled_in in *. simpl.
  apply filter_none. intros y Hy.
  apply in_map_iff in Hy as (x & <- & Hx).
  unfold cancelled.
  destruct (String.eqb_spec (Subscription.id x) (Subscription.id s)) as [E|E]; simpl.
  - apply andb_false_r.
  - destruct (String.eqb (Subscription.customer x) customerId
              && String.eqb (Subscription.status x) "active") eqn:Hp;
      [exfalso | reflexivity].
    assert (Hin : In x [s]).
    { rewrite <- Hact. apply filter_In. split; assumption. }
    destruct Hin as [<- | []]. apply E. reflexivity.
Qed.

Lemma cancelled_period_end (id : string) (s : Subscription.t) :
  Subscription.current_period_end (cancelled id s)
  = Subscription.current_period_end s.
Proof. unfold cancelled. destruct (String.eqb _ _); reflexivity. Qed.

(** A cancellation leaves every period end as it is. *)
Lemma period_ends_dated_cancelled (customerId id : string) (st : state) :
  period_ends_dated customerId st ->
  period_ends_dated customerId (Legacy.cancelled_in id st).
Proof.
  intros Hd y Hy Hc. simpl in Hy.
  apply in_map_iff in Hy as (x & <- & Hx).
  rewrite cancelled_period_end. rewrite cancelled_customer in Hc.
  exact (Hd x Hx Hc).
Qed.

(** X13: when the customer has at most one active subscription, and every
    subscription of the customer carries a period end that gives a date, a
    cancel by its owner leaves it none, and the owner's check right after
    reports [isSubscribed: false] with [subscriptionDetails: null]. *)
Theorem cancel_then_check :
  forall (customerId userId : string) (st : state) (c : Customer.t),
    looks_like_userId customerId userId = false ->
    List.find (fun c => String.eqb (Customer.id c) customerId) (customers st)
    = Some c ->
    Customer.userId c = Some userId ->
    (length (active_of customerId st) <= 1)%nat ->
    period_ends_dated customerId st ->
    exists r st1,
      cancelSubscription customerId userId st = (Returned r, st1)
      /\ status r = 200%nat
      /\ active_of customerId st1 = []
      /\ checkSubscription toISOString customerId userId st1
         = (Returned
              {| status := 200;
                 json := SubscriptionStatus
                   {| Status.isSubscribed := false;
                      Status.subscriptionDetails := Some None;
                      Status.error := None;
                      Status.clearData := None |} |},
            st1).
Proof.
  intros customerId userId st c Hfmt Hfind Hown Hlen Hd.
  rewrite (cancelSubscription_owner _ _ _ _ Hfind Hown).
  destruct (active_of customerId st) as [|s l] eqn:Hact.
  - eexists _, st. split; [reflexivity|]. split; [reflexivity|].
    split; [exact Hact|].
    rewrite (checkSubscription_owner _ _ _ _ Hfmt Hfind Hown Hd), Hact.
    reflexivity.
  - destruct l; [|simpl in Hlen; lia].
    pose proof (active_of_cancelled_single _ _ _ Hact) as Hnone.
    eexists _, _. split; [reflexivity|]. split; [reflexivity|].
    split; [exact Hnone|].
    rewrite (checkSubscription_owner customerId userId
               (Legacy.cancelled_in (Subscription.id s) st) c Hfmt Hfind Hown
               (period_ends_dated_cancelled _ _ _ Hd)).
    rewrite Hnone. reflexivity.
Qed.

Lemma find_unique (l : list Customer.t) (c : Customer.t) :
  NoDup (map Customer.id l) -> In c l ->
  List.find (fun x => String.eqb (Customer.id x) (Customer.id c)) l = Some c.
Proof.
  intros Hnd Hin.
  destruct (find_of_In (fun x => String.eqb (Customer.id x) (Customer.id c))
              l c Hin (String.eqb_refl _)) as (y & Hy & Hp).
  rewrite Hy. f_equal.
  apply find_some in Hy as [Hyin _]. apply String.eqb_eq in Hp.
  exact (NoDup_ids_eq Customer.id l y c Hnd Hyin Hin Hp).
Qed.

Lemma find_retagged (l : list Customer.t) (c : Customer.t) (userId : string) :
  In c l ->
  exists c',
    List.find (fun x => String.eqb (Customer.id x) (Customer.id c))
              (map (retag (Customer.id c) userId) l) = Some c'
    /\ Customer.userId c' = Some userId.
Proof.
  induction l as [|a l IH]; simpl; [intros []|].
  intros Hin.
  destruct (String.eqb (Customer.id a) (Customer.id c)) eqn:Ha.
  - assert (Hr : retag (Customer.id c) userId a
                 = {| Customer.id := Customer.id a;
                      Customer.email := Customer.email a;
                      Customer.userId := Some userId;
                      Customer.created := Customer.created a |})
      by (unfold retag; rewrite Ha; reflexivity).
    rewrite Hr. simpl. rewrite Ha. eexists. split; reflexivity.
  - assert (Hr : retag (Customer.id c) userId a = a)
      by (unfold retag; rewrite Ha; reflexivity).
    rewrite Hr, Ha. apply IH. destruct Hin as [-> | Hin]; [|exact Hin].
    rewrite String.eqb_refl in Ha. discriminate.
Qed.

Lemma take1_empty {A : Type} (l : list A) :
  (0 <? length (firstn 1 l))%nat = false -> l = [].
Proof. destruct l; [reflexivity | discriminate]. Qed.

(** X14: customer ids being unique, when a checkout session was created
    (answer 200 with a customer id that does not look like a user id) for
    a customer whose earlier subscriptions, if any, carry a period end
    that gives a date, the check of that customer by the same user right
    after is not refused for ownership and reports [isSubscribed: false]
    with [subscriptionDetails: null]: payment has not happened yet. *)
Theorem checkout_then_check :
  forall (priceId userId email : string) (st st1 : state) (sid cid : string),
    NoDup (map Customer.id (customers st)) ->
    createCheckoutSession priceId userId email st
    = (Returned {| status := 200; json := CheckoutSession sid cid |}, st1) ->
    looks_like_userId cid userId = false ->
    period_ends_dated cid st ->
    checkSubscription toISOString cid userId st1
    = (Returned
         {| status := 200;
            json := SubscriptionStatus
              {| Status.isSubscribed := false;
                 Status.subscriptionDetails := Some None;
                 Status.error := None;
                 Status.clearData := None |} |},
       st1).
Proof.
  intros priceId userId email st st1 sid cid Hnd Hrun Hfmt Hd.
  revert Hrun.
  unfold createCheckoutSession, or_500, try_catch, bind, customers_list,
    subscriptions_list_active.
  change (default 10%nat (Some 1%nat)) with 1%nat.
  destruct (List.filter (fun c => String.eqb (Customer.email c) email)
                        (customers st)) as [|c rest] eqn:Hlist.
  - change (firstn 1 (@nil Customer.t)) with (@nil Customer.t).
    unfold customers_create, checkout_sessions_create, ret. cbv beta iota.
    cbn [Customer.id customers subscriptions]. fold (active_of).
    case_on_if; [discriminate|]. intros [= <- <- <-].
    match goal with H : _ = false |- _ => apply take1_empty in H; rename H into Hact end.
    erewrite checkSubscription_owner;
      [| exact Hfmt | simpl; rewrite String.eqb_refl; reflexivity | reflexivity
       | exact Hd].
    unfold active_of in *. simpl in *. rewrite Hact. reflexivity.
  - change (firstn 1 (c :: rest)) with [c]. cbv beta iota.
    assert (Hin : In c (customers st)).
    { eapply (proj1 (filter_In _ _ _)). rewrite Hlist. left. reflexivity. }
    destruct (option_string_eqb (Customer.userId c) (Some userId)) eqn:Hown;
      cbn [negb].
    + unfold ret, checkout_sessions_create. cbv beta iota.
      case_on_if; [discriminate|]. intros [= <- <- <-].
      match goal with H : _ = false |- _ => apply take1_empty in H; rename H into Hact end.
      apply option_string_eqb_eq in Hown.
      erewrite checkSubscription_owner;
        [| exact Hfmt | simpl; apply find_unique; assumption | exact Hown
         | exact Hd].
      unfold active_of in *. simpl in *. rewrite Hact. reflexivity.
    + destruct (customers_update_known userId st c Hin) as (c' & -> & Hid).
      unfold ret, checkout_sessions_create. cbv beta iota. rewrite Hid.
      case_on_if; [discriminate|]. intros [= <- <- <-].
      match goal with H : _ = false |- _ => apply take1_empty in H; rename H into Hact end.
      destruct (find_retagged (customers st) c userId Hin) as (c'' & Hfind & Htag).
      erewrite checkSubscription_owner;
        [| exact Hfmt | simpl; exact Hfind | exact Htag | exact Hd].
      unfold active_of in *. simpl in *. rewrite Hact. reflexivity.
Qed.

Lemma retagged_ids (id userId : string) (l : list Customer.t) :
  map Customer.id (map (retag id userId) l) = map Customer.id l
  /\ map Customer.email (map (retag id userId) l) = map Customer.email l.
Proof.
  induction l as [|a l [IH1 IH2]]; simpl; [split; reflexivity|].
  rewrite IH1, IH2. unfold retag.
  destruct (String.eqb (Customer.id a) id); split; reflexivity.
Qed.

(** X15: a checkout request never adds a customer when the provider lists
    one for the email: the customers keep their ids and emails. When it
    lists none, exactly one customer is added, with that email and the
    user's tag. In both cases no subscription is touched. *)
Theorem checkout_reuses_customer :
  forall (priceId userId email : string) (st : state),
    (List.filter (fun c => String.eqb (Customer.email c) email) (customers st)
     <> [] ->
     map Customer.id
       (customers (snd (createCheckoutSession priceId userId email st)))
     = map Customer.id (customers st)
     /\ map Customer.email
          (customers (snd (createCheckoutSession priceId userId email st)))
        = map Customer.email (customers st))
    /\ (List.filter (fun c => String.eqb (Customer.email c) email) (customers st)
        = [] ->
        exists c,
          customers (snd (createCheckoutSession priceId userId email st))
          = c :: customers st
          /\ Customer.email c = email
          /\ Customer.userId c = Some userId)
    /\ subscriptions (snd (createCheckoutSession priceId userId email st))
       = subscriptions st.
Proof.
  intros priceId userId email st.
  unfold createCheckoutSession, or_500, try_catch, bind, customers_list,
    subscriptions_list_active.
  change (default 10%nat (Some 1%nat)) with 1%nat.
  destruct (List.filter (fun c => String.eqb (Customer.email c) email)
                        (customers st)) as [|c rest] eqn:Hlist.
  - change (firstn 1 (@nil Customer.t)) with (@nil Customer.t).
    unfold customers_create, checkout_sessions_create, ret. cbv beta iota.
    split; [intros []; reflexivity|].
    case_on_if; simpl; (split; [|reflexivity]); intros _;
      eexists; repeat split; reflexivity.
  - change (firstn 1 (c :: rest)) with [c]. cbv beta iota.
    assert (Hin : In c (customers st)).
    { eapply (proj1 (filter_In _ _ _)). rewrite Hlist. left. reflexivity. }
    destruct (option_string_eqb (Customer.userId c) (Some userId)); cbn [negb].
    + unfold ret, checkout_sessions_create. cbv beta iota.
      case_on_if; simpl; (split; [|split; [discriminate | reflexivity]]);
        intros _; split; reflexivity.
    + destruct (customers_update_known userId st c Hin) as (c' & -> & Hid).
      unfold ret, checkout_sessions_create. cbv beta iota.
      case_on_if; simpl; (split; [|split; [discriminate | reflexivity]]);
        intros _; apply retagged_ids.
Qed.

(** X16: customer ids being unique, the customer id that the search by
    email hands to a user always passes the ownership validation of the
    check for that user right after: where every subscription of that
    customer carries a period end that gives a date, the check reports
    whether the customer has an active subscription and sends no
    [clearData]. *)
Theorem found_customer_passes_check :
  forall (email userId cid : string) (st st1 : state),
    NoDup (map Customer.id (customers st)) ->
    email <> "" -> userId <> "" ->
    findCustomerByEmail (Some email) (Some userId) st
    = (Returned {| status := 200; json := CustomerId (Some cid) |}, st1) ->
    looks_like_userId cid userId = false ->
    period_ends_dated cid st ->
    exists body,
      checkSubscription toISOString cid userId st1
      = (Returned {| status := 200; json := SubscriptionStatus body |}, st1)
      /\ (Status.isSubscribed body = true <-> active_of cid st <> [])
      /\ Status.error body = None
      /\ Status.clearData body = None.
Proof.
  intros email userId cid st st1 Hnd He Hu Hrun Hfmt Hd.
  rewrite (findCustomerByEmail_first _ _ _ He Hu) in Hrun.
  destruct (List.find _ _) as [c|] eqn:Hfound; [|discriminate].
  apply find_some in Hfound as [Hc _].
  apply list_elem_of_In, (subseteq_take 10), list_elem_of_In in Hc.
  apply filter_In in Hc as [Hin _].
  destruct (has_time (Some (Customer.created c))); [|discriminate].
  injection Hrun as <- <-.
  assert (Hbody : forall l,
             (Status.isSubscribed (Legacy.reported toISOString l) = true <-> l <> [])
             /\ Status.error (Legacy.reported toISOString l) = None
             /\ Status.clearData (Legacy.reported toISOString l) = None).
  { intros [|x l]; simpl; repeat split; try discriminate; congruence. }
  destruct (option_string_eqb (Customer.userId c) (Some userId)) eqn:Hown.
  - apply option_string_eqb_eq in Hown.
    eexists. split.
    { apply (checkSubscription_owner _ _ _ c Hfmt); [|exact Hown | exact Hd].
      apply find_unique; assumption. }
    apply Hbody.
  - destruct (find_retagged (customers st) c userId Hin) as (c' & Hfind & Htag).
    eexists. split.
    { apply (checkSubscription_owner _ _ _ c' Hfmt);
        [exact Hfind | exact Htag | exact Hd]. }
    exact (Hbody (active_of (Customer.id c) st)).
Qed.

(** X17: whatever it is asked, the search by email leaves the provider's
    records as they are or retags one customer id with the requesting
    user id: subscriptions, sessions, customer ids and emails are never
    touched. *)
Theorem find_changes_only_a_tag :
  forall (email userId : option string) (st : state),
    (snd (findCustomerByEmail email userId st) = st
     \/ exists cid u,
          userId = Some u
          /\ snd (findCustomerByEmail email userId st) = retagged cid u st)
    /\ subscriptions (snd (findCustomerByEmail email userId st)) = subscriptions st
    /\ sessions (snd (findCustomerByEmail email userId st)) = sessions st
    /\ map Customer.id (customers (snd (findCustomerByEmail email userId st)))
       = map Customer.id (customers st)
    /\ map Customer.email (customers (snd (findCustomerByEmail email userId st)))
       = map Customer.email (customers st).
Proof.
  intros email userId st.
  assert (H : snd (findCustomerByEmail email userId st) = st
              \/ exists cid u,
                   userId = Some u
                   /\ snd (findCustomerByEmail email userId st) = retagged cid u st).
  { destruct email as [email|], userId as [userId|];
      try (left; unfold findCustomerByEmail, or_500, try_catch, falsy;
           rewrite ?orb_true_r; reflexivity).
    destruct (String.eqb_spec email "") as [->|He];
      [left; reflexivity|].
    destruct (String.eqb_spec userId "") as [->|Hu];
      [left; unfold findCustomerByEmail, or_500, try_catch, falsy;
       rewrite orb_true_r; reflexivity|].
    rewrite (findCustomerByEmail_first _ _ _ He Hu).
    destruct (List.find _ _) as [c|]; [|left; reflexivity].
    destruct (has_time (Some (Customer.created c))); [|left; reflexivity].
    destruct (option_string_eqb (Customer.userId c) (Some userId));
      [left; reflexivity|].
    right. exists (Customer.id c), userId. split; reflexivity. }
  split; [exact H|].
  destruct H as [-> | (cid & u & _ & ->)].
  - repeat split; reflexivity.
  - simpl. repeat split; try reflexivity; apply retagged_ids.
Qed.

End BillingMore.

(** ** Analysis route, cross-origin requests *)

Section AnalysisMore.
Import JS Relay.

Lemma string_of_Z_nonempty (z : Z) : string_of_Z z <> "".
Proof.
  unfold string_of_Z. destruct (Z.to_int z) as [[]|[]]; discriminate.
Qed.

(** [JSON.stringify] of anything but [undefined] is a non-empty text. *)
Lemma stringify_nonempty (v : value) :
  v <> JUndefined -> exists text, stringify v = Some text /\ text <> "".
Proof.
  destruct v as [| |[]|[]| | |]; simpl; intros Hv;
    try contradiction; eexists; (split; [reflexivity|]);
    try discriminate.
  apply string_of_Z_nonempty.
Qed.

(** X19: the normalisation of the server and the one of the client fail,
    with the [TypeError] of reading [data.data], exactly on a response
    that is [null] (or [undefined]). *)
Theorem normalisation_fails_on_null_only :
  forall data,
    (extractAnalysis data = None <-> data = JNull \/ data = JUndefined)
    /\ (sendToWebhook data = None <-> data = JNull \/ data = JUndefined).
Proof.
  intros data. rewrite sendToWebhook_extractAnalysis.
  assert (H : extractAnalysis data = None <-> data = JNull \/ data = JUndefined).
  { unfold extractAnalysis.
    destruct data; cbv beta iota delta [get];
      try (split; [discriminate | intros [H|H]; discriminate]);
      try (split; [intros _; auto | reflexivity]);
      (destruct (truthy _);
       [|destruct (negb _)]; split; try discriminate;
       intros [H|H]; discriminate). }
  split; exact H.
Qed.

Lemma extractAnalysis_truthy (data v : value) :
  extractAnalysis data = Some v ->
  truthy v = true \/ (data = JStr "" /\ v = JStr "").
Proof.
  unfold extractAnalysis.
  assert (Hgen : forall d,
             data <> JUndefined ->
             (if truthy d then Some d
              else
                let analysis := assign_first data possibleFields JUndefined in
                if negb (truthy analysis) then
                  Some (match stringify data with
                        | Some s => JStr s
                        | None => JUndefined
                        end)
                else Some analysis) = Some v ->
             truthy v = true).
  { intros d Hdef. destruct (truthy d) eqn:Hd; [intros [= <-]; exact Hd|].
    cbv zeta. destruct (truthy (assign_first data possibleFields JUndefined)) eqn:Ha;
      simpl; intros [= <-]; [exact Ha|].
    destruct (stringify_nonempty data Hdef) as (text & -> & Hne).
    simpl. apply negb_true_iff, String.eqb_neq. exact Hne. }
  destruct data as [| | b | n | text | items | fields];
    cbv beta iota delta [get]; try discriminate;
    try match goal with
        | |- (if truthy ?d then _ else _) = _ -> _ =>
            intros H; left; exact (Hgen d ltac:(discriminate) H)
        end.
  intros [= <-]. destruct text; [right; split; reflexivity | left; reflexivity].
Qed.

(** X20: an answer 200 of the analysis route means that notes and user id
    were there and the workflow answered with success and a JSON body; its
    [analysis] is never [undefined], and it is truthy unless the workflow
    answered the empty string. *)
Theorem analysis_reply_is_usable :
  forall (webhook : value -> AnalysisRoute.fetched) (notes userId v : value),
    AnalysisRoute.aiAnalysis webhook notes userId = AnalysisRoute.Analysis v ->
    truthy notes = true /\ truthy userId = true
    /\ exists code data,
         webhook notes = AnalysisRoute.Responded true code (Some data)
         /\ extractAnalysis data = Some v
         /\ v <> JUndefined
         /\ (truthy v = true \/ (data = JStr "" /\ v = JStr "")).
Proof.
  intros webhook notes userId v. unfold AnalysisRoute.aiAnalysis.
  destruct (truthy notes), (truthy userId); simpl; try discriminate.
  destruct (webhook notes) as [|[] code [data|]]; simpl; try discriminate.
  destruct (extractAnalysis data) as [a|] eqn:Ha; [|discriminate].
  intros [= <-]. split; [reflexivity|]. split; [reflexivity|].
  exists code, data. split; [reflexivity|]. split; [exact Ha|].
  pose proof (extractAnalysis_truthy _ _ Ha) as Ht.
  split; [|exact Ht].
  destruct Ht as [Ht | [_ ->]]; [|discriminate].
  intros ->. discriminate Ht.
Qed.

(** X21: a request is let through by the origin callback exactly when it
    names no origin, or its origin contains [localhost] or [vercel.app],
    or is [CLIENT_URL]: the five origins listed in the code add nothing. *)
Theorem cors_origin_allowed :
  forall (CLIENT_URL : option string) (o : string),
    (Cors.origin CLIENT_URL None = true)
    /\ (Cors.origin CLIENT_URL (Some "") = true)
    /\ (o <> "" ->
        (Cors.origin CLIENT_URL (Some o) = true <->
         Gateway.includes o "localhost" = true
         \/ Gateway.includes o "vercel.app" = true
         \/ CLIENT_URL = Some o)).
Proof.
  intros CLIENT_URL o. split; [reflexivity|]. split; [reflexivity|].
  intros Ho. unfold Cors.origin, Gateway.falsy.
  apply String.eqb_neq in Ho. rewrite Ho.
  change (default "" (Some o)) with o.
  destruct (Gateway.includes o "localhost") eqn:Hl; [split; auto|].
  destruct (Gateway.includes o "vercel.app") eqn:Hv; [split; auto|].
  unfold Cors.allowedOrigins. rewrite existsb_app.
  assert (Hstatic : existsb (String.eqb o) Cors.staticOrigins = false).
  { destruct (existsb (String.eqb o) Cors.staticOrigins) eqn:E; [|reflexivity].
    apply existsb_exists in E as (x & Hx & Heq).
    apply String.eqb_eq in Heq. subst x.
    simpl in Hx.
    destruct Hx as [<- | [<- | [<- | [<- | [<- | []]]]]];
      vm_compute in Hl; vm_compute in Hv; discriminate. }
  rewrite Hstatic. simpl.
  destruct CLIENT_URL as [u|]; simpl.
  - destruct (String.eqb_spec u "") as [->|Hu]; simpl.
    + split; [discriminate|]. intros [H | [H | H]]; try discriminate.
      injection H as <-. discriminate.
    + rewrite orb_false_r. destruct (String.eqb_spec o u) as [->|Hne].
      * split; auto.
      * split; [discriminate|]. intros [H | [H | H]]; try discriminate.
        injection H as <-. contradiction.
  - split; [discriminate|]. intros [H | [H | H]]; discriminate.
Qed.

End AnalysisMore.

(** ** The client: identity map and workout list *)

Section ClientMore.
Import IdentityMap.

Lemma key_inj (u v : string) :
  getUserCustomerIdKey u = getUserCustomerIdKey v -> u = v.
Proof.
  unfold getUserCustomerIdKey. cbv beta iota fix delta [String.append].
  congruence.
Qed.

Lemma key_not_legacy (u : string) :
  getUserCustomerIdKey u <> STRIPE_CUSTOMER_ID_KEY.
Proof.
  unfold getUserCustomerIdKey, STRIPE_CUSTOMER_ID_KEY.
  cbv beta iota fix delta [String.append]. congruence.
Qed.

Lemma key_has_prefix (u : string) :
  negb (String.eqb (getUserCustomerIdKey u) "")
  && String.prefix "stripe_customer_id_" (getUserCustomerIdKey u) = true.
Proof.
  unfold getUserCustomerIdKey. cbv beta iota fix delta [String.append].
  destruct u; reflexivity.
Qed.

(** X22: for a non-empty user id, the customer id stored for a user is the
    one read back, storing it removes the legacy key shared by all users,
    and after clearing nothing is read back. *)
Theorem identity_map_round_trip :
  forall (userId customerId : string) (localStorage : gmap string string),
    userId <> "" ->
    getCustomerIdForUser userId
      (setCustomerIdForUser userId customerId localStorage) = Some customerId
    /\ setCustomerIdForUser userId customerId localStorage
       !! STRIPE_CUSTOMER_ID_KEY = None
    /\ getCustomerIdForUser userId
         (clearInvalidCustomerId userId
            (setCustomerIdForUser userId customerId localStorage)) = None.
Proof.
  intros userId customerId localStorage Hu.
  unfold getCustomerIdForUser, setCustomerIdForUser, clearInvalidCustomerId,
    clearCustomerIdForUser.
  apply String.eqb_neq in Hu. rewrite Hu.
  pose proof (key_not_legacy userId) as Hk.
  split; [|split].
  - rewrite lookup_delete_ne by congruence. apply lookup_insert_eq.
  - apply lookup_delete_eq.
  - apply lookup_delete_eq.
Qed.

(** X23: storing or clearing the customer id of one user never changes
    what is read back for another user. *)
Theorem identity_map_isolation :
  forall (u v customerId : string) (localStorage : gmap string string),
    u <> v ->
    getCustomerIdForUser v (setCustomerIdForUser u customerId localStorage)
    = getCustomerIdForUser v localStorage
    /\ getCustomerIdForUser v (clearInvalidCustomerId u localStorage)
       = getCustomerIdForUser v localStorage.
Proof.
  intros u v customerId localStorage Hne.
  unfold getCustomerIdForUser, setCustomerIdForUser, clearInvalidCustomerId,
    clearCustomerIdForUser.
  destruct (String.eqb v ""); [split; reflexivity|].
  destruct (String.eqb u ""); [split; reflexivity|].
  assert (Hk : getUserCustomerIdKey u <> getUserCustomerIdKey v).
  { intros E. apply key_inj in E. contradiction. }
  pose proof (key_not_legacy v) as Hl.
  split.
  - rewrite lookup_delete_ne by congruence. apply lookup_insert_ne. exact Hk.
  - apply lookup_delete_ne. exact Hk.
Qed.

Lemma lookup_foldl_delete (keys : list string) (m : gmap string string)
    (k : string) :
  foldl (fun storage key => delete key storage) m keys !! k
  = if bool_decide (k ∈ keys) then None else m !! k.
Proof.
  revert m. induction keys as [|key keys IH]; intros m; simpl.
  - reflexivity.
  - rewrite IH. destruct (decide (k = key)) as [->|Hne].
    + rewrite lookup_delete_eq.
      rewrite (bool_decide_eq_true_2 (key ∈ key :: keys)) by (left).
      destruct (bool_decide (key ∈ keys)); reflexivity.
    + rewrite lookup_delete_ne by congruence.
      destruct (decide (k ∈ keys)) as [Hin|Hnin].
      * rewrite !bool_decide_eq_true_2; [reflexivity | right; exact Hin | exact Hin].
      * rewrite !bool_decide_eq_false_2; [reflexivity | | exact Hnin].
        intros Hin. apply elem_of_cons in Hin as [? | ?]; contradiction.
Qed.

(** X24: after [clearAllStripeData] no user has a customer id stored and
    the legacy key is gone, while every key that is neither the legacy key
    nor starts with [stripe_customer_id_] holds what it held. *)
Theorem clear_all_removes_every_mapping :
  forall (localStorage : gmap string string),
    (forall userId,
       getCustomerIdForUser userId (clearAllStripeData localStorage) = None)
    /\ clearAllStripeData localStorage !! STRIPE_CUSTOMER_ID_KEY = None
    /\ (forall key,
          String.prefix "stripe_customer_id_" key = false ->
          key <> STRIPE_CUSTOMER_ID_KEY ->
          clearAllStripeData localStorage !! key = localStorage !! key).
Proof.
  intros localStorage. unfold clearAllStripeData. cbv zeta.
  set (cleared := delete STRIPE_CUSTOMER_ID_KEY localStorage).
  set (pred := fun key => negb (String.eqb key "")
                          && String.prefix "stripe_customer_id_" key).
  split; [|split].
  - intros userId. unfold getCustomerIdForUser.
    destruct (String.eqb userId ""); [reflexivity|].
    rewrite lookup_foldl_delete.
    destruct (bool_decide _) eqn:Hin; [reflexivity|].
    apply bool_decide_eq_false in Hin.
    destruct (cleared !! getUserCustomerIdKey userId) as [x|] eqn:Hx;
      [exfalso | reflexivity].
    apply Hin, list_elem_of_In, filter_In. split.
    + apply list_elem_of_In, list_elem_of_fmap.
      exists (getUserCustomerIdKey userId, x). split; [reflexivity|].
      apply elem_of_map_to_list. exact Hx.
    + apply key_has_prefix.
  - rewrite lookup_foldl_delete.
    destruct (bool_decide _); [reflexivity|]. apply lookup_delete_eq.
  - intros key Hpre Hne. rewrite lookup_foldl_delete.
    destruct (bool_decide _) eqn:Hin.
    + apply bool_decide_eq_true in Hin.
      apply list_elem_of_In, filter_In in Hin as [_ Hp].
      subst pred. cbv beta in Hp.
      rewrite Hpre, andb_false_r in Hp. discriminate.
    + unfold cleared. apply lookup_delete_ne. congruence.
Qed.

Lemma NoDup_map_filter {A : Type} (f : A -> string) (p : A -> bool) (l : list A) :
  NoDup (map f l) -> NoDup (map f (List.filter p l)).
Proof.
  induction l as [|a l IH]; simpl; [intros _; constructor|].
  intros Hnd. apply NoDup_cons in Hnd as [Hna Hnd].
  destruct (p a); simpl; [|apply IH; exact Hnd].
  apply NoDup_cons. split; [|apply IH; exact Hnd].
  intros Hin. apply Hna.
  apply list_elem_of_In, in_map_iff in Hin as (x & Hx & Hin).
  apply filter_In in Hin as [Hin _].
  rewrite <- Hx. apply list_elem_of_In, in_map. exact Hin.
Qed.

(** X25: the combined list keeps every local workout, shows every stored
    id, and, when neither the local nor the stored workouts repeat an id,
    repeats none either: a workout present on both sides is shown once,
    in its local version. *)
Theorem combined_workouts_unique :
  forall (workouts storedWorkouts : list WorkoutList.Workout),
    (forall w, In w workouts ->
       In w (WorkoutList.combinedWorkouts workouts storedWorkouts))
    /\ (forall sw, In sw storedWorkouts ->
          exists w,
            In w (WorkoutList.combinedWorkouts workouts storedWorkouts)
            /\ WorkoutList.id w = WorkoutList.id sw)
    /\ (NoDup (map WorkoutList.id workouts) ->
        NoDup (map WorkoutList.id storedWorkouts) ->
        NoDup (map WorkoutList.id
                 (WorkoutList.combinedWorkouts workouts storedWorkouts))).
Proof.
  intros workouts storedWorkouts. unfold WorkoutList.combinedWorkouts. cbv zeta.
  set (localWorkoutIds := list_to_set (map WorkoutList.id workouts) : gset string).
  split; [|split].
  - intros w Hw. apply in_app_iff. left. exact Hw.
  - intros sw Hsw.
    destruct (decide (WorkoutList.id sw ∈ localWorkoutIds)) as [Hin|Hnin].
    + apply elem_of_list_to_set, list_elem_of_In, in_map_iff in Hin
        as (w & Hid & Hw).
      exists w. split; [apply in_app_iff; left; exact Hw | exact Hid].
    + exists sw. split; [|reflexivity].
      apply in_app_iff. right. apply filter_In. split; [exact Hsw|].
      rewrite bool_decide_eq_false_2 by exact Hnin. reflexivity.
  - intros Hl Hs. rewrite map_app. apply NoDup_app. split; [exact Hl|].
    split; [|apply NoDup_map_filter; exact Hs].
    intros x Hx Hx'.
    apply list_elem_of_In, in_map_iff in Hx' as (sw & <- & Hsw).
    apply filter_In in Hsw as [_ Hp].
    apply negb_true_iff, bool_decide_eq_false in Hp.
    apply Hp, elem_of_list_to_set. exact Hx.
Qed.

End ClientMore.

(** ** The further properties at concrete requests *)

Section ConcreteMore.
Import JS Fixtures Samples.

Lemma mutation_leaves_other_lists_witness :
  Invariants.acts_for (Workouts.DeleteWorkout "1" (JStr "user-a")) (JStr "user-a")
  /\ JStr "user-a" <> JStr "user-b"
  /\ snd (Workouts.getWorkouts "user-b"
            (fst (Workouts.handle digits
                    (Workouts.DeleteWorkout "1" (JStr "user-a")) two_users)))
     = snd (Workouts.getWorkouts "user-b" two_users).
Proof.
  assert (H1 : Invariants.acts_for (Workouts.DeleteWorkout "1" (JStr "user-a"))
                 (JStr "user-a")) by reflexivity.
  assert (H2 : JStr "user-a" <> JStr "user-b") by discriminate.
  split; [exact H1|]. split; [exact H2|].
  exact (mutation_leaves_other_lists digits _ two_users _ "user-b" H1 H2).
Defined.

Lemma created_workout_is_listed_witness :
  exists ws,
    Workouts.getWorkouts "user-a" Workouts.empty
    = (Workouts.empty,
       {| Workouts.status := 200; Workouts.json := Workouts.WorkoutList ws |})
    /\ Workouts.getWorkouts "user-a" one_workout
       = (one_workout,
          {| Workouts.status := 200;
             Workouts.json := Workouts.WorkoutList (ws ++ [first_workout]) |}).
Proof.
  exact (created_workout_is_listed digits (run_body_of "user-a")
           "2025-07-01T08:00:00.000Z" Workouts.empty one_workout first_workout
           "user-a" eq_refl eq_refl).
Defined.

Lemma unparsable_id_not_found_witness :
  digits "abc" = NaN
  /\ Workouts.updateWorkout digits "abc" (notes_body_of "user-a")
       "2025-07-02T09:00:00.000Z" one_workout
     = (one_workout,
        {| Workouts.status := 404;
           Workouts.json := Workouts.Error "Workout not found" |})
  /\ Workouts.deleteWorkout digits "abc" (JStr "user-a") one_workout
     = (one_workout,
        {| Workouts.status := 404;
           Workouts.json := Workouts.Error "Workout not found" |}).
Proof.
  split; [reflexivity|].
  exact (unparsable_id_not_found digits "abc" (notes_body_of "user-a")
           "2025-07-02T09:00:00.000Z" (JStr "user-a") one_workout eq_refl).
Defined.

(** The file after the first create, and after a create whose [duration]
    is no number: the stored [NaN] is written [null]. *)
Example file_after_first_create :
  Workouts.file one_workout = Some first_file.
Proof. reflexivity. Qed.

Example file_after_vague_create :
  let s := fst (Workouts.createWorkout digits vague_body
                  "2025-07-01T08:00:00.000Z" Workouts.empty) in
  map Workouts.duration (Workouts.workouts s) = [NaN]
  /\ exists text,
       Workouts.file s = Some text
       /\ Gateway.includes text (quoted "duration" ++ ": null,") = true.
Proof. split; [reflexivity|]. eexists. split; reflexivity. Qed.

Lemma delete_removes_the_match_witness :
  Invariants.ids_increasing two_users
  /\ Workouts.status
       (snd (Workouts.deleteWorkout digits "1" (JStr "user-a") two_users))
     = 200%nat
  /\ Workouts.deleteWorkout digits "1" (JStr "user-a")
       (fst (Workouts.deleteWorkout digits "1" (JStr "user-a") two_users))
     = (fst (Workouts.deleteWorkout digits "1" (JStr "user-a") two_users),
        {| Workouts.status := 404;
           Workouts.json := Workouts.Error "Workout not found" |}).
Proof.
  assert (H1 : Invariants.ids_increasing two_users)
    by exact (run_ids_increasing digits two_creates).
  split; [exact H1|]. split; [reflexivity|].
  exact (proj2 (proj2 (delete_removes_the_match digits "1" (JStr "user-a")
                         two_users _ _ H1 eq_refl eq_refl))).
Defined.

Lemma update_twice_witness :
  Workouts.status
    (snd (Workouts.updateWorkout digits "1" (notes_body_of "user-a")
            "2025-07-02T09:00:00.000Z" one_workout)) = 200%nat
  /\ exists (i : nat) (w1 : Workouts.workout) (s2 : Workouts.store),
       Workouts.json
         (snd (Workouts.updateWorkout digits "1" (notes_body_of "user-a")
                 "2025-07-02T09:00:00.000Z" one_workout))
       = Workouts.Workout w1
       /\ Workouts.updateWorkout digits "1" (notes_body_of "user-a")
            "2025-07-03T10:00:00.000Z"
            (fst (Workouts.updateWorkout digits "1" (notes_body_of "user-a")
                    "2025-07-02T09:00:00.000Z" one_workout))
          = (s2,
             {| Workouts.status := 200;
                Workouts.json :=
                  Workouts.Workout
                    (Invariants.stamped "2025-07-03T10:00:00.000Z" w1) |}).
Proof.
  split; [reflexivity|].
  destruct (update_twice digits "1" (notes_body_of "user-a")
              "2025-07-02T09:00:00.000Z" "2025-07-03T10:00:00.000Z"
              one_workout _ _ eq_refl eq_refl)
    as (i & w1 & s2 & Hr & _ & Hrun & _).
  exists i, w1, s2. split; assumption.
Defined.

Lemma check_reports_owner_status_witness :
  Gateway.looks_like_userId "cus_1" "user-a" = false
  /\ Gateway.period_ends_dated "cus_1" subscribed
  /\ (exists body,
        Gateway.checkSubscription toISOString "cus_1" "user-a" subscribed
        = (Stripe.Returned
             {| Gateway.status := 200;
                Gateway.json := Gateway.SubscriptionStatus body |},
           subscribed)
        /\ (Gateway.Status.isSubscribed body = true
            <-> Stripe.active_of "cus_1" subscribed <> [])
        /\ (forall s rest seconds,
              Stripe.active_of "cus_1" subscribed = s :: rest ->
              Stripe.Subscription.current_period_end s = Some seconds ->
              Gateway.Status.subscriptionDetails body
              = Some (Some {| Gateway.priceId := Stripe.Subscription.price_id s;
                              Gateway.interval := Stripe.Subscription.interval s;
                              Gateway.currentPeriodEnd := toISOString seconds |}))
        /\ (Stripe.active_of "cus_1" subscribed = [] ->
            Gateway.Status.subscriptionDetails body = Some None)
        /\ Gateway.Status.error body = None
        /\ Gateway.Status.clearData body = None)
  /\ Gateway.checkSubscription toISOString "cus_1" "user-a" undated
     = (Stripe.Returned
          {| Gateway.status := 500;
             Gateway.json := Gateway.Error (Some "Invalid time value") |},
        undated).
Proof.
  assert (Hd : Gateway.period_ends_dated "cus_1" subscribed).
  { intros s [<- | []] _. reflexivity. }
  split; [reflexivity|]. split; [exact Hd|]. split.
  - exact (proj1 (check_reports_owner_status toISOString "cus_1" "user-a"
                    subscribed _ eq_refl eq_refl eq_refl) Hd).
  - exact (proj2 (check_reports_owner_status toISOString "cus_1" "user-a"
                    undated _ eq_refl eq_refl eq_refl)
             _ (or_introl eq_refl) eq_refl).
Defined.

(** The owner's check of a subscription that carries no period end, or
    one beyond the range of dates: [toISOString] throws and the route
    answers 500. *)
Example check_without_period_end :
  Gateway.checkSubscription toISOString "cus_1" "user-a" undated
  = (Stripe.Returned
       {| Gateway.status := 500;
          Gateway.json := Gateway.Error (Some "Invalid time value") |},
     undated)
  /\ Gateway.has_time (Some 8640000000000%Z) = true
  /\ Gateway.has_time (Some 8640000000001%Z) = false.
Proof. repeat split; reflexivity. Qed.

Lemma legacy_check_agrees_for_owner_witness :
  String.prefix "cus_" "cus_1" = true
  /\ Legacy.checkSubscription toISOString "cus_1" subscribed
     = Gateway.checkSubscription toISOString "cus_1" "user-a" subscribed.
Proof.
  split; [reflexivity|].
  exact (legacy_check_agrees_for_owner toISOString "cus_1" "user-a" subscribed
           _ eq_refl eq_refl eq_refl eq_refl).
Defined.

Lemma cancel_refused_changes_nothing_witness :
  (exists body,
      Gateway.cancelSubscription "cus_9" "user-a" subscribed
      = (Stripe.Returned
           {| Gateway.status := 404; Gateway.json := Gateway.CancelResult body |},
         subscribed)
      /\ Gateway.Cancel.success body = false
      /\ Gateway.Cancel.clearData body = Some true)
  /\ (exists body,
        Gateway.cancelSubscription "cus_1" "user-b" subscribed
        = (Stripe.Returned
             {| Gateway.status := 403; Gateway.json := Gateway.CancelResult body |},
           subscribed)
        /\ Gateway.Cancel.success body = false
        /\ Gateway.Cancel.clearData body = None).
Proof.
  split.
  - exact (proj1 (cancel_refused_changes_nothing "cus_9" "user-a" subscribed)
             eq_refl).
  - exact (proj2 (cancel_refused_changes_nothing "cus_1" "user-b" subscribed)
             _ eq_refl ltac:(discriminate)).
Defined.

Lemma legacy_cancel_agrees_for_owner_witness :
  Legacy.cancelSubscription "cus_1" subscribed
  = Gateway.cancelSubscription "cus_1" "user-a" subscribed.
Proof.
  exact (legacy_cancel_agrees_for_owner "cus_1" "user-a" subscribed
           _ eq_refl eq_refl).
Defined.

Lemma cancel_touches_only_its_customer_witness :
  NoDup (map Stripe.Subscription.id (Stripe.subscriptions two_subscribers))
  /\ "cus_2" <> "cus_1"
  /\ Stripe.active_of "cus_1" two_subscribers = [active_subscription "sub_1" "cus_1"]
  /\ Stripe.active_of "cus_1"
       (snd (Gateway.cancelSubscription "cus_1" "user-a" two_subscribers)) = []
  /\ Stripe.active_of "cus_2" two_subscribers = [active_subscription "sub_2" "cus_2"]
  /\ Stripe.customers
       (snd (Gateway.cancelSubscription "cus_1" "user-a" two_subscribers))
     = Stripe.customers two_subscribers
  /\ Stripe.sessions
       (snd (Gateway.cancelSubscription "cus_1" "user-a" two_subscribers))
     = Stripe.sessions two_subscribers
  /\ Stripe.active_of "cus_2"
       (snd (Gateway.cancelSubscription "cus_1" "user-a" two_subscribers))
     = Stripe.active_of "cus_2" two_subscribers.
Proof.
  assert (H1 : NoDup (map Stripe.Subscription.id
                        (Stripe.subscriptions two_subscribers))).
  { apply (bool_decide_unpack _). vm_compute. exact I. }
  assert (H2 : "cus_2" <> "cus_1") by discriminate.
  split; [exact H1|]. split; [exact H2|].
  split; [reflexivity|]. split; [reflexivity|]. split; [reflexivity|].
  exact (cancel_touches_only_its_customer "cus_1" "user-a" "cus_2"
           two_subscribers H1 H2).
Defined.

Lemma cancel_then_check_witness :
  Gateway.looks_like_userId "cus_1" "user-a" = false
  /\ (length (Stripe.active_of "cus_1" subscribed) <= 1)%nat
  /\ Gateway.period_ends_dated "cus_1" subscribed
  /\ exists r st1,
       Gateway.cancelSubscription "cus_1" "user-a" subscribed
       = (Stripe.Returned r, st1)
       /\ Gateway.status r = 200%nat
       /\ Stripe.active_of "cus_1" st1 = []
       /\ Gateway.checkSubscription toISOString "cus_1" "user-a" st1
          = (Stripe.Returned
               {| Gateway.status := 200;
                  Gateway.json :=
                    Gateway.SubscriptionStatus
                      {| Gateway.Status.isSubscribed := false;
                         Gateway.Status.subscriptionDetails := Some None;
                         Gateway.Status.error := None;
                         Gateway.Status.clearData := None |} |},
             st1).
Proof.
  assert (H1 : (length (Stripe.active_of "cus_1" subscribed) <= 1)%nat)
    by (vm_compute; lia).
  assert (Hd : Gateway.period_ends_dated "cus_1" subscribed).
  { intros s [<- | []] _. reflexivity. }
  split; [reflexivity|]. split; [exact H1|]. split; [exact Hd|].
  exact (cancel_then_check toISOString "cus_1" "user-a" subscribed
           _ eq_refl eq_refl eq_refl H1 Hd).
Defined.

Lemma checkout_then_check_witness :
  let st1 := snd (Gateway.createCheckoutSession "price_monthly" "user-b"
                    "a@example.com" shared_email_lapsed) in
  NoDup (map Stripe.Customer.id (Stripe.customers shared_email_lapsed))
  /\ Gateway.createCheckoutSession "price_monthly" "user-b" "a@example.com"
       shared_email_lapsed
     = (Stripe.Returned
          {| Gateway.status := 200;
             Gateway.json := Gateway.CheckoutSession "cs_3" "cus_1" |},
        st1)
  /\ Gateway.looks_like_userId "cus_1" "user-b" = false
  /\ Gateway.period_ends_dated "cus_1" shared_email_lapsed
  /\ Gateway.checkSubscription toISOString "cus_1" "user-b" st1
     = (Stripe.Returned
          {| Gateway.status := 200;
             Gateway.json :=
               Gateway.SubscriptionStatus
                 {| Gateway.Status.isSubscribed := false;
                    Gateway.Status.subscriptionDetails := Some None;
                    Gateway.Status.error := None;
                    Gateway.Status.clearData := None |} |},
        st1).
Proof.
  intros st1.
  assert (H1 : NoDup (map Stripe.Customer.id
                        (Stripe.customers shared_email_lapsed))).
  { apply (bool_decide_unpack _). vm_compute. exact I. }
  assert (H2 : Gateway.createCheckoutSession "price_monthly" "user-b"
                 "a@example.com" shared_email_lapsed
               = (Stripe.Returned
                    {| Gateway.status := 200;
                       Gateway.json := Gateway.CheckoutSession "cs_3" "cus_1" |},
                  st1)) by reflexivity.
  assert (H3 : Gateway.looks_like_userId "cus_1" "user-b" = false) by reflexivity.
  assert (Hd : Gateway.period_ends_dated "cus_1" shared_email_lapsed).
  { intros s [<- | []] _. reflexivity. }
  split; [exact H1|]. split; [exact H2|]. split; [exact H3|]. split; [exact Hd|].
  exact (checkout_then_check toISOString "price_monthly" "user-b" "a@example.com"
           shared_email_lapsed st1 "cs_3" "cus_1" H1 H2 H3 Hd).
Defined.

Lemma checkout_reuses_customer_witness :
  map Stripe.Customer.id
    (Stripe.customers
       (snd (Gateway.createCheckoutSession "price_monthly" "user-b"
               "a@example.com" subscribed)))
  = map Stripe.Customer.id (Stripe.customers subscribed)
  /\ exists c,
       Stripe.customers
         (snd (Gateway.createCheckoutSession "price_monthly" "user-c"
                 "c@example.com" subscribed))
       = c :: Stripe.customers subscribed
       /\ Stripe.Customer.email c = "c@example.com"
       /\ Stripe.Customer.userId c = Some "user-c".
Proof.
  split.
  - exact (proj1 (proj1 (checkout_reuses_customer "price_monthly" "user-b"
                           "a@example.com" subscribed)
                    ltac:(discriminate))).
  - exact (proj1 (proj2 (checkout_reuses_customer "price_monthly" "user-c"
                           "c@example.com" subscribed))
             eq_refl).
Defined.

Lemma found_customer_passes_check_witness :
  NoDup (map Stripe.Customer.id (Stripe.customers shared_email))
  /\ "a@example.com" <> "" /\ "user-b" <> ""
  /\ Gateway.findCustomerByEmail (Some "a@example.com") (Some "user-b") shared_email
     = (Stripe.Returned
          {| Gateway.status := 200; Gateway.json := Gateway.CustomerId (Some "cus_1") |},
        Stripe.retagged "cus_1" "user-b" shared_email)
  /\ Gateway.looks_like_userId "cus_1" "user-b" = false
  /\ Gateway.period_ends_dated "cus_1" shared_email
  /\ exists body,
       Gateway.checkSubscription toISOString "cus_1" "user-b"
         (Stripe.retagged "cus_1" "user-b" shared_email)
       = (Stripe.Returned
            {| Gateway.status := 200; Gateway.json := Gateway.SubscriptionStatus body |},
          Stripe.retagged "cus_1" "user-b" shared_email)
       /\ (Gateway.Status.isSubscribed body = true
           <-> Stripe.active_of "cus_1" shared_email <> [])
       /\ Gateway.Status.error body = None
       /\ Gateway.Status.clearData body = None.
Proof.
  assert (H1 : NoDup (map Stripe.Customer.id (Stripe.customers shared_email))).
  { apply (bool_decide_unpack _). vm_compute. exact I. }
  assert (H2 : "a@example.com" <> "") by discriminate.
  assert (H3 : "user-b" <> "") by discriminate.
  assert (Hd : Gateway.period_ends_dated "cus_1" shared_email).
  { intros s [<- | []] _. reflexivity. }
  split; [exact H1|]. split; [exact H2|]. split; [exact H3|].
  split; [reflexivity|]. split; [reflexivity|]. split; [exact Hd|].
  exact (found_customer_passes_check toISOString "a@example.com" "user-b"
           "cus_1" shared_email _ H1 H2 H3 eq_refl eq_refl Hd).
Defined.

Lemma analysis_reply_is_usable_witness :
  AnalysisRoute.aiAnalysis workflow (JStr "felt strong") (JStr "user-a")
  = AnalysisRoute.Analysis (JStr "y")
  /\ JStr "y" <> JUndefined.
Proof.
  split; [reflexivity|].
  destruct (analysis_reply_is_usable workflow (JStr "felt strong") (JStr "user-a")
              (JStr "y") eq_refl)
    as (_ & _ & code & data & _ & _ & Hdef & _).
  exact Hdef.
Defined.

Lemma cors_origin_allowed_witness :
  "https://app.example.org" <> ""
  /\ (Cors.origin (Some "https://app.example.org") (Some "https://app.example.org")
      = true
      <-> Gateway.includes "https://app.example.org" "localhost" = true
          \/ Gateway.includes "https://app.example.org" "vercel.app" = true
          \/ Some "https://app.example.org" = Some "https://app.example.org").
Proof.
  assert (H1 : "https://app.example.org" <> "") by discriminate.
  split; [exact H1|].
  exact (proj2 (proj2 (cors_origin_allowed (Some "https://app.example.org")
                         "https://app.example.org")) H1).
Defined.

Lemma identity_map_round_trip_witness :
  "user-a" <> ""
  /\ IdentityMap.getCustomerIdForUser "user-a"
       (IdentityMap.setCustomerIdForUser "user-a" "cus_1" ∅) = Some "cus_1".
Proof.
  assert (H1 : "user-a" <> "") by discriminate.
  split; [exact H1|].
  exact (proj1 (identity_map_round_trip "user-a" "cus_1" ∅ H1)).
Defined.

Lemma identity_map_isolation_witness :
  "user-a" <> "user-b"
  /\ IdentityMap.getCustomerIdForUser "user-b"
       (IdentityMap.setCustomerIdForUser "user-a" "cus_1" ∅)
     = IdentityMap.getCustomerIdForUser "user-b" ∅.
Proof.
  assert (H1 : "user-a" <> "user-b") by discriminate.
  split; [exact H1|].
  exact (proj1 (identity_map_isolation "user-a" "user-b" "cus_1" ∅ H1)).
Defined.

Lemma clear_all_removes_every_mapping_witness :
  String.prefix "stripe_customer_id_" "user_email" = false
  /\ "user_email" <> IdentityMap.STRIPE_CUSTOMER_ID_KEY
  /\ IdentityMap.clearAllStripeData {["user_email" := "a@example.com"]}
     !! "user_email"
     = ({["user_email" := "a@example.com"]} : gmap string string) !! "user_email".
Proof.
  assert (H1 : String.prefix "stripe_customer_id_" "user_email" = false)
    by reflexivity.
  assert (H2 : "user_email" <> IdentityMap.STRIPE_CUSTOMER_ID_KEY) by discriminate.
  split; [exact H1|]. split; [exact H2|].
  exact (proj2 (proj2 (clear_all_removes_every_mapping
                         {["user_email" := "a@example.com"]}))
           "user_email" H1 H2).
Defined.

Lemma combined_workouts_unique_witness :
  NoDup (map WorkoutList.id [shown "2"])
  /\ NoDup (map WorkoutList.id [shown "2"; shown "1"])
  /\ NoDup (map WorkoutList.id
              (WorkoutList.combinedWorkouts [shown "2"] [shown "2"; shown "1"])).
Proof.
  assert (H1 : NoDup (map WorkoutList.id [shown "2"])).
  { apply (bool_decide_unpack _). vm_compute. exact I. }
  assert (H2 : NoDup (map WorkoutList.id [shown "2"; shown "1"])).
  { apply (bool_decide_unpack _). vm_compute. exact I. }
  split; [exact H1|]. split; [exact H2|].
  exact (proj2 (proj2 (combined_workouts_unique [shown "2"]
                         [shown "2"; shown "1"])) H1 H2).
Defined.

End ConcreteMore.
